(** * SOC report generator: severity analysis, PDF layout arithmetic and the
      report routes

    The development follows the TypeScript sources:
    - [src/pdf/generator.ts] (class [PDFGenerator]): [analyzeFindings],
      [getSeverityColor] and the bar width used by [generateReport];
    - [src/routes/reports.ts]: the Express route handlers over the Prisma
      [Report] table and the local [reports] directory.

    JavaScript values coming from a parsed JSON body are modelled by the
    inductive type [JS.value]; exceptions by the [Result] monad; the database
    and the file system by an explicit [World] that every handler threads. *)

From Stdlib Require Import ZArith QArith Qminmax String Ascii List Lia Permutation Sorted.
From Stdlib.Strings Require Import Byte.
From stdpp Require Import base gmap strings list pretty.
Import ListNotations.

Local Open Scope Z_scope.
Local Open Scope string_scope.

(* ===================================================================== *)
(** ** Exceptions *)
(* ===================================================================== *)

(** What a [throw] carries.  Only [error.message] is ever read by the
    handlers; the constructor records where the exception comes from. *)
Inductive Error : Type :=
| TypeError (message : string)        (* raised by the JavaScript engine *)
| PrismaError (message : string)      (* raised by the data-access layer *)
| RenderError (message : string)      (* the PDF promise rejected *)
| FsError (message : string).         (* raised by [fs] *)

Definition message (e : Error) : string :=
  match e with
  | TypeError m | PrismaError m | RenderError m | FsError m => m
  end.

Inductive Result (A : Type) : Type :=
| Ok (a : A)
| Throw (e : Error).
Arguments Ok {A} a.
Arguments Throw {A} e.

Definition bind {A B : Type} (r : Result A) (k : A -> Result B) : Result B :=
  match r with
  | Ok a => k a
  | Throw e => Throw e
  end.

Notation "x <- r ;; k" := (bind r (fun x => k))
  (at level 100, r at next level, right associativity).

(** [Array.prototype.forEach] with a callback that updates an accumulator:
    the first exception aborts the loop. *)
Fixpoint forEach {A S : Type} (f : S -> A -> Result S) (l : list A) (s : S)
  : Result S :=
  match l with
  | [] => Ok s
  | x :: l' => s' <- f s x ;; forEach f l' s'
  end.

(* ===================================================================== *)
(** ** JavaScript values *)
(* ===================================================================== *)

Module JS.

Local Set Warnings "-register-all".

(** Values that [JSON.parse] can produce, plus [undefined].  Numbers are
    rationals: every JSON number literal denotes one. *)
Inductive value : Type :=
| Undefined
| Null
| Bool (b : bool)
| Num (q : Q)
| Str (s : string)
| Arr (items : list value)
| Obj (fields : list (string * value)).

(** ToBoolean. *)
Definition truthy (v : value) : bool :=
  match v with
  | Undefined | Null => false
  | Bool b => b
  | Num q => negb (Qeq_bool q 0)
  | Str s => negb (String.eqb s "")
  | Arr _ | Obj _ => true
  end.

(** [a || b]: the left operand when it is truthy, else the right one. *)
Definition or (a b : value) : value := if truthy a then a else b.

Fixpoint assoc (k : string) (fields : list (string * value)) : value :=
  match fields with
  | [] => Undefined
  | (k', v) :: rest => if String.eqb k k' then v else assoc k rest
  end.

(** [v.k] for the property names the handlers read ([severity], [id],
    [title], ...): own properties of objects; [undefined] on primitives and
    arrays, none of whose prototypes defines these names; a [TypeError] on
    [undefined] and [null]. *)
Definition prop (v : value) (k : string) : Result value :=
  match v with
  | Undefined =>
      Throw (TypeError ("Cannot read properties of undefined (reading '" ++ k ++ "')"))
  | Null =>
      Throw (TypeError ("Cannot read properties of null (reading '" ++ k ++ "')"))
  | Obj fields => Ok (assoc k fields)
  | _ => Ok Undefined
  end.

Definition upcase (c : ascii) : ascii :=
  let n := nat_of_ascii c in
  if (andb (Nat.leb 97 n) (Nat.leb n 122)) then ascii_of_nat (n - 32) else c.

(** [String.prototype.toUpperCase] on ASCII text: the letters a-z are
    mapped to A-Z and every other character is kept. *)
Fixpoint toUpperCase (s : string) : string :=
  match s with
  | EmptyString => EmptyString
  | String c s' => String (upcase c) (toUpperCase s')
  end.

(** The method call [v.toUpperCase()]: only strings have the method. *)
Definition callToUpperCase (v : value) : Result string :=
  match v with
  | Str s => Ok (toUpperCase s)
  | Undefined | Null =>
      Throw (TypeError "Cannot read properties of undefined (reading 'toUpperCase')")
  | _ => Throw (TypeError "(intermediate value).toUpperCase is not a function")
  end.

Definition isArray (v : value) : bool :=
  match v with Arr _ => true | _ => false end.

Definition int (z : Z) : value := Num (inject_Z z).

End JS.

(* ===================================================================== *)
(** ** src/pdf/generator.ts *)
(* ===================================================================== *)

Record FindingsAnalysis : Type := mkAnalysis {
  totalFindings : Z;
  criticalCount : Z;
  highCount : Z;
  mediumCount : Z;
  lowCount : Z
}.

(** [(finding.severity || 'MEDIUM').toUpperCase()] *)
Definition severityOf (finding : JS.value) : Result string :=
  s <- JS.prop finding "severity" ;;
  JS.callToUpperCase (JS.or s (JS.Str "MEDIUM")).

(** The four-way [switch] of [analyzeFindings]; it has no [default]. *)
Definition bump (counts : FindingsAnalysis) (severity : string) : FindingsAnalysis :=
  if String.eqb severity "CRITICAL" then
    mkAnalysis (totalFindings counts) (criticalCount counts + 1) (highCount counts)
               (mediumCount counts) (lowCount counts)
  else if String.eqb severity "HIGH" then
    mkAnalysis (totalFindings counts) (criticalCount counts) (highCount counts + 1)
               (mediumCount counts) (lowCount counts)
  else if String.eqb severity "MEDIUM" then
    mkAnalysis (totalFindings counts) (criticalCount counts) (highCount counts)
               (mediumCount counts + 1) (lowCount counts)
  else if String.eqb severity "LOW" then
    mkAnalysis (totalFindings counts) (criticalCount counts) (highCount counts)
               (mediumCount counts) (lowCount counts + 1)
  else counts.

Definition countFinding (counts : FindingsAnalysis) (finding : JS.value)
  : Result FindingsAnalysis :=
  severity <- severityOf finding ;;
  Ok (bump counts severity).

Definition analyzeFindings (findings : list JS.value) : Result FindingsAnalysis :=
  forEach countFinding findings
          (mkAnalysis (Z.of_nat (length findings)) 0 0 0 0).

Definition getSeverityColor (severity : string) : string :=
  if String.eqb severity "CRITICAL" then "#dc2626"
  else if String.eqb severity "HIGH" then "#f97316"
  else if String.eqb severity "MEDIUM" then "#eab308"
  else if String.eqb severity "LOW" then "#22c55e"
  else "#000000".

(** [Math.max(50, 300 * (sev.count / Math.max(1, totalFindings)))], over the
    rationals.  [Math.max] returns one of its operands, so the rounding of
    the quotient and of the product plays no part in the comparison with
    50. *)
Definition barWidth (count totalFindings : Q) : Q :=
  Qmax 50 (300 * (count / Qmax 1 totalFindings)).

(* ===================================================================== *)
(** ** Formatting helpers: numbers, dates, paths *)
(* ===================================================================== *)

Definition digit (z : Z) : ascii := ascii_of_nat (48 + Z.to_nat (z mod 10)).

(** The last [width] decimal digits of [z], zero-padded on the left. *)
Fixpoint padded (width : nat) (z : Z) : string :=
  match width with
  | O => ""
  | S w => padded w (z / 10) ++ String (digit z) ""
  end.

(** [Date.prototype.toISOString] of the instant [ms] milliseconds after the
    epoch, for years 0000 to 9999 (proleptic Gregorian calendar, UTC). *)
Definition toISOString (ms : Z) : string :=
  let days := ms / 86400000 in
  let rest := ms mod 86400000 in
  let z := days + 719468 in
  let era := z / 146097 in
  let doe := z - era * 146097 in
  let yoe := (doe - doe / 1460 + doe / 36524 - doe / 146096) / 365 in
  let doy := doe - (365 * yoe + yoe / 4 - yoe / 100) in
  let mp := (5 * doy + 2) / 153 in
  let d := doy - (153 * mp + 2) / 5 + 1 in
  let m := if (mp <? 10)%Z then mp + 3 else mp - 9 in
  let y := yoe + era * 400 + (if (m <=? 2)%Z then 1 else 0) in
  padded 4 y ++ "-" ++ padded 2 m ++ "-" ++ padded 2 d ++ "T"
    ++ padded 2 (rest / 3600000) ++ ":" ++ padded 2 (rest / 60000 mod 60) ++ ":"
    ++ padded 2 (rest / 1000 mod 60) ++ "." ++ padded 3 (rest mod 1000) ++ "Z".

(** [`${(bytes / 1024).toFixed(2)} KB`]: [bytes / 1024] is exact in binary
    floating point, and [toFixed(2)] rounds the exact value to the nearest
    hundredth, ties upwards. *)
Definition formatKB (bytes : Z) : string :=
  let n := (100 * bytes + 512) / 1024 in
  pretty (n / 100) ++ "." ++ padded 2 (n mod 100) ++ " KB".

Fixpoint stripPrefix (p s : string) : option string :=
  match p, s with
  | EmptyString, _ => Some s
  | String a p', String b s' => if Ascii.eqb a b then stripPrefix p' s' else None
  | String _ _, EmptyString => None
  end.

Fixpoint contains (c : ascii) (s : string) : bool :=
  match s with
  | EmptyString => false
  | String a s' => Ascii.eqb a c || contains c s'
  end.

(** [String.prototype.endsWith] *)
Definition endsWith (s suffix : string) : bool :=
  let ls := String.length s in
  let lf := String.length suffix in
  (lf <=? ls)%nat && String.eqb (substring (ls - lf) lf s) suffix.

(** The [path] module of Node on POSIX. *)
Module Path.

(** The pieces of a path between its slashes. *)
Fixpoint segments (path : string) : list string :=
  match path with
  | EmptyString => [EmptyString]
  | String c rest =>
      if Ascii.eqb c "/" then EmptyString :: segments rest
      else match segments rest with
           | piece :: pieces => String c piece :: pieces
           | [] => [String c EmptyString]
           end
  end.

Fixpoint joinSegments (pieces : list string) : string :=
  match pieces with
  | [] => EmptyString
  | [piece] => piece
  | piece :: rest => piece ++ "/" ++ joinSegments rest
  end.

(** One segment against the segments kept so far, the last kept first: an
    empty segment and [.] are dropped, [..] removes the last kept segment
    unless there is none or it is [..] itself, and is then kept only when
    the path may climb above its start. *)
Definition resolve (allowAboveRoot : bool) (kept : list string) (segment : string)
  : list string :=
  if String.eqb segment "" || String.eqb segment "." then kept
  else if String.eqb segment ".." then
    match kept with
    | last :: before =>
        if String.eqb last ".." then (if allowAboveRoot then segment :: kept else kept)
        else before
    | [] => if allowAboveRoot then [segment] else []
    end
  else segment :: kept.

(** [normalizeString(path, allowAboveRoot, '/', isPosixPathSeparator)] *)
Definition normalizeString (allowAboveRoot : bool) (path : string) : string :=
  joinSegments (rev (fold_left (resolve allowAboveRoot) (segments path) [])).

Definition isAbsolute (path : string) : bool :=
  match path with
  | String c _ => Ascii.eqb c "/"
  | EmptyString => false
  end.

(** [path.normalize] *)
Definition normalize (path : string) : string :=
  if String.eqb path "" then "."
  else
    let absolute := isAbsolute path in
    let trailingSeparator := endsWith path "/" in
    let body := normalizeString (negb absolute) path in
    if String.eqb body "" then
      if absolute then "/" else if trailingSeparator then "./" else "."
    else (if absolute then "/" else "") ++ body ++ (if trailingSeparator then "/" else "").

(** [path.join(a, b)]: the arguments that are not empty, joined by a slash
    and normalised. *)
Definition join (a b : string) : string :=
  if String.eqb a "" then (if String.eqb b "" then "." else normalize b)
  else if String.eqb b "" then normalize a
  else normalize (a ++ "/" ++ b).

End Path.

(** [path.join(dir, name)] *)
Definition pathJoin (dir name : string) : string := Path.join dir name.

(* ===================================================================== *)
(** ** The Report table, the reports directory, the environment *)
(* ===================================================================== *)

Definition Buffer : Type := list byte.

(** One row of the [Report] table (prisma/migrations). *)
Module Report.
Record t : Type := mk {
  id : string;
  executionId : string;
  title : option string;
  inputFindings : JS.value;
  summary : JS.value;
  pdfUrl : option string;
  pdfPath : option string;
  fileSize : option string;
  status : string;
  createdAt : Z;
  updatedAt : Z;
  generatedAt : Z
}.
End Report.

Record File : Type := mkFile { content : Buffer; birthtime : Z }.

(** The state every handler reads and writes: the rows of the table in
    insertion order and the regular files on disk, keyed by path. *)
Record World : Type := mkWorld {
  table : list Report.t;
  disk : gmap string File
}.

(** [SecurityFinding] as the route builds it: every field but [severity] is
    whatever the [||] chain yields, a caller value or the default string. *)
Record SecurityFinding : Type := mkFinding {
  finding_id : JS.value;
  finding_title : JS.value;
  finding_severity : string;
  finding_description : JS.value;
  finding_recommendation : JS.value;
  finding_timestamp : JS.value;
  finding_source : JS.value
}.

Record ReportData : Type := mkReportData {
  rd_executionId : string;
  rd_findings : list SecurityFinding;
  rd_generatedAt : Z;
  rd_metadata : FindingsAnalysis
}.

(** What [fs.writeFileSync] runs into once the directory of the file is
    there: the bytes are written; the file cannot be opened, and nothing is
    touched; or the file is opened (created or emptied) and the write fails
    after [written] bytes. *)
Inductive WriteOutcome : Type :=
| Written
| OpenFails (message : string)
| WriteFails (written : nat) (message : string).

(** What a request observes of the outside: the working directory of the
    process, the clock (read once per request), the identifier the
    data-access layer generates for a new row, whether the database answers
    the first, second, ... call that the handler makes, how the client reads
    a filter object given where a string is expected, what the PDF library
    produces, what a write to the disk runs into.  Requests are handled one
    after the other. *)
Record Env : Type := mkEnv {
  cwd : string;
  now : Z;
  cuid : string;
  dbUp : nat -> bool;
  stringFilter : list (string * JS.value) -> Result (string -> bool);
  renderPdf : ReportData -> Result Buffer;
  diskWrite : WriteOutcome
}.

(** The database answers every call of the request (no handler makes more
    than four). *)
Definition dbOnline (env : Env) : bool := forallb (dbUp env) [0; 1; 2; 3]%nat.

(** The disk takes the bytes. *)
Definition diskWritable (env : Env) : bool :=
  match diskWrite env with Written => true | _ => false end.

Definition reportsDir (env : Env) : string := pathJoin (cwd env) "reports".

(* ===================================================================== *)
(** ** The data-access layer (Prisma client) on the table *)
(* ===================================================================== *)

Module Prisma.

Definition unreachable : Error := PrismaError "Can't reach database server".

(** The [call]-th database call of the request. *)
Definition connected {A : Type} (env : Env) (call : nat) (r : Result A) : Result A :=
  if dbUp env call then r else Throw unreachable.

Definition hasId (i : string) (r : Report.t) : bool := String.eqb (Report.id r) i.
Definition hasExecutionId (e : string) (r : Report.t) : bool :=
  String.eqb (Report.executionId r) e.

(** [$queryRaw`SELECT 1`] *)
Definition queryRaw (env : Env) (call : nat) : Result unit := connected env call (Ok tt).

(** [findUnique({ where: { id } })] *)
Definition findUniqueById (env : Env) (call : nat) (i : string) (t : list Report.t)
  : Result (option Report.t) :=
  connected env call (Ok (List.find (hasId i) t)).

(** The client checks the [where: { executionId }] argument of [findUnique]
    before any query is sent: a unique key is a string, and whatever else
    the body held is rejected. *)
Definition stringArg (e : JS.value) : Result string :=
  match e with
  | JS.Str s => Ok s
  | _ => Throw (PrismaError "Argument `executionId`: Invalid value provided. Expected String.")
  end.

(** [findUnique({ where: { executionId } })] *)
Definition findUniqueByExecutionId (env : Env) (call : nat) (e : string)
           (t : list Report.t) : Result (option Report.t) :=
  connected env call (Ok (List.find (hasExecutionId e) t)).

(** [create({ data })]: the row gets a generated [id], [createdAt] and
    [updatedAt]; the primary key and the unique index on [executionId] are
    enforced. *)
Definition create (env : Env) (call : nat) (e : string) (ttl : option string)
           (findings smry : JS.value) (st : string) (gen : Z) (t : list Report.t)
  : Result (Report.t * list Report.t) :=
  connected env call
    (if existsb (hasId (cuid env)) t then
       Throw (PrismaError "Unique constraint failed on the fields: (`id`)")
     else if existsb (hasExecutionId e) t then
       Throw (PrismaError "Unique constraint failed on the fields: (`executionId`)")
     else
       let row := Report.mk (cuid env) e ttl findings smry None None None st
                            (now env) (now env) gen in
       Ok (row, (t ++ [row])%list)).

(** [update({ where: { id }, data })] *)
Definition update (env : Env) (call : nat) (i : string) (data : Report.t -> Report.t)
           (t : list Report.t) : Result (Report.t * list Report.t) :=
  connected env call
    (match List.find (hasId i) t with
     | None => Throw (PrismaError "Record to update not found.")
     | Some r =>
         Ok (data r, map (fun x => if hasId i x then data x else x) t)
     end).

(** The [where: { executionId }] of [updateMany], for whatever the body
    held: a string selects the rows of that execution, an object is a filter
    on the column, which the client reads or rejects, [undefined] is no
    condition, and anything else is rejected. *)
Definition executionIdFilter (env : Env) (e : JS.value) : Result (string -> bool) :=
  match e with
  | JS.Str s => Ok (fun x => String.eqb x s)
  | JS.Obj fields => stringFilter env fields
  | JS.Undefined => Ok (fun _ => true)
  | _ => Throw (PrismaError
                  "Argument `executionId`: Invalid value provided. Expected StringFilter or String.")
  end.

(** [updateMany({ where: { executionId }, data })] *)
Definition updateMany (env : Env) (call : nat) (e : JS.value) (data : Report.t -> Report.t)
           (t : list Report.t) : Result (list Report.t) :=
  selects <- executionIdFilter env e ;;
  connected env call
    (Ok (map (fun x => if selects (Report.executionId x) then data x else x) t)).

(** [delete({ where: { id } })] *)
Definition delete (env : Env) (call : nat) (i : string) (t : list Report.t)
  : Result (list Report.t) :=
  connected env call
    (match List.find (hasId i) t with
     | None => Throw (PrismaError "Record to delete does not exist.")
     | Some _ => Ok (List.filter (fun x => negb (hasId i x)) t)
     end).

(** The [where] of the list route: empty, or [{ status }]. *)
Definition matches (where_ : option string) (r : Report.t) : bool :=
  match where_ with
  | None => true
  | Some s => String.eqb (Report.status r) s
  end.

(** [count({ where })] *)
Definition count (env : Env) (call : nat) (where_ : option string) (t : list Report.t)
  : Result Z :=
  connected env call (Ok (Z.of_nat (length (List.filter (matches where_) t)))).

End Prisma.

(** [findMany({ where, orderBy: { [sortBy]: sortOrder }, skip, take })] *)
Module Query.

Inductive SortKey : Type :=
| Text (s : option string)
| Date (z : Z).

(** Ascending order of a column; [NULL] sorts after every value. *)
Definition keyLe (a b : SortKey) : bool :=
  match a, b with
  | Text (Some x), Text (Some y) => String.leb x y
  | Text _, Text None => true
  | Text None, Text (Some _) => false
  | Date x, Date y => (x <=? y)%Z
  | Text _, Date _ => true
  | Date _, Text _ => false
  end.

(** The scalar columns that [orderBy] accepts. *)
Definition column (sortBy : string) : option (Report.t -> SortKey) :=
  if String.eqb sortBy "id" then Some (fun r => Text (Some (Report.id r)))
  else if String.eqb sortBy "executionId" then Some (fun r => Text (Some (Report.executionId r)))
  else if String.eqb sortBy "title" then Some (fun r => Text (Report.title r))
  else if String.eqb sortBy "pdfUrl" then Some (fun r => Text (Report.pdfUrl r))
  else if String.eqb sortBy "pdfPath" then Some (fun r => Text (Report.pdfPath r))
  else if String.eqb sortBy "fileSize" then Some (fun r => Text (Report.fileSize r))
  else if String.eqb sortBy "status" then Some (fun r => Text (Some (Report.status r)))
  else if String.eqb sortBy "createdAt" then Some (fun r => Date (Report.createdAt r))
  else if String.eqb sortBy "updatedAt" then Some (fun r => Date (Report.updatedAt r))
  else if String.eqb sortBy "generatedAt" then Some (fun r => Date (Report.generatedAt r))
  else None.

Definition direction (sortOrder : string) : option bool :=
  if String.eqb sortOrder "asc" then Some true
  else if String.eqb sortOrder "desc" then Some false
  else None.

Fixpoint insertBy {A : Type} (le : A -> A -> bool) (x : A) (l : list A) : list A :=
  match l with
  | [] => [x]
  | y :: l' => if le x y then x :: l else y :: insertBy le x l'
  end.

(** The ordering of the rows.  The query names one column and the database
    leaves the order of rows with equal keys open; here the sort is stable:
    among such rows the earlier of the table stays first. *)
Definition sortBy {A : Type} (le : A -> A -> bool) (l : list A) : list A :=
  fold_right (insertBy le) [] l.

(** [skip] rows are passed over, then [take] rows are returned; a negative
    [take] counts from the end of the ordered rows.  The numbers are taken
    as they are: what the client does with one beyond its integer range is
    not modelled. *)
Definition window {A : Type} (skip take : Z) (rows : list A) : list A :=
  if (0 <=? take)%Z then firstn (Z.to_nat take) (skipn (Z.to_nat skip) rows)
  else rev (firstn (Z.to_nat (- take)) (skipn (Z.to_nat skip) (rev rows))).

Definition findMany (env : Env) (call : nat) (where_ : option string)
           (sortBy_ sortOrder : string) (skip take : Z) (t : list Report.t)
  : Result (list Report.t) :=
  match column sortBy_, direction sortOrder with
  | Some key, Some asc =>
      if (skip <? 0)%Z then
        Throw (PrismaError "Invalid value for skip argument: Value can only be positive.")
      else
        Prisma.connected env call
          (let le := fun a b => if asc then keyLe (key a) (key b)
                                else keyLe (key b) (key a) in
           Ok (window skip take (sortBy le (List.filter (Prisma.matches where_) t))))
  | _, _ => Throw (PrismaError "Invalid `prisma.report.findMany()` invocation: unknown orderBy argument.")
  end.

End Query.

(* ===================================================================== *)
(** ** Handlers: state, exceptions, responses *)
(* ===================================================================== *)

(** A computation that reads and writes the world and may throw.  The world
    a [throw] leaves behind keeps the writes made before it. *)
Definition M (A : Type) : Type := World -> Result A * World.

Definition ret {A : Type} (a : A) : M A := fun w => (Ok a, w).

Definition bindM {A B : Type} (m : M A) (k : A -> M B) : M B :=
  fun w => match m w with
           | (Ok a, w') => k a w'
           | (Throw e, w') => (Throw e, w')
           end.

Notation "x <~ m ;; k" := (bindM m (fun x => k))
  (at level 100, m at next level, right associativity).

Definition liftR {A : Type} (r : Result A) : M A := fun w => (r, w).

(** A read-only database call. *)
Definition query {A : Type} (op : list Report.t -> Result A) : M A :=
  fun w => (op (table w), w).

(** A database call that changes the table when it succeeds. *)
Definition mutate {A : Type} (op : list Report.t -> Result (A * list Report.t)) : M A :=
  fun w => match op (table w) with
           | Ok (a, t') => (Ok a, mkWorld t' (disk w))
           | Throw e => (Throw e, w)
           end.

Module Fs.

Definition existsSync (p : string) : M bool :=
  fun w => (Ok (match disk w !! p with Some _ => true | None => false end), w).

Fixpoint isPrefix (l1 l2 : list string) : bool :=
  match l1, l2 with
  | [], _ => true
  | x :: l1', y :: l2' => String.eqb x y && isPrefix l1' l2'
  | _ :: _, [] => false
  end.

(** The directories of the model: the reports directory, which the module
    creates when it is loaded, and the directories above it. *)
Definition isDirectory (env : Env) (p : string) : bool :=
  isPrefix (Path.segments p) (Path.segments (reportsDir env)).

(** The directory that holds [p] is one of them. *)
Definition inDirectory (env : Env) (p : string) : bool :=
  isPrefix (removelast (Path.segments p)) (Path.segments (reportsDir env)).

Definition quoted (p : string) : string := "'" ++ p ++ "'".

(** [fs.writeFileSync(p, data)]: the file is opened for writing, which needs
    its directory, then the bytes are written.  A new file is born now; an
    existing one keeps its birth time. *)
Definition writeFileSync (env : Env) (p : string) (data : Buffer) : M unit :=
  fun w =>
    let born := match disk w !! p with Some f => birthtime f | None => now env end in
    if isDirectory env p then
      (Throw (FsError ("EISDIR: illegal operation on a directory, open " ++ quoted p)), w)
    else if negb (inDirectory env p) then
      (Throw (FsError ("ENOENT: no such file or directory, open " ++ quoted p)), w)
    else
      match diskWrite env with
      | Written => (Ok tt, mkWorld (table w) (<[p := mkFile data born]> (disk w)))
      | OpenFails m => (Throw (FsError m), w)
      | WriteFails written m =>
          (Throw (FsError m),
           mkWorld (table w) (<[p := mkFile (firstn written data) born]> (disk w)))
      end.

Definition unlinkSync (p : string) : M unit :=
  fun w =>
    match disk w !! p with
    | Some _ => (Ok tt, mkWorld (table w) (delete p (disk w)))
    | None => (Throw (FsError "ENOENT: no such file or directory, unlink"), w)
    end.

Definition readFile (p : string) : M Buffer :=
  fun w =>
    match disk w !! p with
    | Some f => (Ok (content f), w)
    | None => (Throw (FsError "ENOENT: no such file or directory, open"), w)
    end.

(** The entry of [dir] that the file at path [p] is, if it lies directly
    in [dir]. *)
Definition entryOf (dir : string) (p : string) : option string :=
  match stripPrefix (dir ++ "/") p with
  | Some name =>
      if String.eqb name "" || contains "/"%char name then None else Some name
  | None => None
  end.

(** [readdirSync(dir)] paired with the [statSync] of every entry. *)
Definition readdirSync (dir : string) : M (list (string * File)) :=
  fun w =>
    (Ok (omap (fun pf => match entryOf dir (fst pf) with
                         | Some name => Some (name, snd pf)
                         | None => None
                         end)
              (map_to_list (disk w))), w).

End Fs.

Inductive Body : Type :=
| Json (v : JS.value)
| Stream (bytes : Buffer).

Record Response : Type := mkResponse {
  statusCode : Z;
  headers : list (string * string);
  body : Body
}.

(** [res.status(code).json(v)]; [res.json(v)] is [json 200 v]. *)
Definition json (code : Z) (v : JS.value) : Response := mkResponse code [] (Json v).

(** [try { body } catch (error) { onError }] around a whole handler. *)
Definition handler (body_ : M Response) (onError : Error -> World -> Response * World)
  : World -> Response * World :=
  fun w => match body_ w with
           | (Ok r, w') => (r, w')
           | (Throw e, w') => onError e w'
           end.

Definition optString (o : option string) : JS.value :=
  match o with Some s => JS.Str s | None => JS.Null end.

(** A [Date] in a JSON response. *)
Definition dateJson (ms : Z) : JS.value := JS.Str (toISOString ms).

Definition failure (error : string) : JS.value :=
  JS.Obj [("success", JS.Bool false); ("error", JS.Str error)].

Definition reportJson (r : Report.t) : JS.value :=
  JS.Obj [("id", JS.Str (Report.id r));
          ("executionId", JS.Str (Report.executionId r));
          ("title", optString (Report.title r));
          ("inputFindings", Report.inputFindings r);
          ("summary", Report.summary r);
          ("pdfUrl", optString (Report.pdfUrl r));
          ("pdfPath", optString (Report.pdfPath r));
          ("fileSize", optString (Report.fileSize r));
          ("status", JS.Str (Report.status r));
          ("createdAt", dateJson (Report.createdAt r));
          ("updatedAt", dateJson (Report.updatedAt r));
          ("generatedAt", dateJson (Report.generatedAt r))].

Definition analysisFields (a : FindingsAnalysis) : list (string * JS.value) :=
  [("totalFindings", JS.int (totalFindings a));
   ("criticalCount", JS.int (criticalCount a));
   ("highCount", JS.int (highCount a));
   ("mediumCount", JS.int (mediumCount a));
   ("lowCount", JS.int (lowCount a))].

Definition analysisJson (a : FindingsAnalysis) : JS.value := JS.Obj (analysisFields a).

(* ===================================================================== *)
(** ** src/routes/reports.ts *)
(* ===================================================================== *)

(** GET /health *)
Definition health (env : Env) : World -> Response * World :=
  handler
    (_ <~ liftR (Prisma.queryRaw env 0) ;;
     ret (json 200 (JS.Obj [("status", JS.Str "OK");
                            ("service", JS.Str "Reports API");
                            ("database", JS.Str "Connected ✅");
                            ("timestamp", dateJson (now env))])))
    (fun error w =>
       (json 500 (JS.Obj [("status", JS.Str "ERROR");
                          ("service", JS.Str "Reports API");
                          ("database", JS.Str "Disconnected ❌");
                          ("error", JS.Str (message error));
                          ("timestamp", dateJson (now env))]), w)).

(** What the generate route reads of the request: [req.body], which holds
    the members of the parsed JSON document or is [undefined] when the
    request carried no body that the parser takes, [req.protocol] and
    [req.get('host')]. *)
Record GenerateRequest : Type := mkGenerate {
  parsedBody : option (list (string * JS.value));
  protocol : string;
  host : option string
}.

(** The members of the body; none when there is no body. *)
Definition reqBody (req : GenerateRequest) : list (string * JS.value) :=
  default [] (parsedBody req).

(** [const { executionId, ... } = req.body] *)
Definition destructure (req : GenerateRequest) : Result (list (string * JS.value)) :=
  match parsedBody req with
  | Some members => Ok members
  | None =>
      Throw (TypeError
               "Cannot destructure property 'executionId' of 'req.body' as it is undefined.")
  end.

Definition items (v : JS.value) : list JS.value :=
  match v with JS.Arr l => l | _ => [] end.

(** The element function of [findings.map((f, index) => ...)]. *)
Definition normalize (env : Env) (index : nat) (f : JS.value) : Result SecurityFinding :=
  id_ <- JS.prop f "id" ;;
  title_ <- JS.prop f "title" ;;
  severity <- severityOf f ;;
  description <- JS.prop f "description" ;;
  details <- JS.prop f "details" ;;
  recommendation <- JS.prop f "recommendation" ;;
  remediation <- JS.prop f "remediation" ;;
  timestamp <- JS.prop f "timestamp" ;;
  source <- JS.prop f "source" ;;
  domain <- JS.prop f "domain" ;;
  let n := pretty (Z.of_nat index + 1)%Z in
  Ok (mkFinding
        (JS.or id_ (JS.Str ("finding-" ++ n)))
        (JS.or title_ (JS.Str ("Security Finding " ++ n)))
        severity
        (JS.or description (JS.or details (JS.Str "No description provided.")))
        (JS.or recommendation
               (JS.or remediation (JS.Str "Investigate and take appropriate action.")))
        (JS.or timestamp (dateJson (now env)))
        (JS.or source (JS.or domain (JS.Str "Unknown")))).

Fixpoint mapIndexed {A B : Type} (f : nat -> A -> Result B) (index : nat) (l : list A)
  : Result (list B) :=
  match l with
  | [] => Ok []
  | x :: l' => y <- f index x ;; ys <- mapIndexed f (S index) l' ;; Ok (y :: ys)
  end.

(** The [data] of the update to COMPLETED. *)
Definition completed (env : Env) (downloadUrl filePath fileSize_ : string) (r : Report.t)
  : Report.t :=
  Report.mk (Report.id r) (Report.executionId r) (Report.title r)
            (Report.inputFindings r) (Report.summary r)
            (Some downloadUrl) (Some filePath) (Some fileSize_)
            "COMPLETED" (Report.createdAt r) (now env) (Report.generatedAt r).

(** The [data] of the update to FAILED. *)
Definition failed (env : Env) (error : Error) (r : Report.t) : Report.t :=
  Report.mk (Report.id r) (Report.executionId r) (Report.title r)
            (Report.inputFindings r)
            (JS.Obj [("error", JS.Str (message error)); ("timestamp", dateJson (now env))])
            (Report.pdfUrl r) (Report.pdfPath r) (Report.fileSize r)
            "FAILED" (Report.createdAt r) (now env) (Report.generatedAt r).

Definition existingResponse (r : Report.t) : Response :=
  json 200 (JS.Obj [("success", JS.Bool true);
                    ("message", JS.Str "Report already exists");
                    ("data", JS.Obj [("reportId", JS.Str (Report.id r));
                                     ("executionId", JS.Str (Report.executionId r));
                                     ("pdfUrl", optString (Report.pdfUrl r));
                                     ("status", JS.Str (Report.status r));
                                     ("createdAt", dateJson (Report.createdAt r))])]).

Definition string_of_host (h : option string) : string :=
  match h with Some s => s | None => "undefined" end.

(** The generate route from the preparation of the PDF data to the success
    response: normalise the findings, render, save the file, mark the row
    COMPLETED. *)
Definition renderAndSave (env : Env) (req : GenerateRequest) (executionId : string)
           (findings : JS.value) (analysis : FindingsAnalysis) (report : Report.t)
  : M Response :=
  normalized <~ liftR (mapIndexed (normalize env) 0 (items findings)) ;;
  let reportData := mkReportData executionId normalized (now env) analysis in
  pdfBuffer <~ liftR (renderPdf env reportData) ;;
  let fileName := "report-" ++ executionId ++ "-" ++ pretty (now env) ++ ".pdf" in
  let filePath := pathJoin (reportsDir env) fileName in
  _ <~ Fs.writeFileSync env filePath pdfBuffer ;;
  let baseUrl := protocol req ++ "://" ++ string_of_host (host req) in
  let downloadUrl := baseUrl ++ "/api/reports/download/" ++ fileName in
  let fileSize_ := formatKB (Z.of_nat (length pdfBuffer)) in
  updatedReport <~ mutate (Prisma.update env 2 (Report.id report)
                             (completed env downloadUrl filePath fileSize_)) ;;
  ret (json 200
    (JS.Obj [("success", JS.Bool true);
             ("message", JS.Str "Report generated successfully");
             ("data", JS.Obj [
                ("reportId", JS.Str (Report.id updatedReport));
                ("executionId", JS.Str (Report.executionId updatedReport));
                ("metadata", JS.Obj (("generatedAt", dateJson (now env))
                                     :: analysisFields analysis));
                ("pdf", JS.Obj [("fileName", JS.Str fileName);
                                ("fileSize", JS.Str fileSize_);
                                ("downloadUrl", JS.Str downloadUrl);
                                ("viewUrl", JS.Str (baseUrl ++ "/api/reports/view/" ++ fileName));
                                ("localPath", JS.Str filePath)]);
                ("summary", analysisJson analysis);
                ("databaseRecord", JS.Obj [
                   ("id", JS.Str (Report.id updatedReport));
                   ("status", JS.Str (Report.status updatedReport));
                   ("createdAt", dateJson (Report.createdAt updatedReport));
                   ("updatedAt", dateJson (Report.updatedAt updatedReport))]);
                ("timestamp", dateJson (now env))])])).

(** The part of the generate route after the existence check: analyse the
    findings, insert the PROCESSING row, then render and save. *)
Definition generateNew (env : Env) (req : GenerateRequest) (executionId : string)
           (findings : JS.value) : M Response :=
  analysis <~ liftR (analyzeFindings (items findings)) ;;
  report <~ mutate (Prisma.create env 1 executionId
                      (Some ("Security Report - " ++ executionId))
                      findings (analysisJson analysis) "PROCESSING" (now env)) ;;
  renderAndSave env req executionId findings analysis report.

(** The [catch] of the generate route: a best-effort [updateMany] to FAILED
    whose own failure (the body that cannot be destructured, the filter the
    client rejects, the database that does not answer) is only logged, then
    the 500 response. *)
Definition generateFailed (env : Env) (req : GenerateRequest) (error : Error) (w : World)
  : Response * World :=
  let w' :=
    match destructure req with
    | Ok members =>
        let executionId := JS.assoc "executionId" members in
        if JS.truthy executionId then
          match Prisma.updateMany env 3 executionId (failed env error) (table w) with
          | Ok t' => mkWorld t' (disk w)
          | Throw _ => w
          end
        else w
    | Throw _ => w
    end in
  (json 500 (JS.Obj [("success", JS.Bool false);
                     ("error", JS.Str "Failed to generate report");
                     ("message", JS.Str (message error));
                     ("timestamp", dateJson (now env))]), w').

(** POST /generate *)
Definition generate (env : Env) (req : GenerateRequest) : World -> Response * World :=
  handler
    (members <~ liftR (destructure req) ;;
     let executionId := JS.assoc "executionId" members in
     let findings := JS.assoc "findings" members in
     if negb (JS.truthy executionId) then
       ret (json 400 (failure "executionId is required"))
     else if negb (JS.truthy findings) || negb (JS.isArray findings) then
       ret (json 400 (failure "findings must be an array"))
     else
       e <~ liftR (Prisma.stringArg executionId) ;;
       existingReport <~ query (Prisma.findUniqueByExecutionId env 0 e) ;;
       match existingReport with
       | Some r => ret (existingResponse r)
       | None => generateNew env req e findings
       end)
    (generateFailed env req).

(** GET /:id *)
Definition getById (env : Env) (id_ : string) : World -> Response * World :=
  handler
    (report <~ query (Prisma.findUniqueById env 0 id_) ;;
     match report with
     | None => ret (json 404 (failure "Report not found"))
     | Some r => ret (json 200 (JS.Obj [("success", JS.Bool true); ("data", reportJson r)]))
     end)
    (fun _ w => (json 500 (failure "Failed to fetch report"), w)).

(** GET /execution/:executionId *)
Definition getByExecution (env : Env) (executionId : string) : World -> Response * World :=
  handler
    (report <~ query (Prisma.findUniqueByExecutionId env 0 executionId) ;;
     match report with
     | None => ret (json 404 (failure "Report not found"))
     | Some r => ret (json 200 (JS.Obj [("success", JS.Bool true); ("data", reportJson r)]))
     end)
    (fun _ w => (json 500 (failure "Failed to fetch report"), w)).

(** The query string of the list route.  [page] and [limit] hold the value
    of [Number(...)] for parameters that denote integers. *)
Record ListQuery : Type := mkListQuery {
  page : option Z;
  limit : option Z;
  status : option string;
  sortBy : option string;
  sortOrder : option string
}.

(** [Math.ceil(total / limit)] as it appears in the JSON response: the
    quotient by zero is [Infinity] or [NaN], which serialise as [null]. *)
Definition ceilDiv (total limit_ : Z) : JS.value :=
  if (limit_ =? 0)%Z then JS.Null else JS.int (- ((- total) / limit_)).

(** The [select] of the list route. *)
Definition selectJson (r : Report.t) : JS.value :=
  JS.Obj [("id", JS.Str (Report.id r));
          ("executionId", JS.Str (Report.executionId r));
          ("title", optString (Report.title r));
          ("status", JS.Str (Report.status r));
          ("pdfUrl", optString (Report.pdfUrl r));
          ("fileSize", optString (Report.fileSize r));
          ("createdAt", dateJson (Report.createdAt r));
          ("updatedAt", dateJson (Report.updatedAt r));
          ("generatedAt", dateJson (Report.generatedAt r))].

Definition paginationJson (page_ limit_ total : Z) : JS.value :=
  JS.Obj [("page", JS.int page_);
          ("limit", JS.int limit_);
          ("total", JS.int total);
          ("pages", ceilDiv total limit_)].

(** GET / *)
Definition listReports (env : Env) (q : ListQuery) : World -> Response * World :=
  handler
    (let page_ := default 1%Z (page q) in
     let limit_ := default 20%Z (limit q) in
     let sortBy_ := default "createdAt" (sortBy q) in
     let sortOrder_ := default "desc" (sortOrder q) in
     let skip := ((page_ - 1) * limit_)%Z in
     let where_ := match status q with
                   | Some s => if String.eqb s "" then None else Some s
                   | None => None
                   end in
     reports <~ query (Query.findMany env 0 where_ sortBy_ sortOrder_ skip limit_) ;;
     total <~ query (Prisma.count env 1 where_) ;;
     ret (json 200 (JS.Obj [("success", JS.Bool true);
                            ("data", JS.Arr (map selectJson reports));
                            ("pagination", paginationJson page_ limit_ total)])))
    (fun _ w => (json 500 (failure "Failed to list reports"), w)).

Definition dquote : string := String (ascii_of_nat 34) EmptyString.

(** The characters that a header value may hold (characters are code
    units below 256): the tab, the printable ASCII characters and those from
    128 on. *)
Definition headerChar (c : ascii) : bool :=
  let n := nat_of_ascii c in
  (n =? 9)%nat || ((32 <=? n)%nat && (n <=? 126)%nat) || (128 <=? n)%nat.

Fixpoint headerValue (s : string) : bool :=
  match s with
  | EmptyString => true
  | String c s' => headerChar c && headerValue s'
  end.

(** [res.setHeader(name, value)] *)
Definition setHeader (name value : string) : Result (string * string) :=
  if headerValue value then Ok (name, value)
  else Throw (TypeError ("Invalid character in header content [" ++ dquote ++ name
                         ++ dquote ++ "]")).

(** GET /download/:filename and GET /view/:filename differ in the
    disposition only.  The path is looked up among the regular files: a
    name that resolves to a directory, for which the stream fails once the
    handler has returned, is answered here like a missing file. *)
Definition sendFile (env : Env) (disposition failureText filename : string)
  : World -> Response * World :=
  handler
    (let filePath := pathJoin (reportsDir env) filename in
     found <~ Fs.existsSync filePath ;;
     if negb found then ret (json 404 (failure "Report file not found"))
     else
       contentType <~ liftR (setHeader "Content-Type" "application/pdf") ;;
       contentDisposition <~
         liftR (setHeader "Content-Disposition"
                          (disposition ++ "; filename=" ++ dquote ++ filename ++ dquote)) ;;
       bytes <~ Fs.readFile filePath ;;
       ret (mkResponse 200 [contentType; contentDisposition] (Stream bytes)))
    (fun _ w => (json 500 (failure failureText), w)).

Definition download (env : Env) (filename : string) : World -> Response * World :=
  sendFile env "attachment" "Failed to download report" filename.

Definition view (env : Env) (filename : string) : World -> Response * World :=
  sendFile env "inline" "Failed to view report" filename.

Definition fileJson (entry : string * File) : JS.value :=
  JS.Obj [("name", JS.Str (fst entry));
          ("downloadUrl", JS.Str ("/api/reports/download/" ++ fst entry));
          ("viewUrl", JS.Str ("/api/reports/view/" ++ fst entry));
          ("size", JS.Str (formatKB (Z.of_nat (length (content (snd entry))))));
          ("created", dateJson (birthtime (snd entry)))].

(** The entries that GET /list/files reports, newest first. *)
Definition pdfFiles (env : Env) : M (list (string * File)) :=
  entries <~ Fs.readdirSync (reportsDir env) ;;
  ret (Query.sortBy (fun a b => (birthtime (snd b) <=? birthtime (snd a))%Z)
                    (List.filter (fun entry => endsWith (fst entry) ".pdf") entries)).

(** GET /list/files *)
Definition listFiles (env : Env) : World -> Response * World :=
  handler
    (files <~ pdfFiles env ;;
     ret (json 200 (JS.Obj [("success", JS.Bool true);
                            ("count", JS.int (Z.of_nat (length files)));
                            ("reports", JS.Arr (map fileJson files))])))
    (fun _ w => (json 500 (failure "Failed to list files"), w)).

(** [report.pdfPath && fs.existsSync(report.pdfPath)] then [unlinkSync]. *)
Definition removePdf (r : Report.t) : M unit :=
  match Report.pdfPath r with
  | Some p =>
      if String.eqb p "" then ret tt
      else
        found <~ Fs.existsSync p ;;
        if found then Fs.unlinkSync p else ret tt
  | None => ret tt
  end.

(** DELETE /:id *)
Definition deleteReport (env : Env) (id_ : string) : World -> Response * World :=
  handler
    (report <~ query (Prisma.findUniqueById env 0 id_) ;;
     match report with
     | None => ret (json 404 (failure "Report not found"))
     | Some r =>
         _ <~ removePdf r ;;
         _ <~ mutate (fun t => t' <- Prisma.delete env 1 id_ t ;; Ok (tt, t')) ;;
         ret (json 200 (JS.Obj [("success", JS.Bool true);
                                ("message", JS.Str ("Report " ++ id_ ++ " deleted successfully"));
                                ("deletedFile", optString (Report.pdfPath r))]))
     end)
    (fun _ w => (json 500 (failure "Failed to delete report"), w)).

(** GET /test/db *)
Definition testDb (env : Env) : World -> Response * World :=
  handler
    (_ <~ liftR (Prisma.queryRaw env 0) ;;
     testReport <~ mutate (Prisma.create env 1 ("test-" ++ pretty (now env))
                             (Some "Database Test Report")
                             (JS.Arr [JS.Obj [("test", JS.Str "data")]])
                             (JS.Obj [("test", JS.Str "success")])
                             "COMPLETED" (now env)) ;;
     count <~ query (Prisma.count env 2 None) ;;
     _ <~ mutate (fun t => t' <- Prisma.delete env 3 (Report.id testReport) t ;; Ok (tt, t')) ;;
     ret (json 200 (JS.Obj [("success", JS.Bool true);
                            ("message", JS.Str "Database test successful");
                            ("operations", JS.Obj [("connection", JS.Str "OK");
                                                   ("create", JS.Str "OK");
                                                   ("count", JS.Str "OK");
                                                   ("delete", JS.Str "OK")]);
                            ("count", JS.int (count - 1));
                            ("timestamp", dateJson (now env))])))
    (fun error w =>
       (json 500 (JS.Obj [("success", JS.Bool false);
                          ("error", JS.Str "Database test failed");
                          ("message", JS.Str (message error));
                          ("timestamp", dateJson (now env))]), w)).

(** A request, already matched against the router's paths. *)
Inductive Request : Type :=
| GetHealth
| PostGenerate (req : GenerateRequest)
| GetById (id_ : string)
| GetByExecution (executionId : string)
| GetList (q : ListQuery)
| GetDownload (filename : string)
| GetView (filename : string)
| GetListFiles
| DeleteById (id_ : string)
| GetTestDb.

Definition route (env : Env) (request : Request) : World -> Response * World :=
  match request with
  | GetHealth => health env
  | PostGenerate req => generate env req
  | GetById id_ => getById env id_
  | GetByExecution executionId => getByExecution env executionId
  | GetList q => listReports env q
  | GetDownload filename => download env filename
  | GetView filename => view env filename
  | GetListFiles => listFiles env
  | DeleteById id_ => deleteReport env id_
  | GetTestDb => testDb env
  end.

(* ===================================================================== *)
(** ** src/config/cloudinary.ts *)
(* ===================================================================== *)

Module Cloudinary.

(** The variables of [process.env] that the storage integration reads; an
    unset variable is [undefined]. *)
Record ProcessEnv : Type := mkProcessEnv {
  CLOUDINARY_CLOUD_NAME : option string;
  CLOUDINARY_API_KEY : option string;
  CLOUDINARY_API_SECRET : option string
}.

(** Truthiness of a variable: set, and not the empty string. *)
Definition isSet (v : option string) : bool :=
  match v with
  | Some s => negb (String.eqb s "")
  | None => false
  end.

(** [configureCloudinary]: [false] when a credential is missing, [true] once
    the SDK has been given the three values. *)
Definition configureCloudinary (p : ProcessEnv) : bool :=
  if negb (isSet (CLOUDINARY_CLOUD_NAME p)) || negb (isSet (CLOUDINARY_API_KEY p))
     || negb (isSet (CLOUDINARY_API_SECRET p))
  then false else true.

(** White space and line terminators, among ASCII characters. *)
Definition isWhite (c : ascii) : bool :=
  let n := nat_of_ascii c in
  ((9 <=? n)%nat && (n <=? 13)%nat) || (n =? 32)%nat.

Fixpoint trimStart (s : string) : string :=
  match s with
  | EmptyString => EmptyString
  | String c s' => if isWhite c then trimStart s' else s
  end.

Fixpoint trimEnd (s : string) : string :=
  match s with
  | EmptyString => EmptyString
  | String c s' =>
      match trimEnd s' with
      | EmptyString => if isWhite c then EmptyString else String c EmptyString
      | t => String c t
      end
  end.

(** [String.prototype.trim] on ASCII text. *)
Definition trim (s : string) : string := trimEnd (trimStart s).

(** [isConfigured]: the [&&] chain under [!!]. *)
Definition isConfigured (p : ProcessEnv) : bool :=
  match CLOUDINARY_CLOUD_NAME p, CLOUDINARY_API_KEY p, CLOUDINARY_API_SECRET p with
  | Some cloudName, Some apiKey, Some apiSecret =>
      negb (String.eqb cloudName "") && negb (String.eqb apiKey "")
      && negb (String.eqb apiSecret "")
      && negb (String.eqb cloudName "your_cloud_name_here")
      && negb (String.eqb apiKey "your_api_key_here")
      && negb (String.eqb apiSecret "your_api_secret_here")
      && negb (String.eqb (trim cloudName) "")
      && negb (String.eqb (trim apiKey) "")
      && negb (String.eqb (trim apiSecret) "")
  | _, _, _ => false
  end.

Record ConfigStatus : Type := mkConfigStatus {
  configured : bool;
  cloudName : string;
  hasApiKey : bool;
  hasApiSecret : bool
}.

(** [getConfigStatus] *)
Definition getConfigStatus (p : ProcessEnv) : ConfigStatus :=
  mkConfigStatus (isConfigured p)
                 (if isSet (CLOUDINARY_CLOUD_NAME p)
                  then default "" (CLOUDINARY_CLOUD_NAME p) else "NOT_SET")
                 (isSet (CLOUDINARY_API_KEY p))
                 (isSet (CLOUDINARY_API_SECRET p)).

(** One or more characters, none of them a slash or a dot: what
    [[^/.]+$] matches when it runs to the end of the input. *)
Fixpoint extensionTail (s : string) : bool :=
  match s with
  | EmptyString => false
  | String c s' =>
      negb (Ascii.eqb c "/") && negb (Ascii.eqb c ".")
      && match s' with EmptyString => true | _ => extensionTail s' end
  end.

(** [fileName.replace(/\.[^/.]+$/, '')]: the leftmost dot from which the
    pattern matches to the end is where the name is cut. *)
Fixpoint cleanFileName (fileName : string) : string :=
  match fileName with
  | EmptyString => EmptyString
  | String c rest =>
      if Ascii.eqb c "." && extensionTail rest then EmptyString
      else String c (cleanFileName rest)
  end.

(** The public id that [uploadBuffer] asks for. *)
Definition publicId (folder fileName : string) (timestamp : Z) : string :=
  folder ++ "/" ++ cleanFileName fileName ++ "_" ++ pretty timestamp.

(** [String.prototype.split] on a one-character separator. *)
Fixpoint split (sep : ascii) (s : string) : list string :=
  match s with
  | EmptyString => [EmptyString]
  | String c s' =>
      if Ascii.eqb c sep then EmptyString :: split sep s'
      else match split sep s' with
           | piece :: pieces => String c piece :: pieces
           | [] => [String c EmptyString]
           end
  end.

(** [Array.prototype.join] *)
Fixpoint join (sep : string) (pieces : list string) : string :=
  match pieces with
  | [] => EmptyString
  | [piece] => piece
  | piece :: rest => piece ++ sep ++ join sep rest
  end.

(** [file.originalname.split('.').slice(0, -1).join('.')] in the [params] of
    the multer storage. *)
Definition storageFileName (originalname : string) : string :=
  join "." (removelast (split "." originalname)).

(** The [public_id] of the multer storage. *)
Definition storagePublicId (originalname : string) (timestamp : Z) : string :=
  "report_" ++ storageFileName originalname ++ "_" ++ pretty timestamp.

(** The outcome the SDK reports to the upload callback. *)
Inductive UploadOutcome (A : Type) : Type :=
| UploadError (message : string)
| UploadResult (result : A)
| UploadNothing.
Arguments UploadError {A} message.
Arguments UploadResult {A} result.
Arguments UploadNothing {A}.

(** [uploadBuffer]: [sdk] stands for [cloudinary.uploader.upload_stream]
    called with the raw resource type and the public id; the promise is
    rejected with an [Error] message ([inl]) or resolved ([inr]). *)
Definition uploadBuffer {A : Type} (sdk : string -> Buffer -> UploadOutcome A)
           (p : ProcessEnv) (timestamp : Z) (fileBuffer : Buffer)
           (fileName folder : string) : string + A :=
  if negb (isConfigured p) then
    inl "Cloudinary is not configured. Check your environment variables."
  else
    match sdk (publicId folder fileName timestamp) fileBuffer with
    | UploadError m => inl ("Cloudinary upload failed: " ++ m)
    | UploadResult result => inr result
    | UploadNothing => inl "No result returned from Cloudinary"
    end.

End Cloudinary.

(* ===================================================================== *)
(** ** Vocabulary of the statements *)
(* ===================================================================== *)

Definition isStr (v : JS.value) : bool :=
  match v with JS.Str _ => true | _ => false end.

(** A finding that [analyzeFindings] can classify: a value other than
    [undefined] and [null] whose [severity] is a string or is falsy. *)
Definition classifiable (finding : JS.value) : bool :=
  match finding with
  | JS.Undefined | JS.Null => false
  | JS.Obj fields =>
      let s := JS.assoc "severity" fields in
      negb (JS.truthy s) || isStr s
  | _ => true
  end.

(** The severity under which a classifiable finding is counted: its own,
    uppercased, or MEDIUM when it has none. *)
Definition severityText (finding : JS.value) : string :=
  match finding with
  | JS.Obj fields =>
      match JS.assoc "severity" fields with
      | JS.Str s => if String.eqb s "" then "MEDIUM" else JS.toUpperCase s
      | _ => "MEDIUM"
      end
  | _ => "MEDIUM"
  end.

Definition recognized (severity : string) : bool :=
  String.eqb severity "CRITICAL" || String.eqb severity "HIGH"
  || String.eqb severity "MEDIUM" || String.eqb severity "LOW".

(** How many findings are counted under [severity]. *)
Definition tally (severity : string) (findings : list JS.value) : Z :=
  Z.of_nat (length (List.filter (fun f => String.eqb (severityText f) severity) findings)).

(** How many findings carry a severity that is none of the four. *)
Definition unrecognizedCount (findings : list JS.value) : Z :=
  Z.of_nat (length (List.filter (fun f => negb (recognized (severityText f))) findings)).

(** The JSON document of a response, and a member of it. *)
Definition bodyJson (r : Response) : JS.value :=
  match body r with Json v => v | Stream _ => JS.Undefined end.

Definition field (k : string) (v : JS.value) : JS.value :=
  match v with JS.Obj fields => JS.assoc k fields | _ => JS.Undefined end.

(** The names that GET /list/files reports in world [w]. *)
Definition listedNames (env : Env) (w : World) : list string :=
  match fst (pdfFiles env w) with
  | Ok files => map fst files
  | Throw _ => []
  end.

(** The rows that a list request selects before paging. *)
Definition selected (q : ListQuery) (w : World) : list Report.t :=
  List.filter (Prisma.matches (match status q with
                               | Some s => if String.eqb s "" then None else Some s
                               | None => None
                               end)) (table w).

(** [pages] is the ceiling of the quotient [total / limit_], for a divisor of
    either sign: [pages - 1 < total / limit_ <= pages]. *)
Definition isCeiling (pages total limit_ : Z) : Prop :=
  ((0 < limit_)%Z /\ ((pages - 1) * limit_ < total <= pages * limit_)%Z) \/
  ((limit_ < 0)%Z /\ (pages * limit_ <= total < (pages - 1) * limit_)%Z).

(** Every value that [m] returns, in whatever world it runs, satisfies [P]. *)
Definition returns {A : Type} (m : M A) (P : A -> Prop) : Prop :=
  forall w a w', m w = (Ok a, w') -> P a.

(** The routes whose 500 response carries [message] and [timestamp]. *)
Definition detailed (request : Request) (resp : Response) : bool :=
  match request with
  | PostGenerate _ | GetTestDb => (statusCode resp =? 500)%Z
  | _ => false
  end.

(** The shape of an error response of [request]. *)
Definition envelope (env : Env) (request : Request) (resp : Response) : Prop :=
  (400 <= statusCode resp)%Z ->
  (statusCode resp = 400 \/ statusCode resp = 404 \/ statusCode resp = 500)%Z /\
  isStr (field "error" (bodyJson resp)) = true /\
  match request with
  | GetHealth =>
      field "success" (bodyJson resp) = JS.Undefined /\
      field "message" (bodyJson resp) = JS.Undefined /\
      field "timestamp" (bodyJson resp) = dateJson (now env)
  | _ =>
      field "success" (bodyJson resp) = JS.Bool false /\
      if detailed request resp then
        isStr (field "message" (bodyJson resp)) = true /\
        field "timestamp" (bodyJson resp) = dateJson (now env)
      else
        field "message" (bodyJson resp) = JS.Undefined /\
        field "timestamp" (bodyJson resp) = JS.Undefined
  end.

(** [m] leaves the world as it finds it, whatever it returns or throws. *)
Definition keeps {A : Type} (m : M A) : Prop := forall w, snd (m w) = w.

(** The status codes the routes answer with. *)
Definition knownStatus (resp : Response) : Prop :=
  (statusCode resp = 200 \/ statusCode resp = 400 \/
   statusCode resp = 404 \/ statusCode resp = 500)%Z.

(** The routes that write to the table or to the disk. *)
Definition mutating (request : Request) : bool :=
  match request with
  | PostGenerate _ | DeleteById _ | GetTestDb => true
  | _ => false
  end.

(** The keys of the table: no two rows share an [id] or an [executionId]. *)
Definition uniqueKeys (w : World) : Prop :=
  NoDup (map Report.id (table w)) /\ NoDup (map Report.executionId (table w)).

(** Where a row stands: PROCESSING without PDF fields, COMPLETED with all of
    them, or FAILED. *)
Definition lifecycle (r : Report.t) : Prop :=
  (Report.status r = "PROCESSING" /\ Report.pdfUrl r = None /\
   Report.pdfPath r = None /\ Report.fileSize r = None) \/
  (Report.status r = "COMPLETED" /\ Report.pdfUrl r <> None /\
   Report.pdfPath r <> None /\ Report.fileSize r <> None) \/
  Report.status r = "FAILED".

(** [t'] is [t] with rows rewritten in place: every row keeps its [id] and
    its [executionId], and stays within the life cycle if it was. *)
Definition rewrites (t t' : list Report.t) : Prop :=
  exists g : Report.t -> Report.t,
    (forall x, Report.id (g x) = Report.id x /\
               Report.executionId (g x) = Report.executionId x /\
               (lifecycle x -> lifecycle (g x))) /\
    t' = map g t.

(** A segment that [Path.resolve] keeps, on top of the kept segments
    [kept]. *)
Definition kept_on (above : bool) (kept : list string) (segment : string) : Prop :=
  segment <> "" /\ segment <> "." /\
  (segment = ".." -> above = true /\ (kept = [] \/ exists before, kept = ".." :: before)).

Fixpoint all_kept (above : bool) (kept : list string) (l : list string) : Prop :=
  match l with
  | [] => True
  | segment :: l' => kept_on above kept segment /\ all_kept above (segment :: kept) l'
  end.

(** A name that is one ordinary segment of a path. *)
Definition plainName (name : string) : Prop :=
  name <> "" /\ name <> "." /\ name <> ".." /\ contains "/"%char name = false.

(** A client that takes no filter object. *)
Definition noFilter (fields : list (string * JS.value)) : Result (string -> bool) :=
  Throw (PrismaError "Argument `executionId`: Invalid value provided.").

(** The same list query for another page. *)
Definition pageOf (q : ListQuery) (k : Z) : ListQuery :=
  mkListQuery (Some k) (limit q) (status q) (sortBy q) (sortOrder q).

(** The name of the file that generate writes. *)
Definition reportFileName (executionId : string) (time : Z) : string :=
  "report-" ++ executionId ++ "-" ++ pretty time ++ ".pdf".

(** The row that generate inserts before it renders. *)
Definition processingRow (env : Env) (e : string) (findings : JS.value)
           (analysis : FindingsAnalysis) : Report.t :=
  Report.mk (cuid env) e (Some ("Security Report - " ++ e)) findings
            (analysisJson analysis) None None None "PROCESSING"
            (now env) (now env) (now env).

(** The row that a successful generate leaves in the table. *)
Definition completedRow (env : Env) (req : GenerateRequest) (e : string)
           (findings : JS.value) (analysis : FindingsAnalysis) (pdfBuffer : Buffer)
  : Report.t :=
  Report.mk (cuid env) e (Some ("Security Report - " ++ e)) findings
            (analysisJson analysis)
            (Some ((protocol req ++ "://" ++ string_of_host (host req))
                   ++ "/api/reports/download/" ++ reportFileName e (now env)))
            (Some (pathJoin (reportsDir env) (reportFileName e (now env))))
            (Some (formatKB (Z.of_nat (length pdfBuffer))))
            "COMPLETED" (now env) (now env) (now env).

(** The world that a successful generate leaves: the row appended, the file
    written (a file already at that path keeps its birth time). *)
Definition generatedWorld (env : Env) (req : GenerateRequest) (w : World) (e : string)
           (findings : JS.value) (analysis : FindingsAnalysis) (pdfBuffer : Buffer)
  : World :=
  mkWorld (table w ++ [completedRow env req e findings analysis pdfBuffer])%list
          (<[pathJoin (reportsDir env) (reportFileName e (now env)) :=
               mkFile pdfBuffer
                      (match disk w !! pathJoin (reportsDir env)
                                          (reportFileName e (now env)) with
                       | Some f => birthtime f
                       | None => now env
                       end)]> (disk w)).

(** The row that a generate leaves when it fails after the insert. *)
Definition failedRow (env : Env) (e : string) (findings : JS.value) (error : Error)
  : Report.t :=
  Report.mk (cuid env) e (Some ("Security Report - " ++ e)) findings
            (JS.Obj [("error", JS.Str (message error));
                     ("timestamp", dateJson (now env))])
            None None None "FAILED" (now env) (now env) (now env).

(** The 500 answer of the generate route. *)
Definition generateError (env : Env) (error : Error) : Response :=
  json 500 (JS.Obj [("success", JS.Bool false);
                    ("error", JS.Str "Failed to generate report");
                    ("message", JS.Str (message error));
                    ("timestamp", dateJson (now env))]).

(** Run the monadic plumbing of a handler as far as it goes. *)
Ltac exec :=
  unfold handler, bindM, liftR, query, mutate, ret, bind; cbn [fst snd table disk].
Ltac exec_in H :=
  unfold handler, bindM, liftR, query, mutate, ret, bind in H;
  cbn [fst snd table disk] in H.

(* ===================================================================== *)
(** ** analyzeFindings *)
(* ===================================================================== *)

Section AnalyzeFindings.

Lemma severityOf_classifiable (f : JS.value) :
  classifiable f = true -> severityOf f = Ok (severityText f).
Proof.
  destruct f as [| |b|q|s|l|fields]; simpl; try discriminate; try reflexivity.
  unfold severityOf, JS.or; simpl.
  destruct (JS.assoc "severity" fields) as [| |b|q|s|l|fs]; simpl;
    try reflexivity; try discriminate.
  - destruct b; simpl; [discriminate | reflexivity].
  - destruct (Qeq_bool q 0); simpl; [reflexivity | discriminate].
  - destruct (String.eqb s ""); reflexivity.
Qed.

Lemma severityOf_unclassifiable (f : JS.value) :
  classifiable f = false -> exists m, severityOf f = Throw (TypeError m).
Proof.
  destruct f as [| |b|q|s|l|fields]; simpl; try discriminate;
    try (intros _; eexists; reflexivity).
  unfold severityOf, JS.or; simpl.
  destruct (JS.assoc "severity" fields) as [| |b|q|s|l|fs]; simpl;
    try discriminate; try (intros _; eexists; reflexivity).
  - destruct b; simpl; [intros _; eexists; reflexivity | discriminate].
  - destruct (Qeq_bool q 0); simpl; [discriminate | intros _; eexists; reflexivity].
  - rewrite orb_true_r. discriminate.
Qed.

(** The loop, started from any counters. *)
Lemma forEach_countFinding (findings : list JS.value) :
  forallb classifiable findings = true ->
  forall c,
    forEach countFinding findings c =
    Ok (mkAnalysis (totalFindings c)
                   (criticalCount c + tally "CRITICAL" findings)
                   (highCount c + tally "HIGH" findings)
                   (mediumCount c + tally "MEDIUM" findings)
                   (lowCount c + tally "LOW" findings)).
Proof.
  induction findings as [|f findings IH]; intros Hall c.
  - simpl. unfold tally; simpl. rewrite !Z.add_0_r. destruct c; reflexivity.
  - simpl in Hall. apply andb_prop in Hall as [Hf Hall].
    cbn [forEach]. unfold countFinding at 1.
    rewrite (severityOf_classifiable f Hf). cbn [bind].
    rewrite (IH Hall). unfold tally. cbn [List.filter].
    unfold bump.
    destruct (String.eqb_spec (severityText f) "CRITICAL") as [E|N1].
    { rewrite ?E. cbn. f_equal. f_equal; lia. }
    destruct (String.eqb_spec (severityText f) "HIGH") as [E|N2].
    { rewrite ?E. cbn. f_equal. f_equal; lia. }
    destruct (String.eqb_spec (severityText f) "MEDIUM") as [E|N3].
    { rewrite ?E. cbn. f_equal. f_equal; lia. }
    destruct (String.eqb_spec (severityText f) "LOW") as [E|N4].
    { rewrite ?E. cbn. f_equal. f_equal; lia. }
    reflexivity.
Qed.

Lemma analyzeFindings_classifiable (findings : list JS.value) :
  forallb classifiable findings = true ->
  analyzeFindings findings =
  Ok (mkAnalysis (Z.of_nat (length findings))
                 (tally "CRITICAL" findings) (tally "HIGH" findings)
                 (tally "MEDIUM" findings) (tally "LOW" findings)).
Proof.
  intros Hall. unfold analyzeFindings.
  rewrite (forEach_countFinding findings Hall). reflexivity.
Qed.

Lemma analyzeFindings_throws (findings : list JS.value) :
  forallb classifiable findings = false ->
  exists m, analyzeFindings findings = Throw (TypeError m).
Proof.
  unfold analyzeFindings. generalize (mkAnalysis (Z.of_nat (length findings)) 0 0 0 0).
  induction findings as [|f findings IH]; intros c Hall; [discriminate|].
  simpl in Hall. cbn [forEach]. unfold countFinding at 1.
  destruct (classifiable f) eqn:Hf.
  - rewrite (severityOf_classifiable f Hf). cbn [bind]. apply IH. exact Hall.
  - destruct (severityOf_unclassifiable f Hf) as [e He]. rewrite He.
    exists e. reflexivity.
Qed.

Lemma tally_nonneg (s : string) (findings : list JS.value) : (0 <= tally s findings)%Z.
Proof. unfold tally. lia. Qed.

(** Every finding falls under exactly one of the four severities or under
    none of them. *)
Lemma tally_partition (findings : list JS.value) :
  (tally "CRITICAL" findings + tally "HIGH" findings + tally "MEDIUM" findings
   + tally "LOW" findings + unrecognizedCount findings
   = Z.of_nat (length findings))%Z.
Proof.
  unfold tally, unrecognizedCount, recognized.
  induction findings as [|f findings IH]; [reflexivity|].
  cbn [List.filter length].
  destruct (String.eqb_spec (severityText f) "CRITICAL") as [E|N1].
  { rewrite ?E. cbn. lia. }
  destruct (String.eqb_spec (severityText f) "HIGH") as [E|N2].
  { rewrite ?E. cbn. lia. }
  destruct (String.eqb_spec (severityText f) "MEDIUM") as [E|N3].
  { rewrite ?E. cbn. lia. }
  destruct (String.eqb_spec (severityText f) "LOW") as [E|N4].
  { rewrite ?E. cbn. lia. }
  cbn. lia.
Qed.

End AnalyzeFindings.

(** The fixtures of the smoke test (full-test.js): two findings, one
    CRITICAL and one HIGH; five findings, two CRITICAL, two HIGH and one
    MEDIUM. *)
Example analyzeFindings_fixture_2 :
  analyzeFindings
    [JS.Obj [("id", JS.Str "CRIT-001"); ("title", JS.Str "SQL Injection Vulnerability");
             ("severity", JS.Str "CRITICAL"); ("riskScore", JS.Num (95 # 10));
             ("status", JS.Str "OPEN")];
     JS.Obj [("id", JS.Str "HIGH-001"); ("title", JS.Str "Weak Password Policy");
             ("severity", JS.Str "HIGH"); ("riskScore", JS.Num (82 # 10));
             ("status", JS.Str "OPEN")]]
  = Ok (mkAnalysis 2 1 1 0 0).
Proof. reflexivity. Qed.

Example analyzeFindings_fixture_5 :
  analyzeFindings
    [JS.Obj [("severity", JS.Str "CRITICAL")]; JS.Obj [("severity", JS.Str "CRITICAL")];
     JS.Obj [("severity", JS.Str "HIGH")]; JS.Obj [("severity", JS.Str "HIGH")];
     JS.Obj [("severity", JS.Str "MEDIUM")]]
  = Ok (mkAnalysis 5 2 2 1 0).
Proof. reflexivity. Qed.

(** C1, as the code has it.  On every array of classifiable findings
    [analyzeFindings] returns an aggregate in which the four severity counts
    plus the number of findings with an unrecognized severity add up to
    [totalFindings]; a finding without a severity is counted as MEDIUM and a
    finding whose uppercased severity is none of the four is counted in no
    bucket, so the four counts add up to [totalFindings] exactly when no
    severity is unrecognized. *)
Theorem analyzeFindings_sum (findings : list JS.value) :
  forallb classifiable findings = true ->
  exists c,
    analyzeFindings findings = Ok c /\
    (criticalCount c + highCount c + mediumCount c + lowCount c
     + unrecognizedCount findings = totalFindings c)%Z /\
    mediumCount c = tally "MEDIUM" findings /\
    (criticalCount c + highCount c + mediumCount c + lowCount c = totalFindings c
     <-> unrecognizedCount findings = 0%Z).
Proof.
  intros Hall. eexists. split; [apply analyzeFindings_classifiable, Hall|].
  cbn [totalFindings criticalCount highCount mediumCount lowCount].
  pose proof (tally_partition findings) as P.
  repeat split; lia.
Qed.

Lemma analyzeFindings_sum_witness :
  exists c,
    analyzeFindings [JS.Obj [("severity", JS.Str "critical")]; JS.Obj [];
                     JS.Obj [("severity", JS.Str "info")]] = Ok c /\
    (criticalCount c + highCount c + mediumCount c + lowCount c
     + unrecognizedCount [JS.Obj [("severity", JS.Str "critical")]; JS.Obj [];
                          JS.Obj [("severity", JS.Str "info")]] = totalFindings c)%Z /\
    mediumCount c = tally "MEDIUM" [JS.Obj [("severity", JS.Str "critical")]; JS.Obj [];
                                    JS.Obj [("severity", JS.Str "info")]] /\
    (criticalCount c + highCount c + mediumCount c + lowCount c = totalFindings c
     <-> unrecognizedCount [JS.Obj [("severity", JS.Str "critical")]; JS.Obj [];
                            JS.Obj [("severity", JS.Str "info")]] = 0%Z).
Proof. apply analyzeFindings_sum. reflexivity. Defined.

(** C1 fails as stated: one finding of severity "INFO" is returned as a total
    of 1 with every severity count 0; it is not counted as MEDIUM. *)
Lemma analyzeFindings_sum_counterexample :
  exists c,
    analyzeFindings [JS.Obj [("severity", JS.Str "INFO")]] = Ok c /\
    totalFindings c = 1%Z /\ mediumCount c = 0%Z /\
    (criticalCount c + highCount c + mediumCount c + lowCount c)%Z <> totalFindings c.
Proof.
  eexists. split; [reflexivity|]. cbn. repeat split; discriminate.
Qed.

(** C10, as the code has it.  On every array of classifiable findings
    [analyzeFindings] returns; [totalFindings] is the length of the array,
    each severity count is non-negative and the four counts together do not
    exceed [totalFindings].  On every other array (an element that is
    [null] or [undefined], or a truthy severity that is not a string) it
    throws a [TypeError]. *)
Theorem analyzeFindings_bounds (findings : list JS.value) :
  (forallb classifiable findings = true ->
   exists c,
     analyzeFindings findings = Ok c /\
     totalFindings c = Z.of_nat (length findings) /\
     (0 <= criticalCount c)%Z /\ (0 <= highCount c)%Z /\
     (0 <= mediumCount c)%Z /\ (0 <= lowCount c)%Z /\
     (criticalCount c + highCount c + mediumCount c + lowCount c <= totalFindings c)%Z) /\
  (forallb classifiable findings = false ->
   exists m, analyzeFindings findings = Throw (TypeError m)).
Proof.
  split; [|apply analyzeFindings_throws].
  intros Hall. eexists. split; [apply analyzeFindings_classifiable, Hall|].
  cbn [totalFindings criticalCount highCount mediumCount lowCount].
  pose proof (tally_partition findings) as P.
  assert (0 <= unrecognizedCount findings)%Z by (unfold unrecognizedCount; lia).
  repeat split; try apply tally_nonneg. lia.
Qed.

Lemma analyzeFindings_bounds_witness :
  (exists c,
     analyzeFindings [JS.Obj [("severity", JS.Str "low")]; JS.Str "note";
                      JS.Obj [("severity", JS.Str "urgent")]] = Ok c /\
     totalFindings c
     = Z.of_nat (length [JS.Obj [("severity", JS.Str "low")]; JS.Str "note";
                         JS.Obj [("severity", JS.Str "urgent")]]) /\
     (0 <= criticalCount c)%Z /\ (0 <= highCount c)%Z /\
     (0 <= mediumCount c)%Z /\ (0 <= lowCount c)%Z /\
     (criticalCount c + highCount c + mediumCount c + lowCount c <= totalFindings c)%Z) /\
  (exists m, analyzeFindings [JS.Obj [("severity", JS.Str "low")]; JS.Null]
             = Throw (TypeError m)).
Proof.
  split.
  - apply (proj1 (analyzeFindings_bounds _)). reflexivity.
  - apply (proj2 (analyzeFindings_bounds _)). reflexivity.
Defined.

(** C10 fails as stated: on an array holding a finding whose severity is the
    number 1 the call [(1).toUpperCase()] throws, and nothing is returned. *)
Lemma analyzeFindings_bounds_counterexample :
  analyzeFindings [JS.Obj [("severity", JS.Num 1)]]
  = Throw (TypeError "(intermediate value).toUpperCase is not a function")
  /\ ~ exists c, analyzeFindings [JS.Obj [("severity", JS.Num 1)]] = Ok c.
Proof.
  split; [reflexivity|]. intros [c H]. discriminate H.
Qed.

(* ===================================================================== *)
(** ** getSeverityColor and the bar width *)
(* ===================================================================== *)

(** C7.  [getSeverityColor] maps CRITICAL, HIGH, MEDIUM and LOW to their
    fixed colours and every other string to black. *)
Theorem getSeverityColor_total :
  getSeverityColor "CRITICAL" = "#dc2626" /\
  getSeverityColor "HIGH" = "#f97316" /\
  getSeverityColor "MEDIUM" = "#eab308" /\
  getSeverityColor "LOW" = "#22c55e" /\
  forall severity : string,
    severity <> "CRITICAL" -> severity <> "HIGH" ->
    severity <> "MEDIUM" -> severity <> "LOW" ->
    getSeverityColor severity = "#000000".
Proof.
  repeat split; try reflexivity.
  intros severity N1 N2 N3 N4. unfold getSeverityColor.
  apply String.eqb_neq in N1, N2, N3, N4. rewrite N1, N2, N3, N4. reflexivity.
Qed.

Lemma getSeverityColor_total_witness : getSeverityColor "critical" = "#000000".
Proof.
  apply (proj2 (proj2 (proj2 (proj2 getSeverityColor_total)))); discriminate.
Defined.

(** C8.  For non-negative [count] and [totalFindings] the bar is at least 50
    units wide, and exactly 50 when [count] is zero. *)
Theorem barWidth_floor (count total : Q) :
  (0 <= count)%Q -> (0 <= total)%Q ->
  (50 <= barWidth count total)%Q /\
  (count == 0 -> barWidth count total == 50)%Q.
Proof.
  intros _ _. unfold barWidth. split.
  - apply Q.le_max_l.
  - intros H0. apply Q.max_l. rewrite H0.
    unfold Qdiv. rewrite Qmult_0_l, Qmult_0_r. discriminate.
Qed.

Lemma barWidth_floor_witness :
  (50 <= barWidth 0 7)%Q /\ (0 == 0 -> barWidth 0 7 == 50)%Q.
Proof. apply barWidth_floor; discriminate. Defined.

(* ===================================================================== *)
(** ** Strings: prefixes, suffixes, decimal numerals *)
(* ===================================================================== *)

Lemma stripPrefix_complete (p rest : string) : stripPrefix p (p ++ rest) = Some rest.
Proof.
  induction p as [|a p IH]; [reflexivity|].
  change (stripPrefix (String a p) (String a (p ++ rest)) = Some rest).
  cbn [stripPrefix]. rewrite Ascii.eqb_refl. exact IH.
Qed.

Lemma append_assoc (a b c : string) : (a ++ b) ++ c = a ++ (b ++ c).
Proof.
  induction a as [|x a IH]; [reflexivity|].
  change (String x ((a ++ b) ++ c) = String x (a ++ (b ++ c))). f_equal. exact IH.
Qed.

Lemma contains_app (c : ascii) (a b : string) :
  contains c (a ++ b) = contains c a || contains c b.
Proof.
  induction a as [|x a IH]; [reflexivity|].
  change (contains c (String x (a ++ b)) = contains c (String x a) || contains c b).
  cbn [contains]. rewrite IH. apply orb_assoc.
Qed.

Lemma length_app_string (a b : string) :
  String.length (a ++ b) = (String.length a + String.length b)%nat.
Proof.
  induction a as [|x a IH]; [reflexivity|].
  change (S (String.length (a ++ b)) = S (String.length a + String.length b)).
  rewrite IH. reflexivity.
Qed.

Lemma substring_whole (s : string) : substring 0 (String.length s) s = s.
Proof. induction s as [|x s IH]; [reflexivity|]. cbn. rewrite IH. reflexivity. Qed.

Lemma endsWith_app (a suffix : string) : endsWith (a ++ suffix) suffix = true.
Proof.
  unfold endsWith. rewrite length_app_string.
  replace (String.length suffix <=? String.length a + String.length suffix)%nat with true
    by (symmetry; apply Nat.leb_le; lia).
  replace (String.length a + String.length suffix - String.length suffix)%nat
    with (String.length a) by lia.
  cbn [andb]. apply String.eqb_eq.
  induction a as [|x a IH]; [apply substring_whole|].
  change (substring (S (String.length a)) (String.length suffix) (String x (a ++ suffix))
          = suffix).
  cbn [substring]. exact IH.
Qed.

Lemma app_inv_head_string (p a b : string) : p ++ a = p ++ b -> a = b.
Proof.
  induction p as [|x p IH]; [auto|].
  change (String x (p ++ a) = String x (p ++ b) -> a = b).
  intros H. injection H as H. exact (IH H).
Qed.

Lemma app_inv_tail_string (a b s : string) : a ++ s = b ++ s -> a = b.
Proof.
  revert b. induction a as [|x a IH]; intros [|y b] H.
  - reflexivity.
  - apply (f_equal String.length) in H. rewrite length_app_string in H.
    cbn [String.length] in H. change (String.length (String y b ++ s))
      with (S (String.length (b ++ s))) in H. rewrite length_app_string in H. lia.
  - apply (f_equal String.length) in H. rewrite length_app_string in H.
    change (String.length (String x a ++ s)) with (S (String.length (a ++ s))) in H.
    rewrite length_app_string in H. cbn [String.length] in H. lia.
  - change (String x (a ++ s) = String y (b ++ s)) in H.
    injection H as -> H. f_equal. exact (IH b H).
Qed.

(** Cutting at the last separator: when neither tail contains it. *)
Lemma split_at_last (c : ascii) (a b x y : string) :
  contains c x = false -> contains c y = false ->
  a ++ String c x = b ++ String c y -> a = b /\ x = y.
Proof.
  intros Hx Hy. revert b. induction a as [|h a IH]; intros [|k b] H.
  - injection H as ->. split; reflexivity.
  - change (String c x = String k (b ++ String c y)) in H. injection H as -> ->.
    rewrite contains_app in Hx. cbn [contains] in Hx.
    rewrite Ascii.eqb_refl, orb_true_r in Hx. discriminate Hx.
  - change (String h (a ++ String c x) = String c y) in H. injection H as -> <-.
    rewrite contains_app in Hy. cbn [contains] in Hy.
    rewrite Ascii.eqb_refl, orb_true_r in Hy. discriminate Hy.
  - change (String h (a ++ String c x) = String k (b ++ String c y)) in H.
    injection H as -> H. destruct (IH b H) as [-> ->]. split; reflexivity.
Qed.

(** A character that is not a decimal digit does not occur in a numeral. *)
Lemma pretty_N_go_contains (c : ascii) (x : N) (s : string) :
  (forall n, pretty_N_char n <> c) ->
  contains c (pretty_N_go x s) = contains c s.
Proof.
  intros Hc. revert s. induction (N.lt_wf_0 x) as [x _ IH]; intros s.
  destruct (N.eq_dec x 0%N) as [->|Hx].
  - rewrite pretty_N_go_0. reflexivity.
  - rewrite pretty_N_go_step by lia. rewrite IH by (apply N.div_lt; lia).
    cbn [contains]. destruct (Ascii.eqb_spec (pretty_N_char (x mod 10)) c) as [E|_];
      [destruct (Hc _ E) | reflexivity].
Qed.

Lemma pretty_Z_contains (c : ascii) (z : Z) :
  (forall n, pretty_N_char n <> c) -> (0 <= z)%Z -> contains c (pretty z) = false.
Proof.
  intros Hc Hz. destruct z as [|p|p]; [| |lia].
  - change (pretty 0%Z) with "0". cbn [contains].
    destruct (Ascii.eqb_spec "0"%char c) as [E|_]; [|reflexivity].
    destruct (Hc 0%N E).
  - change (pretty (Z.pos p)) with (pretty_N_go (N.pos p) "").
    rewrite pretty_N_go_contains by exact Hc. reflexivity.
Qed.

Lemma not_a_digit (c : ascii) :
  (nat_of_ascii c < 48 \/ 57 < nat_of_ascii c)%nat -> forall n, pretty_N_char n <> c.
Proof.
  intros Hc n <-. unfold pretty_N_char in Hc.
  repeat (match type of Hc with context [match ?x with _ => _ end] => destruct x end);
    change (nat_of_ascii ?a) with (ltac:(let v := eval vm_compute in (nat_of_ascii a) in exact v)) in Hc; lia.
Qed.

Lemma pretty_Z_no_slash (z : Z) : contains "/"%char (pretty z) = false.
Proof.
  assert (D : forall n, pretty_N_char n <> "/"%char)
    by (apply not_a_digit; vm_compute; lia).
  destruct z as [|p|p].
  - reflexivity.
  - apply pretty_Z_contains; [exact D | lia].
  - change (pretty (Z.neg p)) with ("-" ++ pretty_N_go (N.pos p) "").
    rewrite contains_app, pretty_N_go_contains by exact D. reflexivity.
Qed.

Lemma pretty_Z_no_dash (z : Z) : (0 <= z)%Z -> contains "-"%char (pretty z) = false.
Proof.
  apply pretty_Z_contains. apply not_a_digit. vm_compute. lia.
Qed.

(* ===================================================================== *)
(** ** Paths *)
(* ===================================================================== *)

Lemma append_nil_r (s : string) : s ++ "" = s.
Proof.
  induction s as [|c s IH]; [reflexivity|].
  change (String c (s ++ "") = String c s). f_equal. exact IH.
Qed.

Lemma append_empty (a b : string) : a ++ b = "" -> a = "" /\ b = "".
Proof. destruct a; [auto | discriminate]. Qed.

(** The last character decides [endsWith] for a one-character suffix. *)
Lemma endsWith_last (a : string) (c c' : ascii) :
  endsWith (a ++ String c "") (String c' "") = Ascii.eqb c c'.
Proof.
  unfold endsWith. rewrite length_app_string. cbn [String.length].
  replace (1 <=? String.length a + 1)%nat with true by (symmetry; apply Nat.leb_le; lia).
  replace (String.length a + 1 - 1)%nat with (String.length a) by lia.
  cbn [andb].
  assert (E : substring (String.length a) 1 (a ++ String c "") = String c "").
  { induction a as [|x a IH]; [reflexivity|].
    change (substring (S (String.length a)) 1 (String x (a ++ String c "")) = String c "").
    cbn [substring]. exact IH. }
  rewrite E. cbn [String.eqb]. destruct (Ascii.eqb c c'); reflexivity.
Qed.

Lemma last_char (s : string) : s <> "" -> exists a c, s = a ++ String c "".
Proof.
  induction s as [|x s IH]; [congruence|]. intros _.
  destruct s as [|y s].
  - exists "", x. reflexivity.
  - destruct IH as [a [c E]]; [discriminate|]. exists (String x a), c.
    rewrite E. reflexivity.
Qed.

Lemma endsWith_slash (a name : string) :
  name <> "" -> contains "/"%char name = false -> endsWith (a ++ name) "/" = false.
Proof.
  intros Hn Hs. destruct (last_char name Hn) as [b [c ->]].
  rewrite <- append_assoc, endsWith_last.
  rewrite contains_app in Hs. apply orb_false_elim in Hs as [_ Hs].
  cbn [contains] in Hs. rewrite orb_false_r in Hs. exact Hs.
Qed.

Lemma segments_not_nil (s : string) : Path.segments s <> [].
Proof.
  destruct s as [|c s]; cbn [Path.segments]; [discriminate|].
  destruct (Ascii.eqb c "/"); [discriminate|].
  destruct (Path.segments s); discriminate.
Qed.

Lemma segments_app (a b : string) :
  Path.segments (a ++ String "/" b) = (Path.segments a ++ Path.segments b)%list.
Proof.
  induction a as [|c a IH].
  - reflexivity.
  - change (Path.segments (String c (a ++ String "/" b))
            = (Path.segments (String c a) ++ Path.segments b)%list).
    cbn [Path.segments]. rewrite IH. destruct (Ascii.eqb c "/"); [reflexivity|].
    pose proof (segments_not_nil a) as Hn.
    destruct (Path.segments a) as [|piece pieces]; [congruence|]. reflexivity.
Qed.

Lemma segments_whole (s : string) : contains "/"%char s = false -> Path.segments s = [s].
Proof.
  induction s as [|c s IH]; [reflexivity|]. cbn [contains Path.segments].
  intros H. apply orb_false_elim in H as [Hc Hs]. rewrite Hc, (IH Hs). reflexivity.
Qed.

Lemma segments_no_slash (s : string) :
  Forall (fun piece => contains "/"%char piece = false) (Path.segments s).
Proof.
  induction s as [|c s IH]; cbn [Path.segments].
  - constructor; [reflexivity | constructor].
  - destruct (Ascii.eqb c "/") eqn:E; [constructor; [reflexivity | exact IH]|].
    destruct (Path.segments s) as [|piece pieces].
    + constructor; [cbn; rewrite E; reflexivity | constructor].
    + inversion IH as [|? ? Hp Hps]; subst. constructor; [|exact Hps].
      cbn [contains]. rewrite E, Hp. reflexivity.
Qed.

Lemma joinSegments_snoc (l : list string) (x : string) :
  l <> [] -> Path.joinSegments (l ++ [x]) = Path.joinSegments l ++ "/" ++ x.
Proof.
  induction l as [|a l IH]; [congruence|]. intros _.
  destruct l as [|b l]; [reflexivity|].
  change (a ++ "/" ++ Path.joinSegments ((b :: l) ++ [x]) = (a ++ "/" ++ Path.joinSegments (b :: l)) ++ "/" ++ x).
  rewrite IH by discriminate. rewrite !append_assoc. reflexivity.
Qed.

(** Splitting what was joined gives the pieces back. *)
Lemma segments_join (l : list string) :
  l <> [] -> Forall (fun piece => contains "/"%char piece = false) l ->
  Path.segments (Path.joinSegments l) = l.
Proof.
  induction l as [|a l IH]; [congruence|]. intros _ H.
  inversion H as [|? ? Ha Hl]; subst.
  destruct l as [|b l]; [apply segments_whole; exact Ha|].
  change (Path.segments (a ++ String "/" (Path.joinSegments (b :: l))) = a :: b :: l).
  rewrite segments_app, (segments_whole a Ha), IH by (discriminate || exact Hl).
  reflexivity.
Qed.

Lemma resolve_kept (above : bool) (kept : list string) (segment : string) :
  kept_on above kept segment -> Path.resolve above kept segment = segment :: kept.
Proof.
  intros [H1 [H2 H3]]. unfold Path.resolve.
  apply String.eqb_neq in H1, H2. rewrite H1, H2. cbn [orb].
  destruct (String.eqb_spec segment "..") as [->|_]; [|reflexivity].
  destruct (H3 eq_refl) as [-> [->|[before ->]]]; reflexivity.
Qed.

Lemma fold_all_kept (above : bool) (l kept : list string) :
  all_kept above kept l -> fold_left (Path.resolve above) l kept = (rev l ++ kept)%list.
Proof.
  revert kept. induction l as [|segment l IH]; intros kept H; [reflexivity|].
  destruct H as [H1 H2]. cbn [fold_left rev]. rewrite (resolve_kept _ _ _ H1), (IH _ H2).
  rewrite <- app_assoc. reflexivity.
Qed.

Lemma all_kept_snoc (above : bool) (l kept : list string) (x : string) :
  all_kept above kept (l ++ [x])
  <-> all_kept above kept l /\ kept_on above (rev l ++ kept)%list x.
Proof.
  revert kept. induction l as [|segment l IH]; intros kept; cbn [all_kept app rev].
  - tauto.
  - rewrite IH, <- app_assoc. cbn [app]. tauto.
Qed.

(** What [Path.resolve] has kept is a list of kept Path.segments, none with a slash,
    when the Path.segments it was given have none. *)
Lemma resolve_invariant (above : bool) (l kept : list string) :
  Forall (fun piece => contains "/"%char piece = false) l ->
  all_kept above [] (rev kept) /\
  Forall (fun piece => contains "/"%char piece = false) kept ->
  all_kept above [] (rev (fold_left (Path.resolve above) l kept)) /\
  Forall (fun piece => contains "/"%char piece = false) (fold_left (Path.resolve above) l kept).
Proof.
  revert kept. induction l as [|segment l IH]; intros kept Hl [Hk Hs]; [auto|].
  inversion Hl as [|? ? Hseg Hl']; subst. cbn [fold_left]. apply IH; [exact Hl'|].
  unfold Path.resolve.
  destruct (String.eqb_spec segment "") as [->|N1]; [cbn [orb]; auto|].
  destruct (String.eqb_spec segment ".") as [->|N2]; [cbn [orb]; auto|].
  cbn [orb].
  destruct (String.eqb_spec segment "..") as [->|N3].
  - destruct kept as [|last before].
    + destruct above; [|auto]. split; [|constructor; [reflexivity|constructor]].
      cbn. repeat split; try discriminate. left. reflexivity.
    + cbn [rev] in Hk. apply all_kept_snoc in Hk as [Hb Hlast].
      inversion Hs as [|? ? Hs1 Hs2]; subst.
      destruct (String.eqb_spec last "..") as [->|N4]; [|auto].
      destruct above; [|split; [cbn [rev]; apply all_kept_snoc; auto | exact Hs]].
      split; [|constructor; [reflexivity | exact Hs]].
      cbn [rev]. apply all_kept_snoc. split; [apply all_kept_snoc; auto|].
      rewrite app_nil_r, rev_app_distr, rev_involutive. cbn [rev app].
      repeat split; try discriminate. right. eauto.
  - split; [|constructor; assumption].
    cbn [rev]. apply all_kept_snoc. split; [exact Hk|].
    repeat split; try assumption; congruence.
Qed.

Lemma isAbsolute_app (a b : string) : a <> "" -> Path.isAbsolute (a ++ b) = Path.isAbsolute a.
Proof. destruct a; [congruence | reflexivity]. Qed.

Lemma isAbsolute_join (l : list string) (first : string) (rest : list string) :
  l = first :: rest -> first <> "" -> contains "/"%char first = false ->
  Path.isAbsolute (Path.joinSegments l) = false.
Proof.
  intros -> Hn Hs. destruct first as [|c first]; [congruence|].
  cbn [contains] in Hs. apply orb_false_elim in Hs as [Hc _].
  destruct rest; cbn; exact Hc.
Qed.

Lemma normalize_not_empty (path : string) : Path.normalize path <> "".
Proof.
  unfold Path.normalize. destruct (String.eqb path ""); [discriminate|]. cbv zeta.
  destruct (String.eqb_spec (Path.normalizeString (negb (Path.isAbsolute path)) path) "")
    as [_|N].
  - destruct (Path.isAbsolute path); [discriminate|].
    destruct (endsWith path "/"); discriminate.
  - intros E. destruct (Path.isAbsolute path).
    + discriminate E.
    + apply append_empty in E as [_ E]. apply append_empty in E as [E _]. exact (N E).
Qed.

Lemma pathJoin_not_empty (dir name : string) : pathJoin dir name <> "".
Proof.
  unfold pathJoin, Path.join.
  destruct (String.eqb dir ""); destruct (String.eqb name "");
    try discriminate; apply normalize_not_empty.
Qed.

Lemma joinSegments_snoc_not_empty (l : list string) (x : string) :
  x <> "" -> Path.joinSegments (l ++ [x]) <> "".
Proof.
  intros Hx. destruct l as [|a l]; [exact Hx|].
  rewrite joinSegments_snoc by discriminate. intros E.
  apply append_empty in E as [_ E]. discriminate E.
Qed.

(** [path.normalize] of a path that ends in an ordinary segment: the
    segment is kept on top of what the path before it resolves to. *)
Lemma normalize_snoc (a name : string) :
  a <> "" -> plainName name ->
  Path.normalize (a ++ "/" ++ name)
  = (if Path.isAbsolute a then "/" else "")
      ++ Path.joinSegments
           (rev (fold_left (Path.resolve (negb (Path.isAbsolute a))) (Path.segments a) [])
            ++ [name]).
Proof.
  intros Ha (N1 & N2 & N3 & Hs).
  assert (Hne : a ++ "/" ++ name <> "").
  { intros E. apply append_empty in E as [E _]. congruence. }
  assert (T : endsWith (a ++ "/" ++ name) "/" = false).
  { rewrite <- append_assoc. apply endsWith_slash; assumption. }
  assert (B : Path.normalizeString (negb (Path.isAbsolute a)) (a ++ "/" ++ name)
              = Path.joinSegments
                  (rev (fold_left (Path.resolve (negb (Path.isAbsolute a)))
                                  (Path.segments a) []) ++ [name])).
  { unfold Path.normalizeString.
    change (a ++ "/" ++ name) with (a ++ String "/" name).
    rewrite segments_app, (segments_whole name Hs), fold_left_app. cbn [fold_left].
    rewrite resolve_kept by (repeat split; congruence).
    reflexivity. }
  unfold Path.normalize. apply String.eqb_neq in Hne. rewrite Hne. cbv zeta.
  rewrite (isAbsolute_app a _ Ha), T, B.
  pose proof (joinSegments_snoc_not_empty
                (rev (fold_left (Path.resolve (negb (Path.isAbsolute a)))
                                (Path.segments a) [])) name N1) as Hb.
  apply String.eqb_neq in Hb. rewrite Hb. rewrite append_nil_r. reflexivity.
Qed.

(** A normalised directory: a root or nothing, then kept segments. *)
Lemma normalize_directory (absolute : bool) (l : list string) (name : string) :
  l <> [] -> all_kept (negb absolute) [] l ->
  Forall (fun piece => contains "/"%char piece = false) l ->
  plainName name ->
  let dir := (if absolute then "/" else "") ++ Path.joinSegments l in
  Path.normalize (dir ++ "/" ++ name) = dir ++ "/" ++ name.
Proof.
  intros Hl Hk Hs Hname dir.
  assert (Hd : dir <> "").
  { subst dir. intros E. apply append_empty in E as [_ E].
    destruct l as [|x l]; [congruence|]. destruct Hk as [[Hx _] _].
    destruct l; [exact (Hx E)|]. apply append_empty in E as [E _]. exact (Hx E). }
  assert (Habs : Path.isAbsolute dir = absolute).
  { subst dir. destruct absolute; [reflexivity|].
    change ("" ++ Path.joinSegments l) with (Path.joinSegments l).
    destruct l as [|x l]; [congruence|]. destruct Hk as [[Hx _] _].
    inversion Hs; subst. eapply isAbsolute_join; eauto. }
  rewrite (normalize_snoc dir name Hd Hname), Habs.
  assert (Hseg : fold_left (Path.resolve (negb absolute)) (Path.segments dir) [] = rev l).
  { subst dir. destruct absolute.
    - change (Path.segments ("/" ++ Path.joinSegments l))
        with ("" :: Path.segments (Path.joinSegments l)).
      rewrite (segments_join l Hl Hs). cbn [fold_left].
      change (Path.resolve (negb true) [] "") with (@nil string).
      rewrite (fold_all_kept _ _ _ Hk). apply app_nil_r.
    - change ("" ++ Path.joinSegments l) with (Path.joinSegments l).
      rewrite (segments_join l Hl Hs), (fold_all_kept _ _ _ Hk). apply app_nil_r. }
  rewrite Hseg, rev_involutive, (joinSegments_snoc l name Hl).
  subst dir. rewrite append_assoc. reflexivity.
Qed.

(** The reports directory is a normalised directory. *)
Lemma reportsDir_normal (env : Env) :
  exists absolute l,
    l <> [] /\ all_kept (negb absolute) [] l /\
    Forall (fun piece => contains "/"%char piece = false) l /\
    reportsDir env = (if absolute then "/" else "") ++ Path.joinSegments l.
Proof.
  unfold reportsDir, pathJoin, Path.join.
  destruct (String.eqb_spec (cwd env) "") as [_|Hc].
  - exists false, ["reports"]. cbn [negb]. split; [discriminate|].
    split; [cbn; repeat split; discriminate|].
    split; [repeat constructor | reflexivity].
  - cbn [String.eqb]. 
    change (String.eqb "reports" "") with false. cbv iota.
    assert (P : plainName "reports") by (repeat split; discriminate).
    rewrite (normalize_snoc (cwd env) "reports" Hc P).
    pose proof (resolve_invariant (negb (Path.isAbsolute (cwd env)))
                  (Path.segments (cwd env)) [] (segments_no_slash _)
                  (conj I (List.Forall_nil _))) as [Hk Hs].
    exists (Path.isAbsolute (cwd env)). eexists. split; [|split; [|split; [|reflexivity]]].
    + intros E. apply app_eq_nil in E as [_ E]. discriminate E.
    + apply all_kept_snoc. split; [exact Hk|]. repeat split; discriminate.
    + apply Forall_app. split; [|repeat constructor].
      apply Forall_rev. exact Hs.
Qed.

(** Joining the reports directory and an ordinary name puts a slash between
    them. *)
Lemma pathJoin_plain (env : Env) (name : string) :
  plainName name -> pathJoin (reportsDir env) name = reportsDir env ++ "/" ++ name.
Proof.
  intros Hname. destruct (reportsDir_normal env) as (absolute & l & Hl & Hk & Hs & E).
  unfold pathJoin, Path.join.
  destruct (String.eqb_spec (reportsDir env) "") as [E0|_].
  { destruct (pathJoin_not_empty (cwd env) "reports" E0). }
  destruct Hname as (N1 & N2 & N3 & N4).
  destruct (String.eqb_spec name "") as [?|_]; [congruence|].
  rewrite E. apply normalize_directory; try assumption. repeat split; assumption.
Qed.

Lemma pdf_plainName (name : string) :
  contains "/"%char name = false -> endsWith name ".pdf" = true -> plainName name.
Proof.
  intros Hs Hp. unfold endsWith in Hp. apply andb_prop in Hp as [Hl Hp].
  apply Nat.leb_le in Hl. cbn [String.length] in Hl.
  repeat split; try exact Hs; intros ->; cbn in Hl; lia.
Qed.

(** The directory of a file of the reports directory is there, and the file
    is no directory. *)
Lemma isPrefix_refl (l : list string) : Fs.isPrefix l l = true.
Proof. induction l as [|x l IH]; [reflexivity|]. cbn. rewrite String.eqb_refl. exact IH. Qed.

Lemma isPrefix_longer (l1 l2 : list string) :
  (length l2 < length l1)%nat -> Fs.isPrefix l1 l2 = false.
Proof.
  revert l2. induction l1 as [|x l1 IH]; intros [|y l2] H; cbn [length] in H;
    try lia; [reflexivity|].
  cbn [Fs.isPrefix]. rewrite IH by lia. apply andb_false_r.
Qed.

Lemma reports_file (env : Env) (name : string) :
  contains "/"%char name = false ->
  Fs.isDirectory env (reportsDir env ++ "/" ++ name) = false /\
  Fs.inDirectory env (reportsDir env ++ "/" ++ name) = true.
Proof.
  intros Hs. unfold Fs.isDirectory, Fs.inDirectory.
  change (reportsDir env ++ "/" ++ name) with (reportsDir env ++ String "/" name).
  rewrite segments_app, (segments_whole name Hs). split.
  - apply isPrefix_longer. rewrite length_app. cbn. lia.
  - rewrite removelast_last. apply isPrefix_refl.
Qed.

(* ===================================================================== *)
(** ** Normalisation of findings *)
(* ===================================================================== *)

Lemma prop_classifiable (f : JS.value) (k : string) :
  classifiable f = true -> exists v, JS.prop f k = Ok v.
Proof. destruct f; cbn; try discriminate; eauto. Qed.

Lemma normalize_classifiable (env : Env) (index : nat) (f : JS.value) :
  classifiable f = true ->
  exists sf, normalize env index f = Ok sf /\ finding_severity sf = severityText f.
Proof.
  intros Hf. unfold normalize.
  repeat match goal with
         | |- context [JS.prop f ?k] =>
             let v := fresh "v" in let E := fresh "E" in
             destruct (prop_classifiable f k Hf) as [v E]; rewrite E; cbn [bind]
         end.
  rewrite (severityOf_classifiable f Hf). cbn [bind].
  eexists. split; reflexivity.
Qed.

Lemma normalize_unclassifiable (env : Env) (index : nat) (f : JS.value) :
  classifiable f = false -> exists m, normalize env index f = Throw (TypeError m).
Proof.
  intros Hf. unfold normalize.
  destruct f as [| |b|q|s|l|fields]; try discriminate Hf;
    try (eexists; reflexivity).
  cbn [JS.prop bind].
  destruct (severityOf_unclassifiable _ Hf) as [m E]. rewrite E. cbn [bind]. eauto.
Qed.

Lemma mapIndexed_normalize (env : Env) (items : list JS.value) :
  forallb classifiable items = true ->
  forall index, exists normalized,
    mapIndexed (normalize env) index items = Ok normalized /\
    map finding_severity normalized = map severityText items.
Proof.
  induction items as [|f items IH]; intros Hall index; cbn [mapIndexed].
  - exists []. split; reflexivity.
  - cbn in Hall. apply andb_prop in Hall as [Hf Hall].
    destruct (normalize_classifiable env index f Hf) as [sf [E Hs]].
    destruct (IH Hall (S index)) as [rest [Er Sr]].
    rewrite E, Er. cbn [bind]. exists (sf :: rest). split; [reflexivity|].
    cbn [map]. rewrite Hs, Sr. reflexivity.
Qed.

Lemma mapIndexed_normalize_throws (env : Env) (items : list JS.value) :
  forallb classifiable items = false ->
  forall index, exists m, mapIndexed (normalize env) index items = Throw (TypeError m).
Proof.
  induction items as [|f items IH]; intros Hall index; [discriminate|].
  cbn in Hall. cbn [mapIndexed]. destruct (classifiable f) eqn:Hf.
  - destruct (normalize_classifiable env index f Hf) as [sf [E _]]. rewrite E. cbn [bind].
    destruct (IH Hall (S index)) as [m Em]. rewrite Em. cbn [bind]. eauto.
  - destruct (normalize_unclassifiable env index f Hf) as [m E]. rewrite E. cbn [bind]. eauto.
Qed.

Lemma tally_map (severity : string) (items : list JS.value) (severities : list string) :
  severities = map severityText items ->
  tally severity items
  = Z.of_nat (length (List.filter (fun s => String.eqb s severity) severities)).
Proof.
  intros ->. unfold tally. f_equal. induction items as [|f items IH]; [reflexivity|].
  cbn [List.filter map]. destruct (String.eqb (severityText f) severity); cbn [length];
    rewrite IH; reflexivity.
Qed.

(** The two places that default a finding agree.  The per-finding
    normalisation of the generate route succeeds on exactly the arrays that
    [analyzeFindings] accepts, keeps one finding per input, and the number of
    normalised findings of each severity is the count that [analyzeFindings]
    reports. *)
Theorem normalize_agrees_with_analysis (env : Env) (items : list JS.value) :
  (forallb classifiable items = true ->
   exists normalized analysis,
     mapIndexed (normalize env) 0 items = Ok normalized /\
     analyzeFindings items = Ok analysis /\
     length normalized = length items /\
     totalFindings analysis = Z.of_nat (length normalized) /\
     forall severity,
       recognized severity = true ->
       Z.of_nat (length (List.filter
                           (fun sf => String.eqb (finding_severity sf) severity)
                           normalized))
       = (if String.eqb severity "CRITICAL" then criticalCount analysis
          else if String.eqb severity "HIGH" then highCount analysis
          else if String.eqb severity "MEDIUM" then mediumCount analysis
          else lowCount analysis)) /\
  (forallb classifiable items = false ->
   (exists m, mapIndexed (normalize env) 0 items = Throw (TypeError m)) /\
   (exists m, analyzeFindings items = Throw (TypeError m))).
Proof.
  split.
  - intros Hall. destruct (mapIndexed_normalize env items Hall 0) as [normalized [E Hs]].
    exists normalized. eexists. split; [exact E|].
    split; [apply analyzeFindings_classifiable, Hall|].
    assert (L : length normalized = length items).
    { rewrite <- (length_map finding_severity), Hs, length_map. reflexivity. }
    split; [exact L|]. cbn [totalFindings criticalCount highCount mediumCount lowCount].
    split; [rewrite L; reflexivity|].
    intros severity Hrec.
    assert (T : Z.of_nat (length (List.filter
                                    (fun sf => String.eqb (finding_severity sf) severity)
                                    normalized)) = tally severity items).
    { rewrite (tally_map severity items (map finding_severity normalized) Hs). f_equal.
      clear. induction normalized as [|sf l IH]; [reflexivity|].
      cbn [List.filter map]. destruct (String.eqb (finding_severity sf) severity);
        cbn [length]; rewrite IH; reflexivity. }
    rewrite T. unfold recognized in Hrec.
    destruct (String.eqb_spec severity "CRITICAL") as [EC|_]; [rewrite EC; reflexivity|].
    destruct (String.eqb_spec severity "HIGH") as [EH|_]; [rewrite EH; reflexivity|].
    destruct (String.eqb_spec severity "MEDIUM") as [EM|_]; [rewrite EM; reflexivity|].
    destruct (String.eqb_spec severity "LOW") as [EL|_]; [rewrite EL; reflexivity|].
    discriminate Hrec.
  - intros Hall. split.
    + apply mapIndexed_normalize_throws, Hall.
    + apply analyzeFindings_throws, Hall.
Qed.

Lemma normalize_agrees_with_analysis_witness :
  let env := mkEnv "/app" 1700000000000 "ck1" (fun _ => true) noFilter (fun _ => Ok []) Written in
  (exists normalized analysis,
     mapIndexed (normalize env) 0 [JS.Obj [("severity", JS.Str "high")]; JS.Obj []]
     = Ok normalized /\
     analyzeFindings [JS.Obj [("severity", JS.Str "high")]; JS.Obj []] = Ok analysis /\
     length normalized = length [JS.Obj [("severity", JS.Str "high")]; JS.Obj []] /\
     totalFindings analysis = Z.of_nat (length normalized) /\
     forall severity,
       recognized severity = true ->
       Z.of_nat (length (List.filter
                           (fun sf => String.eqb (finding_severity sf) severity)
                           normalized))
       = (if String.eqb severity "CRITICAL" then criticalCount analysis
          else if String.eqb severity "HIGH" then highCount analysis
          else if String.eqb severity "MEDIUM" then mediumCount analysis
          else lowCount analysis)) /\
  ((exists m, mapIndexed (normalize env) 0 [JS.Null] = Throw (TypeError m)) /\
   (exists m, analyzeFindings [JS.Null] = Throw (TypeError m))).
Proof.
  intros env. split.
  - apply (proj1 (normalize_agrees_with_analysis env _)). reflexivity.
  - apply (proj2 (normalize_agrees_with_analysis env _)). reflexivity.
Defined.

Lemma prop_field (f : JS.value) (k : string) (v : JS.value) :
  JS.prop f k = Ok v -> v = field k f.
Proof. destruct f; cbn; intros H; inversion H; reflexivity. Qed.

Lemma normalize_fields (env : Env) (index : nat) (f : JS.value) (sf : SecurityFinding) :
  normalize env index f = Ok sf ->
  finding_id sf
  = JS.or (field "id" f) (JS.Str ("finding-" ++ pretty (Z.of_nat index + 1)%Z)) /\
  finding_title sf
  = JS.or (field "title" f) (JS.Str ("Security Finding " ++ pretty (Z.of_nat index + 1)%Z)) /\
  finding_description sf
  = JS.or (field "description" f)
          (JS.or (field "details" f) (JS.Str "No description provided.")) /\
  finding_recommendation sf
  = JS.or (field "recommendation" f)
          (JS.or (field "remediation" f)
                 (JS.Str "Investigate and take appropriate action.")) /\
  finding_source sf
  = JS.or (field "source" f) (JS.or (field "domain" f) (JS.Str "Unknown")).
Proof.
  unfold normalize. intros H.
  repeat match type of H with
         | context [JS.prop f ?k] =>
             let v := fresh "v" in let E := fresh "E" in
             destruct (JS.prop f k) as [v|] eqn:E; cbn [bind] in H;
             [apply prop_field in E; subst v | discriminate H]
         end.
  destruct (severityOf f); cbn [bind] in H; [|discriminate H].
  repeat match type of H with
         | context [JS.prop f ?k] =>
             let v := fresh "v" in let E := fresh "E" in
             destruct (JS.prop f k) as [v|] eqn:E; cbn [bind] in H;
             [apply prop_field in E; subst v | discriminate H]
         end.
  injection H as <-. cbn. repeat split.
Qed.

(** What the generate route makes of each finding.  The finding at
    position [i] (from 0) keeps its [id] and [title] when they are truthy and
    otherwise gets ["finding-N"] and ["Security Finding N"] with [N = i + 1];
    [description] falls back to [details], [recommendation] to
    [remediation], [source] to [domain], and then to the fixed texts. *)
Theorem normalize_defaults (env : Env) (items : list JS.value)
        (normalized : list SecurityFinding) :
  mapIndexed (normalize env) 0 items = Ok normalized ->
  forall (i : nat) (f : JS.value),
    nth_error items i = Some f ->
    exists sf,
      nth_error normalized i = Some sf /\
      finding_id sf
      = JS.or (field "id" f) (JS.Str ("finding-" ++ pretty (Z.of_nat i + 1)%Z)) /\
      finding_title sf
      = JS.or (field "title" f) (JS.Str ("Security Finding " ++ pretty (Z.of_nat i + 1)%Z)) /\
      finding_description sf
      = JS.or (field "description" f)
              (JS.or (field "details" f) (JS.Str "No description provided.")) /\
      finding_recommendation sf
      = JS.or (field "recommendation" f)
              (JS.or (field "remediation" f)
                     (JS.Str "Investigate and take appropriate action.")) /\
      finding_source sf
      = JS.or (field "source" f) (JS.or (field "domain" f) (JS.Str "Unknown")).
Proof.
  assert (G : forall l start out,
             mapIndexed (normalize env) start l = Ok out ->
             forall i f, nth_error l i = Some f ->
                         exists sf, nth_error out i = Some sf /\
                                    normalize env (start + i) f = Ok sf).
  { clear. induction l as [|x l IH]; intros start out H i f Hi.
    - destruct i; discriminate Hi.
    - cbn [mapIndexed] in H.
      destruct (normalize env start x) as [y|] eqn:Ex; cbn [bind] in H; [|discriminate H].
      destruct (mapIndexed (normalize env) (S start) l) as [ys|] eqn:Er;
        cbn [bind] in H; [|discriminate H].
      injection H as <-. destruct i as [|i].
      + cbn in Hi. injection Hi as <-. exists y. rewrite Nat.add_0_r.
        split; [reflexivity|exact Ex].
      + cbn in Hi. destruct (IH (S start) ys Er i f Hi) as [sf [Hn Hs]].
        exists sf. split; [exact Hn|]. rewrite Nat.add_succ_r. exact Hs. }
  intros H i f Hi. destruct (G items 0%nat normalized H i f Hi) as [sf [Hn Hs]].
  exists sf. split; [exact Hn|]. apply (normalize_fields env i f sf Hs).
Qed.

Lemma normalize_defaults_witness :
  let env := mkEnv "/app" 1700000000000 "ck1" (fun _ => true) noFilter (fun _ => Ok []) Written in
  let items := [JS.Obj [("id", JS.Str "CRIT-001")];
                JS.Obj [("id", JS.Num 0); ("details", JS.Str "open port")]] in
  exists normalized,
    mapIndexed (normalize env) 0 items = Ok normalized /\
    exists sf,
      nth_error normalized 1 = Some sf /\
      finding_id sf = JS.Str "finding-2" /\
      finding_title sf = JS.Str "Security Finding 2" /\
      finding_description sf = JS.Str "open port".
Proof.
  intros env items. eexists. split; [reflexivity|].
  edestruct (normalize_defaults env items _ eq_refl 1%nat _ eq_refl)
    as [sf [Hn [Hid [Htitle [Hdesc _]]]]].
  exists sf. split; [exact Hn|]. split; [exact Hid|]. split; [exact Htitle | exact Hdesc].
Defined.

(* ===================================================================== *)
(** ** Lists, rows and worlds *)
(* ===================================================================== *)

Lemma world_eta (w : World) : mkWorld (table w) (disk w) = w.
Proof. destruct w; reflexivity. Qed.

Lemma find_none_existsb {A : Type} (p : A -> bool) (l : list A) :
  List.find p l = None <-> existsb p l = false.
Proof.
  induction l as [|x l IH]; simpl; [tauto|].
  destruct (p x); simpl; [split; discriminate | exact IH].
Qed.

Lemma find_some_existsb {A : Type} (p : A -> bool) (l : list A) :
  existsb p l = true -> exists x, List.find p l = Some x.
Proof.
  intros H. destruct (List.find p l) as [x|] eqn:F; [eauto|].
  apply find_none_existsb in F. congruence.
Qed.

Lemma map_untouched (p : Report.t -> bool) (data : Report.t -> Report.t)
      (t : list Report.t) :
  existsb p t = false -> map (fun x => if p x then data x else x) t = t.
Proof.
  induction t as [|x t IH]; simpl; [reflexivity|].
  intros H. apply orb_false_elim in H as [Hx Ht]. rewrite Hx, (IH Ht). reflexivity.
Qed.

Lemma existsb_snoc_executionId (t : list Report.t) (row : Report.t) :
  existsb (Prisma.hasExecutionId (Report.executionId row)) (t ++ [row])%list = true.
Proof.
  rewrite existsb_app. cbn [existsb]. unfold Prisma.hasExecutionId at 2.
  rewrite String.eqb_refl. rewrite orb_true_r. reflexivity.
Qed.

Lemma disk_insert_size (d : gmap string File) (p : string) (f : File) :
  (size (<[p := f]> d) <= S (size d))%nat.
Proof.
  destruct (d !! p) as [f0|] eqn:L.
  - rewrite <- (insert_delete_id d p f0 L) at 2.
    rewrite <- (insert_delete_eq d p f).
    rewrite !map_size_insert_None by apply lookup_delete_eq. lia.
  - rewrite map_size_insert_None by exact L. lia.
Qed.

(** When the database answers throughout, it answers each call. *)
Lemma dbOnline_calls (env : Env) :
  dbOnline env = true ->
  dbUp env 0 = true /\ dbUp env 1 = true /\ dbUp env 2 = true /\ dbUp env 3 = true.
Proof.
  unfold dbOnline. cbn [forallb]. intros H.
  repeat (apply andb_prop in H as [? H]). auto.
Qed.

Section Rewrites.

Lemma rewrites_refl (t : list Report.t) : rewrites t t.
Proof. exists (fun x => x). split; [repeat split; auto | symmetry; apply map_id]. Qed.

Lemma rewrites_trans (t1 t2 t3 : list Report.t) :
  rewrites t1 t2 -> rewrites t2 t3 -> rewrites t1 t3.
Proof.
  intros [g [Hg ->]] [h [Hh ->]]. exists (fun x => h (g x)). split.
  - intros x. destruct (Hg x) as (G1 & G2 & G3). destruct (Hh (g x)) as (H1 & H2 & H3).
    repeat split; [congruence | congruence | auto].
  - apply map_map.
Qed.

(** An update of the rows that a condition selects. *)
Lemma rewrites_where (p : Report.t -> bool) (data : Report.t -> Report.t)
      (t : list Report.t) :
  (forall x, Report.id (data x) = Report.id x /\
             Report.executionId (data x) = Report.executionId x /\
             lifecycle (data x)) ->
  rewrites t (map (fun x => if p x then data x else x) t).
Proof.
  intros Hd. exists (fun x => if p x then data x else x). split; [|reflexivity].
  intros x. destruct (p x); [|repeat split; auto]. destruct (Hd x) as (D1 & D2 & D3).
  repeat split; auto.
Qed.

Lemma failed_keeps (env : Env) (error : Error) (x : Report.t) :
  Report.id (failed env error x) = Report.id x /\
  Report.executionId (failed env error x) = Report.executionId x /\
  lifecycle (failed env error x).
Proof. repeat split. right. right. reflexivity. Qed.

Lemma completed_keeps (env : Env) (a b c : string) (x : Report.t) :
  Report.id (completed env a b c x) = Report.id x /\
  Report.executionId (completed env a b c x) = Report.executionId x /\
  lifecycle (completed env a b c x).
Proof. repeat split. right. left. repeat split; discriminate. Qed.

Lemma rewrites_length (t t' : list Report.t) : rewrites t t' -> length t' = length t.
Proof. intros [g [_ ->]]. apply length_map. Qed.

Lemma rewrites_ids (t t' : list Report.t) :
  rewrites t t' -> map Report.id t' = map Report.id t.
Proof.
  intros [g [Hg ->]]. rewrite map_map. apply map_ext. intros x. apply Hg.
Qed.

Lemma rewrites_executionIds (t t' : list Report.t) :
  rewrites t t' -> map Report.executionId t' = map Report.executionId t.
Proof.
  intros [g [Hg ->]]. rewrite map_map. apply map_ext. intros x. apply Hg.
Qed.

Lemma rewrites_lifecycle (t t' : list Report.t) :
  rewrites t t' -> Forall lifecycle t -> Forall lifecycle t'.
Proof.
  intros [g [Hg ->]] H. induction H as [|x t Hx Ht IH]; cbn [map]; constructor; auto.
  apply Hg, Hx.
Qed.

Lemma existsb_executionIds (e : string) (t : list Report.t) :
  existsb (Prisma.hasExecutionId e) t
  = existsb (fun x => String.eqb x e) (map Report.executionId t).
Proof. induction t as [|x t IH]; cbn; [reflexivity|]. rewrite IH. reflexivity. Qed.

Lemma existsb_ids (i : string) (t : list Report.t) :
  existsb (Prisma.hasId i) t = existsb (fun x => String.eqb x i) (map Report.id t).
Proof. induction t as [|x t IH]; cbn; [reflexivity|]. rewrite IH. reflexivity. Qed.

Lemma rewrites_has_execution (e : string) (t t' : list Report.t) :
  rewrites t t' ->
  existsb (Prisma.hasExecutionId e) t' = existsb (Prisma.hasExecutionId e) t.
Proof.
  intros H. rewrite !existsb_executionIds, (rewrites_executionIds _ _ H). reflexivity.
Qed.

End Rewrites.

(* ===================================================================== *)
(** ** POST /generate: validation *)
(* ===================================================================== *)

(** A body that has a member is a body. *)
Lemma destructure_member (req : GenerateRequest) (k : string) :
  JS.assoc k (reqBody req) <> JS.Undefined -> destructure req = Ok (reqBody req).
Proof.
  unfold destructure, reqBody. destruct (parsedBody req); [reflexivity|].
  cbn. congruence.
Qed.

Lemma destructure_truthy (req : GenerateRequest) (k : string) :
  JS.truthy (JS.assoc k (reqBody req)) = true -> destructure req = Ok (reqBody req).
Proof.
  intros H. apply (destructure_member req k). intros E. rewrite E in H. discriminate H.
Qed.

Section GenerateValidation.

Variables (env : Env) (req : GenerateRequest) (w : World).

Lemma generate_falsy_executionId :
  destructure req = Ok (reqBody req) ->
  JS.truthy (JS.assoc "executionId" (reqBody req)) = false ->
  generate env req w = (json 400 (failure "executionId is required"), w).
Proof.
  intros B H. unfold generate, handler. exec. rewrite B, H. reflexivity.
Qed.

Lemma generate_bad_findings :
  JS.truthy (JS.assoc "executionId" (reqBody req)) = true ->
  negb (JS.truthy (JS.assoc "findings" (reqBody req)))
  || negb (JS.isArray (JS.assoc "findings" (reqBody req))) = true ->
  generate env req w = (json 400 (failure "findings must be an array"), w).
Proof.
  intros He Hf. unfold generate, handler. exec.
  rewrite (destructure_truthy req "executionId" He), He, Hf. reflexivity.
Qed.

(** Without a body the destructuring throws, in the handler and again in
    its [catch]. *)
Lemma generate_no_body :
  parsedBody req = None ->
  generate env req w
  = (json 500 (JS.Obj [("success", JS.Bool false);
                       ("error", JS.Str "Failed to generate report");
                       ("message",
                        JS.Str "Cannot destructure property 'executionId' of 'req.body' as it is undefined.");
                       ("timestamp", dateJson (now env))]), w).
Proof.
  intros B. unfold generate, handler, generateFailed, destructure. exec. rewrite B.
  reflexivity.
Qed.

End GenerateValidation.

(** C3.  A generate request with a body that has no [executionId], or whose
    [findings] is missing or is not an array, is answered 400, and the world
    (hence the table) is left as it was.  A request without a body is not:
    the destructuring of [req.body] throws before the checks, and the answer
    is the 500 of the [catch], with the world left as it was. *)
Theorem generate_rejects_malformed (env : Env) (req : GenerateRequest) (w : World) :
  (forall members,
      parsedBody req = Some members ->
      JS.assoc "executionId" members = JS.Undefined \/
      JS.assoc "findings" members = JS.Undefined \/
      JS.isArray (JS.assoc "findings" members) = false ->
      statusCode (fst (generate env req w)) = 400%Z /\
      snd (generate env req w) = w /\
      table (snd (generate env req w)) = table w /\
      (fst (generate env req w) = json 400 (failure "executionId is required") \/
       fst (generate env req w) = json 400 (failure "findings must be an array"))) /\
  (parsedBody req = None ->
   statusCode (fst (generate env req w)) = 500%Z /\
   field "error" (bodyJson (fst (generate env req w))) = JS.Str "Failed to generate report" /\
   field "message" (bodyJson (fst (generate env req w)))
   = JS.Str "Cannot destructure property 'executionId' of 'req.body' as it is undefined." /\
   snd (generate env req w) = w).
Proof.
  split.
  - intros members B H.
    assert (R : reqBody req = members) by (unfold reqBody; rewrite B; reflexivity).
    assert (D : destructure req = Ok (reqBody req))
      by (unfold destructure; rewrite B, R; reflexivity).
    rewrite <- R in H.
    destruct (JS.truthy (JS.assoc "executionId" (reqBody req))) eqn:He.
    + assert (Hf : negb (JS.truthy (JS.assoc "findings" (reqBody req)))
                   || negb (JS.isArray (JS.assoc "findings" (reqBody req))) = true).
      { destruct H as [H|[H|H]].
        - rewrite H in He. discriminate.
        - rewrite H. reflexivity.
        - rewrite H. apply orb_true_r. }
      rewrite (generate_bad_findings env req w He Hf). cbn. auto.
    + rewrite (generate_falsy_executionId env req w D He). cbn. auto.
  - intros B. rewrite (generate_no_body env req w B). repeat split.
Qed.

Lemma generate_rejects_malformed_witness :
  let env := mkEnv "/app" 1700000000000 "ck1" (fun _ => true) noFilter (fun _ => Ok [])
                   Written in
  let req := mkGenerate (Some [("executionId", JS.Str "exec-1"); ("findings", JS.Str "none")])
                        "http" (Some "localhost:3000") in
  let nobody := mkGenerate None "http" (Some "localhost:3000") in
  let w := mkWorld [] ∅ in
  (statusCode (fst (generate env req w)) = 400%Z /\
   snd (generate env req w) = w /\
   table (snd (generate env req w)) = table w /\
   (fst (generate env req w) = json 400 (failure "executionId is required") \/
    fst (generate env req w) = json 400 (failure "findings must be an array"))) /\
  (statusCode (fst (generate env nobody w)) = 500%Z /\
   field "error" (bodyJson (fst (generate env nobody w))) = JS.Str "Failed to generate report" /\
   field "message" (bodyJson (fst (generate env nobody w)))
   = JS.Str "Cannot destructure property 'executionId' of 'req.body' as it is undefined." /\
   snd (generate env nobody w) = w).
Proof.
  intros env req nobody w. split.
  - apply (proj1 (generate_rejects_malformed env req w) _ eq_refl).
    right. right. reflexivity.
  - apply (proj2 (generate_rejects_malformed env nobody w)). reflexivity.
Defined.

(** C9.  The check on [executionId] is a truthiness check: the empty string
    is rejected with 400 and the text 'executionId is required', and the
    world is left as it was. *)
Theorem generate_rejects_empty_executionId (env : Env) (req : GenerateRequest) (w : World) :
  JS.assoc "executionId" (reqBody req) = JS.Str "" ->
  generate env req w = (json 400 (failure "executionId is required"), w) /\
  statusCode (fst (generate env req w)) = 400%Z /\
  table (snd (generate env req w)) = table w.
Proof.
  intros H.
  assert (G : generate env req w = (json 400 (failure "executionId is required"), w)).
  { apply generate_falsy_executionId.
    - apply (destructure_member req "executionId"). rewrite H. discriminate.
    - rewrite H. reflexivity. }
  rewrite G. auto.
Qed.

Lemma generate_rejects_empty_executionId_witness :
  let env := mkEnv "/app" 1700000000000 "ck1" (fun _ => true) noFilter (fun _ => Ok [])
                   Written in
  let req := mkGenerate (Some [("executionId", JS.Str ""); ("findings", JS.Arr [])])
                        "http" (Some "localhost:3000") in
  let w := mkWorld [] ∅ in
  generate env req w = (json 400 (failure "executionId is required"), w) /\
  statusCode (fst (generate env req w)) = 400%Z /\
  table (snd (generate env req w)) = table w.
Proof.
  intros env req w. apply generate_rejects_empty_executionId. reflexivity.
Defined.

(* ===================================================================== *)
(** ** POST /generate: what a call does to the world *)
(* ===================================================================== *)

Section GenerateEffect.

Variables (env : Env) (req : GenerateRequest).

(** The [catch] block touches the table only, and only by rewriting rows
    in place. *)
Lemma generateFailed_effect (error : Error) (w : World) :
  disk (snd (generateFailed env req error w)) = disk w /\
  rewrites (table w) (table (snd (generateFailed env req error w))).
Proof.
  unfold generateFailed. cbn [snd].
  destruct (destructure req) as [members|]; [|split; [reflexivity | apply rewrites_refl]].
  destruct (JS.truthy (JS.assoc "executionId" members));
    [|split; [reflexivity | apply rewrites_refl]].
  unfold Prisma.updateMany.
  destruct (Prisma.executionIdFilter env (JS.assoc "executionId" members)) as [selects|];
    cbn [bind]; [|split; [reflexivity | apply rewrites_refl]].
  unfold Prisma.connected.
  destruct (dbUp env 3); [|split; [reflexivity | apply rewrites_refl]].
  split; [reflexivity|]. cbn [table].
  apply (rewrites_where (fun x => selects (Report.executionId x))), failed_keeps.
Qed.


(** Rendering and saving writes at most one file and rewrites rows in
    place. *)
Lemma renderAndSave_effect (e : string) (findings : JS.value)
      (analysis : FindingsAnalysis) (report : Report.t) (w : World) :
  let w' := snd (renderAndSave env req e findings analysis report w) in
  (disk w' = disk w \/ exists p f, disk w' = <[p := f]> (disk w)) /\
  rewrites (table w) (table w').
Proof.
  unfold renderAndSave. exec.
  destruct (mapIndexed (normalize env) 0 (items findings)) as [normalized|];
    exec; [|split; [left; reflexivity | apply rewrites_refl]].
  destruct (renderPdf env _) as [pdfBuffer|];
    exec; [|split; [left; reflexivity | apply rewrites_refl]].
  unfold Fs.writeFileSync.
  destruct (Fs.isDirectory env _); exec; [split; [left; reflexivity | apply rewrites_refl]|].
  destruct (Fs.inDirectory env _); cbn [negb]; exec;
    [|split; [left; reflexivity | apply rewrites_refl]].
  destruct (diskWrite env) as [|m|written m]; exec.
  - unfold Prisma.update, Prisma.connected.
    destruct (dbUp env 2); exec;
      [|split; [right; eexists _, _; reflexivity | apply rewrites_refl]].
    destruct (List.find (Prisma.hasId (Report.id report)) (table w)); exec;
      [|split; [right; eexists _, _; reflexivity | apply rewrites_refl]].
    split; [right; eexists _, _; reflexivity|].
    apply rewrites_where. intros x. apply completed_keeps.
  - split; [left; reflexivity | apply rewrites_refl].
  - split; [right; eexists _, _; reflexivity | apply rewrites_refl].
Qed.

(** A call either rewrites rows in place and leaves the disk as it was, or
    inserts the row of its execution, whose keys were free, and writes at
    most one file. *)
Lemma generate_effect (w : World) :
  let w' := snd (generate env req w) in
  (rewrites (table w) (table w') /\ disk w' = disk w) \/
  (exists e row,
      JS.assoc "executionId" (reqBody req) = JS.Str e /\ e <> "" /\
      existsb (Prisma.hasExecutionId e) (table w) = false /\
      existsb (Prisma.hasId (Report.id row)) (table w) = false /\
      Report.executionId row = e /\ lifecycle row /\
      rewrites (table w ++ [row])%list (table w') /\
      (disk w' = disk w \/ exists p f, disk w' = <[p := f]> (disk w))).
Proof.
  cbv zeta.
  assert (Failed : forall error,
             rewrites (table w) (table (snd (generateFailed env req error w))) /\
             disk (snd (generateFailed env req error w)) = disk w).
  { intros error. destruct (generateFailed_effect error w). auto. }
  unfold generate, handler, generateNew. exec.
  destruct (destructure req) as [members|] eqn:B; [|left; apply Failed].
  assert (R : reqBody req = members).
  { unfold destructure in B. unfold reqBody.
    destruct (parsedBody req); [|discriminate]. cbn. congruence. }
  rewrite <- R.
  destruct (negb (JS.truthy (JS.assoc "executionId" (reqBody req)))) eqn:T;
    [left; split; [apply rewrites_refl | reflexivity]|].
  destruct (negb (JS.truthy (JS.assoc "findings" (reqBody req)))
            || negb (JS.isArray (JS.assoc "findings" (reqBody req))));
    [left; split; [apply rewrites_refl | reflexivity]|].
  destruct (Prisma.stringArg (JS.assoc "executionId" (reqBody req))) as [e|] eqn:Arg;
    [|left; apply Failed].
  assert (He : JS.assoc "executionId" (reqBody req) = JS.Str e).
  { destruct (JS.assoc "executionId" (reqBody req)); try discriminate Arg.
    cbn in Arg. congruence. }
  unfold Prisma.findUniqueByExecutionId, Prisma.connected.
  destruct (dbUp env 0); [|left; apply Failed].
  destruct (List.find (Prisma.hasExecutionId e) (table w)) eqn:Fd;
    [left; split; [apply rewrites_refl | reflexivity]|].
  apply find_none_existsb in Fd.
  destruct (analyzeFindings (items (JS.assoc "findings" (reqBody req))))
    as [analysis|]; [|left; apply Failed].
  unfold Prisma.create, Prisma.connected.
  destruct (dbUp env 1); [|left; apply Failed].
  destruct (existsb (Prisma.hasId (cuid env)) (table w)) eqn:Hid; [left; apply Failed|].
  rewrite Fd. right. exists e.
  exists (Report.mk (cuid env) e (Some ("Security Report - " ++ e))
                    (JS.assoc "findings" (reqBody req)) (analysisJson analysis)
                    None None None "PROCESSING" (now env) (now env) (now env)).
  split; [exact He|].
  split; [intros ->; rewrite He in T; discriminate T|].
  split; [exact Fd|]. split; [exact Hid|]. split; [reflexivity|].
  split; [left; repeat split|].
  match goal with
  | |- context [renderAndSave env req e ?f ?a ?r ?w1] =>
      pose proof (renderAndSave_effect e f a r w1) as [Hd Ht];
      destruct (renderAndSave env req e f a r w1) as [[resp1|error] w2]
  end; cbn [snd table disk] in Hd, Ht |- *.
  - split; [exact Ht | exact Hd].
  - destruct (generateFailed_effect error w2) as [Hd' Ht'].
    split; [exact (rewrites_trans _ _ _ Ht Ht')|]. rewrite Hd'. exact Hd.
Qed.

(** When the execution already has a row, no row is inserted and no file
    is written, whatever the call answers. *)
Lemma generate_existing_effect (w : World) (e : string) :
  JS.assoc "executionId" (reqBody req) = JS.Str e ->
  existsb (Prisma.hasExecutionId e) (table w) = true ->
  rewrites (table w) (table (snd (generate env req w))) /\
  disk (snd (generate env req w)) = disk w.
Proof.
  intros He Hex.
  destruct (generate_effect w) as [H|(e' & row & He' & _ & Hno & _)]; [exact H|].
  rewrite He in He'. injection He' as <-. congruence.
Qed.

(** The existing row is answered as it is. *)
Lemma generate_existing_response (w : World) (e : string) (r : Report.t) :
  JS.assoc "executionId" (reqBody req) = JS.Str e ->
  e <> "" ->
  JS.isArray (JS.assoc "findings" (reqBody req)) = true ->
  dbUp env 0 = true ->
  List.find (Prisma.hasExecutionId e) (table w) = Some r ->
  generate env req w = (existingResponse r, w).
Proof.
  intros He Hne Harr On Hr. unfold generate, handler. exec.
  rewrite (destructure_member req "executionId") by (rewrite He; discriminate).
  rewrite He. cbn [JS.truthy]. apply String.eqb_neq in Hne. rewrite Hne. cbn [negb].
  destruct (JS.assoc "findings" (reqBody req)); try discriminate Harr.
  cbn [JS.truthy JS.isArray negb orb Prisma.stringArg].
  unfold Prisma.findUniqueByExecutionId, Prisma.connected.
  rewrite On, Hr. reflexivity.
Qed.

End GenerateEffect.

(** C2.  Generate is idempotent per [executionId].  When a row of the
    requested execution exists, a well-formed request that the database
    answers is answered 200 with that row's identifiers, URL, status and
    creation time, whatever the findings and whatever the renderer would do,
    and the world is left as it was: nothing is inserted and no file is
    written.  Two calls for the same [executionId], one after the other, add
    at most one row and at most one file; once the first has inserted the
    row, the second inserts none and writes no file and, when it is well
    formed and the database answers, returns that row and changes
    nothing. *)
Theorem generate_idempotent :
  (forall (env : Env) (req : GenerateRequest) (w : World) (e : string) (r : Report.t),
      JS.assoc "executionId" (reqBody req) = JS.Str e ->
      e <> "" ->
      JS.isArray (JS.assoc "findings" (reqBody req)) = true ->
      dbOnline env = true ->
      List.find (Prisma.hasExecutionId e) (table w) = Some r ->
      Report.executionId r = e /\
      generate env req w
      = (json 200
           (JS.Obj [("success", JS.Bool true);
                    ("message", JS.Str "Report already exists");
                    ("data", JS.Obj [("reportId", JS.Str (Report.id r));
                                     ("executionId", JS.Str (Report.executionId r));
                                     ("pdfUrl", optString (Report.pdfUrl r));
                                     ("status", JS.Str (Report.status r));
                                     ("createdAt", dateJson (Report.createdAt r))])]),
         w)) /\
  (forall (env1 env2 : Env) (req1 req2 : GenerateRequest) (w0 : World),
      JS.assoc "executionId" (reqBody req1) = JS.assoc "executionId" (reqBody req2) ->
      let w1 := snd (generate env1 req1 w0) in
      let w2 := snd (generate env2 req2 w1) in
      (length (table w2) <= S (length (table w0)))%nat /\
      (size (disk w2) <= S (size (disk w0)))%nat /\
      (length (table w1) = S (length (table w0)) ->
       length (table w2) = length (table w1) /\
       disk w2 = disk w1 /\
       (dbOnline env2 = true ->
        JS.isArray (JS.assoc "findings" (reqBody req2)) = true ->
        exists r,
          In r (table w1) /\
          JS.assoc "executionId" (reqBody req1) = JS.Str (Report.executionId r) /\
          generate env2 req2 w1
          = (json 200
               (JS.Obj [("success", JS.Bool true);
                        ("message", JS.Str "Report already exists");
                        ("data", JS.Obj [("reportId", JS.Str (Report.id r));
                                         ("executionId", JS.Str (Report.executionId r));
                                         ("pdfUrl", optString (Report.pdfUrl r));
                                         ("status", JS.Str (Report.status r));
                                         ("createdAt", dateJson (Report.createdAt r))])]),
             w1)))).
Proof.
  split.
  - intros env req w e r He Hne Harr On Hr.
    destruct (dbOnline_calls env On) as [Up0 _].
    split.
    + apply find_some in Hr as [_ Hr]. apply String.eqb_eq in Hr. exact Hr.
    + exact (generate_existing_response env req w e r He Hne Harr Up0 Hr).
  - intros env1 env2 req1 req2 w0 Heq. cbv zeta.
    destruct (generate_effect env1 req1 w0)
      as [[Ht Hd]|(e & row & He & Hne & Hno & _ & Hrow & _ & Ht & Hd)].
    + (* the first call inserted nothing *)
      pose proof (rewrites_length _ _ Ht) as Hlen.
      destruct (generate_effect env2 req2 (snd (generate env1 req1 w0)))
        as [[Ht2 Hd2]|(e2 & row2 & _ & _ & _ & _ & _ & _ & Ht2 & Hd2)].
      * rewrite (rewrites_length _ _ Ht2), Hlen, Hd2, Hd.
        split; [lia|]. split; [lia|]. intros N. lia.
      * rewrite (rewrites_length _ _ Ht2), length_app, Hlen. cbn [length].
        split; [lia|]. split; [|intros N; lia].
        destruct Hd2 as [Hd2|[p [f Hd2]]]; rewrite Hd2, Hd; [lia | apply disk_insert_size].
    + (* the first call inserted the row of [e] *)
      pose proof (rewrites_length _ _ Ht) as Hlen.
      rewrite length_app in Hlen. cbn [length] in Hlen.
      assert (Hex : existsb (Prisma.hasExecutionId e)
                            (table (snd (generate env1 req1 w0))) = true).
      { rewrite (rewrites_has_execution e _ _ Ht), <- Hrow.
        apply existsb_snoc_executionId. }
      assert (He2 : JS.assoc "executionId" (reqBody req2) = JS.Str e) by congruence.
      destruct (generate_existing_effect env2 req2 _ e He2 Hex) as [Ht2 Hd2].
      rewrite (rewrites_length _ _ Ht2), Hd2, Hlen.
      split; [lia|]. split.
      { destruct Hd as [Hd|[p [f Hd]]]; rewrite Hd; [lia | apply disk_insert_size]. }
      intros _. split; [reflexivity|]. split; [reflexivity|].
      intros On Harr. destruct (dbOnline_calls env2 On) as [Up0 _].
      destruct (find_some_existsb _ _ Hex) as [r Hr].
      exists r. destruct (find_some _ _ Hr) as [Hin Hid].
      apply String.eqb_eq in Hid. split; [exact Hin|]. split; [congruence|].
      exact (generate_existing_response env2 req2 _ e r He2 Hne Harr Up0 Hr).
Qed.

Lemma generate_idempotent_witness :
  let row := Report.mk "ck0" "exec-1" (Some "Security Report - exec-1")
                       (JS.Arr []) (JS.Obj []) None None None "FAILED"
                       1699999999000 1699999999500 1699999999000 in
  let env := mkEnv "/app" 1700000000000 "ck1" (fun _ => true) noFilter
                   (fun _ => Throw (RenderError "stream closed")) Written in
  let req := mkGenerate (Some [("executionId", JS.Str "exec-1");
                               ("findings", JS.Arr [JS.Null])])
                        "http" (Some "localhost:3000") in
  let w := mkWorld [row] ∅ in
  generate env req w
  = (json 200
       (JS.Obj [("success", JS.Bool true);
                ("message", JS.Str "Report already exists");
                ("data", JS.Obj [("reportId", JS.Str "ck0");
                                 ("executionId", JS.Str "exec-1");
                                 ("pdfUrl", JS.Null);
                                 ("status", JS.Str "FAILED");
                                 ("createdAt", dateJson 1699999999000)])]),
     w) /\
  (let first := mkGenerate (Some [("executionId", JS.Str "exec-2");
                                  ("findings",
                                   JS.Arr [JS.Obj [("severity", JS.Str "high")]])])
                           "http" (Some "localhost:3000") in
   let again := mkGenerate (Some [("executionId", JS.Str "exec-2");
                                  ("findings", JS.Arr [])])
                           "http" (Some "localhost:3000") in
   let w1 := snd (generate env first w) in
   let w2 := snd (generate env again w1) in
   length (table w2) = length (table w1) /\ disk w2 = disk w1).
Proof.
  intros row env req w. split.
  - apply (proj1 generate_idempotent env req w "exec-1" row);
      [reflexivity | discriminate | reflexivity | reflexivity | reflexivity].
  - intros first again w1 w2.
    destruct (proj2 generate_idempotent env env first again w eq_refl) as [_ [_ H]].
    destruct (H eq_refl) as [H1 [H2 _]]. split; [exact H1 | exact H2].
Defined.

(* ===================================================================== *)
(** ** Sorting and directory listing *)
(* ===================================================================== *)

Lemma insertBy_perm {A : Type} (le : A -> A -> bool) (x : A) (l : list A) :
  Permutation (Query.insertBy le x l) (x :: l).
Proof.
  induction l as [|y l IH]; cbn [Query.insertBy]; [reflexivity|].
  destruct (le x y); [reflexivity|].
  rewrite IH. apply perm_swap.
Qed.

Lemma sortBy_perm {A : Type} (le : A -> A -> bool) (l : list A) :
  Permutation (Query.sortBy le l) l.
Proof.
  unfold Query.sortBy. induction l as [|x l IH]; cbn [fold_right]; [reflexivity|].
  rewrite insertBy_perm, IH. reflexivity.
Qed.

Lemma stripPrefix_app (p s rest : string) :
  stripPrefix p s = Some rest -> s = p ++ rest.
Proof.
  revert s. induction p as [|a p IH]; intros s H; cbn in H.
  - injection H as ->. reflexivity.
  - destruct s as [|b s]; [discriminate|].
    destruct (Ascii.eqb_spec a b) as [->|]; [|discriminate].
    change (String b s = String b (p ++ rest)). f_equal. apply IH, H.
Qed.

Section Sorting.

Context {A : Type} (le : A -> A -> bool).
Hypothesis le_total : forall a b, le a b = true \/ le b a = true.
Hypothesis le_trans : forall a b c, le a b = true -> le b c = true -> le a c = true.

Lemma insertBy_Forall (P : A -> Prop) (x : A) (l : list A) :
  P x -> Forall P l -> Forall P (Query.insertBy le x l).
Proof.
  intros Hx Hl. induction Hl as [|y l Hy Hl IH]; cbn [Query.insertBy].
  - constructor; [exact Hx | constructor].
  - destruct (le x y);
      [constructor; [exact Hx | constructor; assumption] | constructor; assumption].
Qed.

Lemma insertBy_sorted (x : A) (l : list A) :
  StronglySorted (fun a b => le a b = true) l ->
  StronglySorted (fun a b => le a b = true) (Query.insertBy le x l).
Proof.
  induction 1 as [|y l Hs IH Hy]; cbn [Query.insertBy].
  - constructor; constructor.
  - destruct (le x y) eqn:E.
    + constructor; [constructor; assumption|].
      constructor; [exact E|].
      eapply Forall_impl; [exact Hy|]. intros b Hb. exact (le_trans _ _ _ E Hb).
    + constructor; [exact IH|].
      apply insertBy_Forall; [|exact Hy].
      destruct (le_total x y) as [F|F]; [congruence | exact F].
Qed.

Lemma sortBy_sorted (l : list A) :
  StronglySorted (fun a b => le a b = true) (Query.sortBy le l).
Proof.
  unfold Query.sortBy. induction l as [|x l IH]; cbn [fold_right].
  - constructor.
  - apply insertBy_sorted. exact IH.
Qed.

End Sorting.

Lemma StronglySorted_weaken {A : Type} (R R' : A -> A -> Prop) (l : list A) :
  (forall a b, R a b -> R' a b) -> StronglySorted R l -> StronglySorted R' l.
Proof.
  intros HR. induction 1 as [|a l Hs IH Ha]; constructor; [exact IH|].
  eapply Forall_impl; [exact Ha|]. intros b. apply HR.
Qed.

(** An entry of a directory is the key of its file without the directory
    and the slash. *)
Lemma entryOf_key (dir p name : string) :
  Fs.entryOf dir p = Some name ->
  p = dir ++ "/" ++ name /\ name <> "" /\ contains "/"%char name = false.
Proof.
  unfold Fs.entryOf.
  destruct (stripPrefix (dir ++ "/") p) as [rest|] eqn:S; [|discriminate].
  destruct (String.eqb_spec rest "") as [|N]; [discriminate|]. cbn [orb].
  destruct (contains "/"%char rest) eqn:C; [discriminate|].
  intros [= <-]. rewrite (stripPrefix_app _ _ _ S), append_assoc. auto.
Qed.

Lemma entryOf_complete (dir name : string) :
  name <> "" -> contains "/"%char name = false ->
  Fs.entryOf dir (dir ++ "/" ++ name) = Some name.
Proof.
  intros Hn Hs. unfold Fs.entryOf.
  rewrite <- append_assoc, stripPrefix_complete, Hs.
  apply String.eqb_neq in Hn. rewrite Hn. reflexivity.
Qed.

(** The files that the listing reads are the [.pdf] entries of the reports
    directory. *)
Lemma pdfFiles_entries (env : Env) (w : World) (name : string) (f : File) :
  In (name, f)
     (Query.sortBy (fun a b => (birthtime (snd b) <=? birthtime (snd a))%Z)
        (List.filter (fun entry => endsWith (fst entry) ".pdf")
           (omap (fun pf => match Fs.entryOf (reportsDir env) (fst pf) with
                            | Some name => Some (name, snd pf)
                            | None => None
                            end)
                 (map_to_list (disk w)))))
  <-> disk w !! pathJoin (reportsDir env) name = Some f /\
      contains "/"%char name = false /\ endsWith name ".pdf" = true.
Proof.
  split.
  - intros H. apply (Permutation_in _ (sortBy_perm _ _)) in H.
    apply filter_In in H as [H Hpdf]. cbn [fst] in Hpdf.
    apply list_elem_of_In, list_elem_of_omap in H as [[p f'] [Hin Hentry]].
    cbn [fst snd] in Hentry.
    destruct (Fs.entryOf (reportsDir env) p) as [n|] eqn:E; [|discriminate].
    injection Hentry as -> ->.
    apply entryOf_key in E as (-> & _ & Hs).
    split; [|split; [exact Hs | exact Hpdf]].
    rewrite (pathJoin_plain env name (pdf_plainName name Hs Hpdf)).
    apply elem_of_map_to_list in Hin. exact Hin.
  - intros [Hf [Hs Hpdf]].
    pose proof (pdf_plainName name Hs Hpdf) as Hplain.
    rewrite (pathJoin_plain env name Hplain) in Hf.
    apply (Permutation_in _ (Permutation_sym (sortBy_perm _ _))).
    apply filter_In. split; [|exact Hpdf].
    apply list_elem_of_In, list_elem_of_omap.
    exists (reportsDir env ++ "/" ++ name, f). split.
    + apply elem_of_map_to_list. exact Hf.
    + cbn [fst snd]. rewrite entryOf_complete; [reflexivity| |exact Hs].
      apply Hplain.
Qed.

(** A listed name is the name of a file that is on disk, in the reports
    directory. *)
Lemma listedNames_on_disk (env : Env) (w : World) (name : string) :
  In name (listedNames env w) -> is_Some (disk w !! pathJoin (reportsDir env) name).
Proof.
  unfold listedNames, pdfFiles, Fs.readdirSync. exec.
  intros H. apply in_map_iff in H as [[n f] [Hn H]]. cbn in Hn. subst n.
  apply pdfFiles_entries in H as [H _]. rewrite H. eauto.
Qed.

(* ===================================================================== *)
(** ** GET /list/files *)
(* ===================================================================== *)

(** GET /list/files, with the reports directory in place, answers 200.  It
    reports the files that lie directly in the reports directory and whose
    name ends in [.pdf], each with the metadata of that file on disk, and
    nothing else, newest first: every entry was created no earlier than the
    entries after it.  [count] is the number of entries. *)
Theorem listFiles_newest_first (env : Env) (w : World) :
  exists files,
    listFiles env w
    = (json 200 (JS.Obj [("success", JS.Bool true);
                         ("count", JS.int (Z.of_nat (length files)));
                         ("reports", JS.Arr (map fileJson files))]), w) /\
    StronglySorted (fun a b => (birthtime (snd b) <= birthtime (snd a))%Z) files /\
    forall name f,
      In (name, f) files <->
      disk w !! pathJoin (reportsDir env) name = Some f /\
      contains "/"%char name = false /\ endsWith name ".pdf" = true.
Proof.
  eexists. split; [|split].
  - unfold listFiles, pdfFiles, Fs.readdirSync. exec. reflexivity.
  - eapply StronglySorted_weaken; [|apply sortBy_sorted].
    + intros a b H. apply Z.leb_le. exact H.
    + intros a b. destruct (Z.leb_spec (birthtime (snd b)) (birthtime (snd a)));
        destruct (Z.leb_spec (birthtime (snd a)) (birthtime (snd b))); auto; lia.
    + intros a b c H1 H2. apply Z.leb_le in H1, H2. apply Z.leb_le. lia.
  - intros name f. apply pdfFiles_entries.
Qed.

(* ===================================================================== *)
(** ** DELETE /:id *)
(* ===================================================================== *)

Section Delete.

Variables (env : Env) (id_ : string) (w : World).
Hypothesis online : dbOnline env = true.

Lemma deleteReport_missing :
  List.find (Prisma.hasId id_) (table w) = None ->
  deleteReport env id_ w = (json 404 (failure "Report not found"), w).
Proof.
  intros H. destruct (dbOnline_calls env online) as (Up0 & _).
  unfold deleteReport. exec.
  unfold Prisma.findUniqueById, Prisma.connected. rewrite Up0, H. reflexivity.
Qed.

(** The disk after [removePdf]: the recorded path is gone. *)
Lemma removePdf_world (r : Report.t) :
  removePdf r w =
  (Ok tt, mkWorld (table w)
                  (match Report.pdfPath r with
                   | Some p => if String.eqb p "" then disk w else delete p (disk w)
                   | None => disk w
                   end)).
Proof.
  unfold removePdf. destruct (Report.pdfPath r) as [p|]; exec;
    [|rewrite world_eta; reflexivity].
  destruct (String.eqb p ""); exec; [rewrite world_eta; reflexivity|].
  unfold Fs.existsSync, Fs.unlinkSync.
  destruct (disk w !! p) eqn:L; cbn [table disk]; rewrite ?L; [reflexivity|].
  rewrite (delete_id _ _ L), world_eta. reflexivity.
Qed.

Lemma deleteReport_found (r : Report.t) :
  List.find (Prisma.hasId id_) (table w) = Some r ->
  deleteReport env id_ w =
  (json 200 (JS.Obj [("success", JS.Bool true);
                     ("message", JS.Str ("Report " ++ id_ ++ " deleted successfully"));
                     ("deletedFile", optString (Report.pdfPath r))]),
   mkWorld (List.filter (fun x => negb (Prisma.hasId id_ x)) (table w))
           (match Report.pdfPath r with
            | Some p => if String.eqb p "" then disk w else delete p (disk w)
            | None => disk w
            end)).
Proof.
  intros H. destruct (dbOnline_calls env online) as (Up0 & Up1 & _).
  unfold deleteReport. unfold handler, bindM at 1, query.
  unfold Prisma.findUniqueById, Prisma.connected. rewrite Up0, H.
  unfold bindM at 1. rewrite removePdf_world.
  exec. unfold Prisma.delete, Prisma.connected. rewrite Up1, H. reflexivity.
Qed.

End Delete.

Lemma find_filter_negb (i : string) (t : list Report.t) :
  List.find (Prisma.hasId i) (List.filter (fun x => negb (Prisma.hasId i x)) t) = None.
Proof.
  apply find_none_existsb. induction t as [|x t IH]; [reflexivity|].
  cbn [List.filter]. destruct (Prisma.hasId i x) eqn:E; cbn [negb]; [exact IH|].
  cbn [existsb]. rewrite E, IH. reflexivity.
Qed.

Lemma getById_missing (env : Env) (id_ : string) (w : World) :
  dbOnline env = true ->
  List.find (Prisma.hasId id_) (table w) = None ->
  getById env id_ w = (json 404 (failure "Report not found"), w).
Proof.
  intros On H. destruct (dbOnline_calls env On) as (Up0 & _).
  unfold getById. exec.
  unfold Prisma.findUniqueById, Prisma.connected. rewrite Up0, H. reflexivity.
Qed.

(** C6.  With the database reachable: deleting an id that has no row is
    answered 404 and changes nothing; deleting an id that has a row is
    answered 200, removes the row and removes the file at the recorded path
    when there is one, so that a get of the id is answered 404 afterwards
    and the file listing no longer contains the name of the file. *)
Theorem deleteReport_removes :
  (forall (env : Env) (id_ : string) (w : World),
      dbOnline env = true ->
      List.find (Prisma.hasId id_) (table w) = None ->
      deleteReport env id_ w = (json 404 (failure "Report not found"), w)) /\
  (forall (env : Env) (id_ : string) (w : World) (r : Report.t),
      dbOnline env = true ->
      List.find (Prisma.hasId id_) (table w) = Some r ->
      let w' := snd (deleteReport env id_ w) in
      statusCode (fst (deleteReport env id_ w)) = 200%Z /\
      table w' = List.filter (fun x => negb (Prisma.hasId id_ x)) (table w) /\
      (forall p, Report.pdfPath r = Some p -> p <> "" ->
                 disk w' = delete p (disk w) /\ disk w' !! p = None) /\
      (Report.pdfPath r = None -> disk w' = disk w) /\
      (forall env', dbOnline env' = true ->
                    fst (getById env' id_ w') = json 404 (failure "Report not found")) /\
      (forall env' name, Report.pdfPath r = Some (pathJoin (reportsDir env') name) ->
                         ~ In name (listedNames env' w'))).
Proof.
  split.
  - intros env id_ w On H. apply deleteReport_missing; assumption.
  - intros env id_ w r On H. cbv zeta.
    rewrite (deleteReport_found env id_ w On r H). cbn [fst snd statusCode json table disk].
    split; [reflexivity|]. split; [reflexivity|].
    split; [|split; [|split]].
    + intros p Hp Hne. rewrite Hp. apply String.eqb_neq in Hne. rewrite Hne.
      split; [reflexivity | apply lookup_delete_eq].
    + intros Hp. rewrite Hp. reflexivity.
    + intros env' On'. rewrite getById_missing; [reflexivity | exact On' |].
      apply find_filter_negb.
    + intros env' name Hp Hin. apply listedNames_on_disk in Hin as [f Hf].
      rewrite Hp in Hf. cbn [disk] in Hf.
      pose proof (pathJoin_not_empty (reportsDir env') name) as E.
      apply String.eqb_neq in E. rewrite E in Hf.
      rewrite lookup_delete_eq in Hf. discriminate Hf.
Qed.

Lemma deleteReport_removes_witness :
  let row := Report.mk "ck1" "exec-1" (Some "Security Report - exec-1")
                       (JS.Arr []) (JS.Obj [])
                       (Some "http://localhost:3000/api/reports/download/report-exec-1-17.pdf")
                       (Some "/app/reports/report-exec-1-17.pdf") (Some "0.00 KB")
                       "COMPLETED" 17 17 17 in
  let env := mkEnv "/app" 1700000000000 "ck2" (fun _ => true) noFilter (fun _ => Ok []) Written in
  let w := mkWorld [row] {[ "/app/reports/report-exec-1-17.pdf" := mkFile [] 17 ]} in
  deleteReport env "ck9" w = (json 404 (failure "Report not found"), w) /\
  (let w' := snd (deleteReport env "ck1" w) in
   statusCode (fst (deleteReport env "ck1" w)) = 200%Z /\
   table w' = List.filter (fun x => negb (Prisma.hasId "ck1" x)) (table w) /\
   (forall p, Report.pdfPath row = Some p -> p <> "" ->
              disk w' = delete p (disk w) /\ disk w' !! p = None) /\
   (Report.pdfPath row = None -> disk w' = disk w) /\
   (forall env', dbOnline env' = true ->
                 fst (getById env' "ck1" w') = json 404 (failure "Report not found")) /\
   (forall env' name, Report.pdfPath row = Some (pathJoin (reportsDir env') name) ->
                      ~ In name (listedNames env' w'))).
Proof.
  intros row env w. split.
  - apply (proj1 deleteReport_removes env "ck9" w); reflexivity.
  - apply (proj2 deleteReport_removes env "ck1" w row); reflexivity.
Defined.

(* ===================================================================== *)
(** ** GET /: paging *)
(* ===================================================================== *)

(** [ceilDiv] is the ceiling of the quotient for every divisor but zero. *)
Lemma ceilDiv_spec (total limit_ : Z) :
  limit_ <> 0%Z ->
  exists pages, ceilDiv total limit_ = JS.int pages /\ isCeiling pages total limit_.
Proof.
  intros H. unfold ceilDiv, isCeiling. destruct (Z.eqb_spec limit_ 0) as [E|_]; [lia|].
  eexists. split; [reflexivity|].
  pose proof (Z.div_mod (- total) limit_ H) as D.
  destruct (Z.lt_ge_cases 0 limit_) as [Pos|Neg].
  - pose proof (Z.mod_pos_bound (- total) limit_ Pos) as B. left. nia.
  - pose proof (Z.mod_neg_bound (- total) limit_ ltac:(lia)) as B. right. nia.
Qed.

Lemma ceilDiv_one (total limit_ : Z) :
  (0 < total <= limit_)%Z -> ceilDiv total limit_ = JS.int 1.
Proof.
  intros H. destruct (ceilDiv_spec total limit_ ltac:(lia)) as [p [E B]].
  rewrite E. f_equal. destruct B as [[_ B]|[B _]]; [nia | lia].
Qed.

Section ListReports.

Variables (env : Env) (q : ListQuery) (w : World).

(** A list request is answered 500, or 200 with some rows and the
    pagination object. *)
Lemma listReports_cases :
  listReports env q w = (json 500 (failure "Failed to list reports"), w) \/
  exists rows,
    listReports env q w =
    (json 200
       (JS.Obj [("success", JS.Bool true);
                ("data", JS.Arr (map selectJson rows));
                ("pagination",
                 paginationJson (default 1%Z (page q)) (default 20%Z (limit q))
                                (Z.of_nat (length (selected q w))))]), w).
Proof.
  unfold listReports. exec.
  destruct (Query.findMany env _ _ _ _ _ _ (table w)) as [rows|]; [|left; reflexivity].
  unfold Prisma.count, Prisma.connected.
  destruct (dbUp env 1); [|left; reflexivity].
  right. exists rows. reflexivity.
Qed.

Hypothesis online : dbOnline env = true.

(** The answer to a list request that the data-access layer accepts. *)
Lemma listReports_ok (key : Report.t -> Query.SortKey) (asc : bool) :
  Query.column (default "createdAt" (sortBy q)) = Some key ->
  Query.direction (default "desc" (sortOrder q)) = Some asc ->
  (0 <= (default 1 (page q) - 1) * default 20 (limit q))%Z ->
  listReports env q w =
  (json 200
     (JS.Obj [("success", JS.Bool true);
              ("data", JS.Arr (map selectJson
                 (Query.window ((default 1 (page q) - 1) * default 20 (limit q))%Z
                    (default 20%Z (limit q))
                    (Query.sortBy
                       (fun a b => if asc then Query.keyLe (key a) (key b)
                                   else Query.keyLe (key b) (key a))
                       (selected q w)))));
              ("pagination",
               paginationJson (default 1%Z (page q)) (default 20%Z (limit q))
                              (Z.of_nat (length (selected q w))))]), w).
Proof.
  intros Hc Hd Hs. destruct (dbOnline_calls env online) as (Up0 & Up1 & _).
  unfold listReports. exec.
  unfold Query.findMany. rewrite Hc, Hd.
  destruct (Z.ltb_spec ((default 1 (page q) - 1) * default 20 (limit q)) 0) as [?|_];
    [lia|].
  unfold Prisma.count, Prisma.connected. rewrite Up0, Up1. reflexivity.
Qed.

End ListReports.

(** C4, as the code has it.  Every list request that is answered 200 carries
    a pagination object with the page and limit of the request (defaults 1
    and 20), the number of selected rows as [total], and
    [pages = ceil(total / limit)] ([null] when the limit is 0).  A request is
    answered 200 when the database answers, the ordering is valid and the
    offset [(page - 1) * limit] is not negative.  With [limit = 20] on page
    1, when at least one and fewer than 20 rows are selected, all of them
    are returned and [pages] is 1. *)
Theorem listReports_pagination :
  (forall (env : Env) (q : ListQuery) (w : World),
      let resp := fst (listReports env q w) in
      let pagination := field "pagination" (bodyJson resp) in
      let total := Z.of_nat (length (selected q w)) in
      statusCode resp = 200%Z ->
      field "page" pagination = JS.int (default 1 (page q)) /\
      field "limit" pagination = JS.int (default 20 (limit q)) /\
      field "total" pagination = JS.int total /\
      (default 20%Z (limit q) = 0%Z -> field "pages" pagination = JS.Null) /\
      (default 20%Z (limit q) <> 0%Z ->
       exists pages, field "pages" pagination = JS.int pages /\
                     isCeiling pages total (default 20 (limit q)))) /\
  (forall (env : Env) (q : ListQuery) (w : World),
      dbOnline env = true ->
      Query.column (default "createdAt" (sortBy q)) <> None ->
      Query.direction (default "desc" (sortOrder q)) <> None ->
      (0 <= (default 1 (page q) - 1) * default 20 (limit q))%Z ->
      statusCode (fst (listReports env q w)) = 200%Z) /\
  (forall (env : Env) (q : ListQuery) (w : World),
      dbOnline env = true ->
      Query.column (default "createdAt" (sortBy q)) <> None ->
      Query.direction (default "desc" (sortOrder q)) <> None ->
      default 1%Z (page q) = 1%Z ->
      default 20%Z (limit q) = 20%Z ->
      (0 < length (selected q w) < 20)%nat ->
      let resp := fst (listReports env q w) in
      (exists rows, Permutation rows (selected q w) /\
                    field "data" (bodyJson resp) = JS.Arr (map selectJson rows)) /\
      field "pages" (field "pagination" (bodyJson resp)) = JS.int 1).
Proof.
  split; [|split].
  - intros env q w. cbv zeta.
    destruct (listReports_cases env q w) as [E|[rows E]]; rewrite E; cbn [fst].
    { cbn. discriminate. }
    intros _. split; [reflexivity|]. split; [reflexivity|]. split; [reflexivity|].
    change (field "pages" _) with
      (ceilDiv (Z.of_nat (length (selected q w))) (default 20%Z (limit q))).
    split.
    + intros Z0. unfold ceilDiv. rewrite Z0. reflexivity.
    + apply ceilDiv_spec.
  - intros env q w On Hc Hd Hs.
    destruct (Query.column _) as [key|] eqn:Ec; [|contradiction].
    destruct (Query.direction _) as [asc|] eqn:Ed; [|contradiction].
    rewrite (listReports_ok env q w On key asc Ec Ed Hs). reflexivity.
  - intros env q w On Hc Hd Hp Hl Hn. cbv zeta.
    destruct (Query.column _) as [key|] eqn:Ec; [|contradiction].
    destruct (Query.direction _) as [asc|] eqn:Ed; [|contradiction].
    rewrite (listReports_ok env q w On key asc Ec Ed ltac:(rewrite Hp; lia)).
    cbn [fst]. rewrite Hp, Hl. split.
    + eexists. split; [|reflexivity].
      unfold Query.window. change (0 <=? 20)%Z with true. cbv iota.
      change (Z.to_nat ((1 - 1) * 20)) with 0%nat. change (Z.to_nat 20) with 20%nat.
      rewrite skipn_O.
      rewrite firstn_all2; [apply sortBy_perm|].
      rewrite (Permutation_length (sortBy_perm _ _)). lia.
    + change (field "pages" _) with (ceilDiv (Z.of_nat (length (selected q w))) 20).
      apply ceilDiv_one. lia.
Qed.

Lemma listReports_pagination_witness :
  let row := Report.mk "ck1" "exec-1" (Some "Security Report - exec-1")
                       (JS.Arr []) (JS.Obj []) None None None "PROCESSING" 17 17 17 in
  let env := mkEnv "/app" 1700000000000 "ck2" (fun _ => true) noFilter (fun _ => Ok []) Written in
  let q := mkListQuery None (Some 20%Z) None None None in
  let w := mkWorld [row] ∅ in
  let resp := fst (listReports env q w) in
  statusCode resp = 200%Z /\
  (field "page" (field "pagination" (bodyJson resp)) = JS.int 1 /\
   field "limit" (field "pagination" (bodyJson resp)) = JS.int 20 /\
   field "total" (field "pagination" (bodyJson resp)) = JS.int 1 /\
   (20%Z = 0%Z -> field "pages" (field "pagination" (bodyJson resp)) = JS.Null) /\
   (20%Z <> 0%Z ->
    exists pages, field "pages" (field "pagination" (bodyJson resp)) = JS.int pages /\
                  isCeiling pages 1 20)) /\
  ((exists rows, Permutation rows (selected q w) /\
                 field "data" (bodyJson resp) = JS.Arr (map selectJson rows)) /\
   field "pages" (field "pagination" (bodyJson resp)) = JS.int 1).
Proof.
  intros row env q w resp.
  assert (Ok200 : statusCode resp = 200%Z).
  { apply (proj1 (proj2 listReports_pagination) env q w);
      [reflexivity | discriminate | discriminate | cbn; lia]. }
  split; [exact Ok200|]. split.
  - apply (proj1 listReports_pagination env q w). exact Ok200.
  - apply (proj2 (proj2 listReports_pagination) env q w);
      [reflexivity | discriminate | discriminate | reflexivity | reflexivity | cbn; lia].
Defined.

(** C4 fails as stated: with [limit=20] and no row at all, which is fewer
    than 20 rows, the answer is page 1 with every row (none) and [pages] 0,
    not 1. *)
Lemma listReports_pagination_counterexample :
  let env := mkEnv "/app" 1700000000000 "ck2" (fun _ => true) noFilter (fun _ => Ok []) Written in
  let q := mkListQuery None (Some 20%Z) None None None in
  let w := mkWorld [] ∅ in
  let resp := fst (listReports env q w) in
  (length (table w) < 20)%nat /\
  statusCode resp = 200%Z /\
  field "data" (bodyJson resp) = JS.Arr [] /\
  field "page" (field "pagination" (bodyJson resp)) = JS.int 1 /\
  field "pages" (field "pagination" (bodyJson resp)) = JS.int 0 /\
  field "pages" (field "pagination" (bodyJson resp)) <> JS.int 1.
Proof.
  cbv zeta. split; [cbn; lia|]. repeat split; try reflexivity. discriminate.
Qed.

(* ===================================================================== *)
(** ** The error responses of the routes *)
(* ===================================================================== *)

Section Returns.

Context {A B : Type}.

Lemma returns_ret (a : A) (P : A -> Prop) : P a -> returns (ret a) P.
Proof. intros H w a' w' E. unfold ret in E. congruence. Qed.

Lemma returns_bind (m : M A) (k : A -> M B) (P : B -> Prop) :
  (forall a, returns (k a) P) -> returns (bindM m k) P.
Proof.
  intros H w b w' E. unfold bindM in E.
  destruct (m w) as [[a|e] w1]; [exact (H a w1 b w' E) | discriminate].
Qed.

(** A handler answers either what its body returns or what its [catch]
    builds. *)
Lemma handler_answers (body_ : M Response) (onError : Error -> World -> Response * World)
      (P : Response -> Prop) (w : World) :
  returns body_ P ->
  (forall e w', P (fst (onError e w'))) ->
  P (fst (handler body_ onError w)).
Proof.
  intros Hb He. unfold handler.
  destruct (body_ w) as [[r|e] w'] eqn:E; [exact (Hb w r w' E) | apply He].
Qed.

End Returns.

(** Walk through the body of a handler down to each [ret]. *)
Ltac returning :=
  repeat first
    [ apply returns_ret
    | apply returns_bind; intros ?
    | match goal with
      | |- returns (match ?x with _ => _ end) _ => destruct x
      end ].

(** Settle [envelope] on a response that is written out. *)
Ltac enveloped :=
  solve [ unfold envelope, detailed;
          cbn [statusCode json fst snd bodyJson body];
          intros ?; try lia;
          repeat split; try reflexivity; auto ].

Section Envelopes.

Variables (env : Env) (w : World).

Lemma health_envelope : envelope env GetHealth (fst (health env w)).
Proof.
  unfold health. apply handler_answers.
  - returning. enveloped.
  - intros e w'. enveloped.
Qed.

Lemma renderAndSave_returns (req : GenerateRequest) (e : string) (findings : JS.value)
      (analysis : FindingsAnalysis) (report : Report.t) :
  returns (renderAndSave env req e findings analysis report)
          (envelope env (PostGenerate req)).
Proof. unfold renderAndSave. returning. enveloped. Qed.

Lemma generate_envelope (req : GenerateRequest) :
  envelope env (PostGenerate req) (fst (generate env req w)).
Proof.
  unfold generate. apply handler_answers.
  - cbv zeta. unfold existingResponse.
    returning;
      first [ enveloped
            | unfold generateNew; returning; apply renderAndSave_returns ].
  - intros e w'. unfold generateFailed. enveloped.
Qed.

Lemma getById_envelope (id_ : string) : envelope env (GetById id_) (fst (getById env id_ w)).
Proof.
  unfold getById. apply handler_answers.
  - returning; enveloped.
  - intros e w'. enveloped.
Qed.

Lemma getByExecution_envelope (e : string) :
  envelope env (GetByExecution e) (fst (getByExecution env e w)).
Proof.
  unfold getByExecution. apply handler_answers.
  - returning; enveloped.
  - intros e' w'. enveloped.
Qed.

Lemma listReports_envelope (q : ListQuery) :
  envelope env (GetList q) (fst (listReports env q w)).
Proof.
  unfold listReports. apply handler_answers.
  - cbv zeta. returning. enveloped.
  - intros e w'. enveloped.
Qed.

Lemma download_envelope (filename : string) :
  envelope env (GetDownload filename) (fst (download env filename w)).
Proof.
  unfold download, sendFile. apply handler_answers.
  - cbv zeta. returning; enveloped.
  - intros e w'. enveloped.
Qed.

Lemma view_envelope (filename : string) :
  envelope env (GetView filename) (fst (view env filename w)).
Proof.
  unfold view, sendFile. apply handler_answers.
  - cbv zeta. returning; enveloped.
  - intros e w'. enveloped.
Qed.

Lemma listFiles_envelope : envelope env GetListFiles (fst (listFiles env w)).
Proof.
  unfold listFiles. apply handler_answers.
  - returning. enveloped.
  - intros e w'. enveloped.
Qed.

Lemma deleteReport_envelope (id_ : string) :
  envelope env (DeleteById id_) (fst (deleteReport env id_ w)).
Proof.
  unfold deleteReport. apply handler_answers.
  - returning; enveloped.
  - intros e w'. enveloped.
Qed.

Lemma testDb_envelope : envelope env GetTestDb (fst (testDb env w)).
Proof.
  unfold testDb. apply handler_answers.
  - returning. enveloped.
  - intros e w'. enveloped.
Qed.

End Envelopes.

(** C5, as the code has it.  An error response of a report route has status
    400, 404 or 500 and an [error] text.  Except for the health check, it
    has [success: false]; [message] and [timestamp] are present in the 500
    response of the generate route and of the database test, where
    [timestamp] is the ISO-8601 rendering of the clock, and in no other error
    response.  The 500 of the health check has no [success] and no [message]
    but has the [timestamp]. *)
Theorem route_error_envelope (env : Env) (request : Request) (w : World) :
  let resp := fst (route env request w) in
  (400 <= statusCode resp)%Z ->
  (statusCode resp = 400 \/ statusCode resp = 404 \/ statusCode resp = 500)%Z /\
  isStr (field "error" (bodyJson resp)) = true /\
  match request with
  | GetHealth =>
      field "success" (bodyJson resp) = JS.Undefined /\
      field "message" (bodyJson resp) = JS.Undefined /\
      field "timestamp" (bodyJson resp) = dateJson (now env)
  | _ =>
      field "success" (bodyJson resp) = JS.Bool false /\
      if detailed request resp then
        isStr (field "message" (bodyJson resp)) = true /\
        field "timestamp" (bodyJson resp) = dateJson (now env)
      else
        field "message" (bodyJson resp) = JS.Undefined /\
        field "timestamp" (bodyJson resp) = JS.Undefined
  end.
Proof.
  cbv zeta. change (envelope env request (fst (route env request w))).
  destruct request; cbn [route].
  - apply health_envelope.
  - apply generate_envelope.
  - apply getById_envelope.
  - apply getByExecution_envelope.
  - apply listReports_envelope.
  - apply download_envelope.
  - apply view_envelope.
  - apply listFiles_envelope.
  - apply deleteReport_envelope.
  - apply testDb_envelope.
Qed.

Lemma route_error_envelope_witness :
  let env := mkEnv "/app" 1700000000000 "ck1" (fun _ => false) noFilter (fun _ => Ok []) Written in
  let request := PostGenerate (mkGenerate (Some [("executionId", JS.Str "exec-1");
                                           ("findings", JS.Arr [])])
                                          "http" (Some "localhost:3000")) in
  let w := mkWorld [] ∅ in
  let resp := fst (route env request w) in
  (statusCode resp = 400 \/ statusCode resp = 404 \/ statusCode resp = 500)%Z /\
  isStr (field "error" (bodyJson resp)) = true /\
  field "success" (bodyJson resp) = JS.Bool false /\
  if detailed request resp then
    isStr (field "message" (bodyJson resp)) = true /\
    field "timestamp" (bodyJson resp) = dateJson (now env)
  else
    field "message" (bodyJson resp) = JS.Undefined /\
    field "timestamp" (bodyJson resp) = JS.Undefined.
Proof.
  intros env request w resp.
  apply (route_error_envelope env request w). vm_compute. discriminate.
Defined.

(** C5 fails as stated: the 400 of a generate request without [executionId]
    and the 404 of a get for an unknown id carry [success] and [error] only,
    neither [message] nor [timestamp]. *)
Lemma route_error_envelope_counterexample :
  let env := mkEnv "/app" 1700000000000 "ck1" (fun _ => true) noFilter (fun _ => Ok []) Written in
  let w := mkWorld [] ∅ in
  let invalid := fst (route env (PostGenerate (mkGenerate (Some [("findings", JS.Arr [])])
                                                          "http" (Some "localhost:3000"))) w) in
  let missing := fst (route env (GetById "ck404") w) in
  (statusCode invalid = 400%Z /\
   bodyJson invalid = JS.Obj [("success", JS.Bool false);
                              ("error", JS.Str "executionId is required")] /\
   field "message" (bodyJson invalid) = JS.Undefined /\
   field "timestamp" (bodyJson invalid) = JS.Undefined) /\
  (statusCode missing = 404%Z /\
   bodyJson missing = JS.Obj [("success", JS.Bool false);
                              ("error", JS.Str "Report not found")] /\
   field "message" (bodyJson missing) = JS.Undefined /\
   field "timestamp" (bodyJson missing) = JS.Undefined).
Proof.
  cbv zeta. repeat split; reflexivity.
Qed.

(* ===================================================================== *)
(** ** All routes: status codes and what is left untouched *)
(* ===================================================================== *)

Section StatusCodes.

Variables (env : Env) (w : World).

Ltac known := solve [ unfold knownStatus; cbn; auto ].

Lemma renderAndSave_status (req : GenerateRequest) (e : string) (findings : JS.value)
      (analysis : FindingsAnalysis) (report : Report.t) :
  returns (renderAndSave env req e findings analysis report) knownStatus.
Proof. unfold renderAndSave. returning. known. Qed.

Lemma generate_status (req : GenerateRequest) : knownStatus (fst (generate env req w)).
Proof.
  unfold generate. apply handler_answers.
  - cbv zeta. unfold existingResponse.
    returning;
      first [ known | unfold generateNew; returning; apply renderAndSave_status ].
  - intros e w'. unfold generateFailed. known.
Qed.

End StatusCodes.

(** Every answer of a report route has status 200, 400, 404 or 500; no
    route, generate included, ever answers 201. *)
Theorem route_status_codes (env : Env) (request : Request) (w : World) :
  knownStatus (fst (route env request w)) /\
  statusCode (fst (route env request w)) <> 201%Z.
Proof.
  assert (K : knownStatus (fst (route env request w))).
  { destruct request; cbn [route]; try apply generate_status;
      unfold health, getById, getByExecution, listReports, download, view, sendFile,
             listFiles, deleteReport, testDb;
      (apply handler_answers;
       [ cbv zeta; returning; unfold knownStatus; cbn; auto
       | intros e w'; unfold knownStatus; cbn; auto ]). }
  split; [exact K|]. unfold knownStatus in K. lia.
Qed.

Section Keeps.

Context {A B : Type}.

Lemma keeps_ret (a : A) : keeps (ret a).
Proof. intros w. reflexivity. Qed.

Lemma keeps_liftR (r : Result A) : keeps (liftR r).
Proof. intros w. reflexivity. Qed.

Lemma keeps_query (op : list Report.t -> Result A) : keeps (query op).
Proof. intros w. reflexivity. Qed.

Lemma keeps_bind (m : M A) (k : A -> M B) :
  keeps m -> (forall a, keeps (k a)) -> keeps (bindM m k).
Proof.
  intros Hm Hk w. unfold bindM. specialize (Hm w).
  destruct (m w) as [[a|e] w1]; cbn [snd] in Hm; subst w1; [apply Hk | reflexivity].
Qed.

End Keeps.

Lemma keeps_handler (body_ : M Response) (onError : Error -> World -> Response * World)
      (w : World) :
  keeps body_ -> (forall e w', snd (onError e w') = w') ->
  snd (handler body_ onError w) = w.
Proof.
  intros Hb He. unfold handler. specialize (Hb w).
  destruct (body_ w) as [[r|e] w1]; cbn [snd] in Hb; subst w1; [reflexivity | apply He].
Qed.

Lemma keeps_existsSync (p : string) : keeps (Fs.existsSync p).
Proof. intros w. reflexivity. Qed.

Lemma keeps_readFile (p : string) : keeps (Fs.readFile p).
Proof. intros w. unfold Fs.readFile. destruct (disk w !! p); reflexivity. Qed.

Lemma keeps_readdirSync (dir : string) : keeps (Fs.readdirSync dir).
Proof. intros w. reflexivity. Qed.

(** Walk through a body that only reads. *)
Ltac keeping :=
  repeat first
    [ apply keeps_ret | apply keeps_liftR | apply keeps_query
    | apply keeps_existsSync | apply keeps_readFile | apply keeps_readdirSync
    | apply keeps_bind; [|intros ?]
    | match goal with
      | |- keeps (match ?x with _ => _ end) => destruct x
      end ].

Lemma filter_snoc_fresh (i : string) (t : list Report.t) (row : Report.t) :
  existsb (Prisma.hasId i) t = false ->
  Report.id row = i ->
  List.filter (fun x => negb (Prisma.hasId i x)) (t ++ [row])%list = t.
Proof.
  intros Hfresh Hrow. rewrite List.filter_app. cbn [List.filter].
  unfold Prisma.hasId at 2. rewrite Hrow, String.eqb_refl. cbn [negb].
  rewrite app_nil_r. induction t as [|x t IH]; [reflexivity|].
  cbn [existsb] in Hfresh. apply orb_false_elim in Hfresh as [Hx Ht].
  cbn [List.filter]. rewrite Hx. cbn [negb]. f_equal. apply IH, Ht.
Qed.

Lemma find_snoc_fresh (i : string) (t : list Report.t) (row : Report.t) :
  existsb (Prisma.hasId i) t = false ->
  Report.id row = i ->
  List.find (Prisma.hasId i) (t ++ [row])%list = Some row.
Proof.
  intros Hfresh Hrow. induction t as [|x t IH]; cbn [app List.find].
  - unfold Prisma.hasId. rewrite Hrow, String.eqb_refl. reflexivity.
  - cbn [existsb] in Hfresh. apply orb_false_elim in Hfresh as [Hx Ht].
    rewrite Hx. apply IH, Ht.
Qed.

(** The database test cleans up after itself when the database answers
    throughout. *)
Lemma testDb_world (env : Env) (w : World) :
  dbOnline env = true -> snd (testDb env w) = w.
Proof.
  intros On. destruct (dbOnline_calls env On) as (Up0 & Up1 & Up2 & Up3).
  unfold testDb. exec. unfold Prisma.queryRaw, Prisma.connected. rewrite Up0.
  unfold Prisma.create, Prisma.connected. rewrite Up1.
  destruct (existsb (Prisma.hasId (cuid env)) (table w)) eqn:Fresh; [reflexivity|].
  destruct (existsb (Prisma.hasExecutionId _) (table w)); [reflexivity|].
  cbn [table disk]. unfold Prisma.count, Prisma.delete, Prisma.connected.
  rewrite Up2, Up3.
  cbn [Report.id]. rewrite (find_snoc_fresh (cuid env) (table w) _ Fresh) by reflexivity.
  rewrite (filter_snoc_fresh (cuid env) (table w) _ Fresh) by reflexivity.
  cbn [snd]. apply world_eta.
Qed.

Lemma route_world_kept (env : Env) (request : Request) (w : World) :
  mutating request = false -> snd (route env request w) = w.
Proof.
  intros Hm. destruct request; try discriminate Hm; cbn [route];
    unfold health, getById, getByExecution, listReports, download, view, sendFile,
           listFiles, pdfFiles;
    apply keeps_handler; try (intros e w'; reflexivity);
    cbv zeta; keeping.
Qed.

(** Only generate, delete and the database test write to the table or to
    the disk: every other route leaves both as they were, whatever it
    answers and whether or not the database answers. *)
Theorem route_read_only (env : Env) (request : Request) (w : World) :
  mutating request = false -> snd (route env request w) = w.
Proof.
  intros Hm. destruct request; try discriminate Hm;
    apply route_world_kept; reflexivity.
Qed.

Lemma route_read_only_witness :
  let env := mkEnv "/app" 1700000000000 "ck1" (fun _ => false) noFilter (fun _ => Ok [])
                   Written in
  let w := mkWorld [] {[ "/app/reports/a.pdf" := mkFile [] 17 ]} in
  snd (route env (GetDownload "a.pdf") w) = w.
Proof. intros env w. apply (route_read_only env (GetDownload "a.pdf") w). reflexivity. Defined.

(** On success the database test reports the number of rows the table had
    before its own throwaway row: it counts with the row in place and
    subtracts one. *)
Theorem testDb_counts_rows (env : Env) (w : World) :
  dbOnline env = true ->
  existsb (Prisma.hasId (cuid env)) (table w) = false ->
  existsb (Prisma.hasExecutionId ("test-" ++ pretty (now env))) (table w) = false ->
  statusCode (fst (testDb env w)) = 200%Z /\
  field "count" (bodyJson (fst (testDb env w))) = JS.int (Z.of_nat (length (table w))) /\
  snd (testDb env w) = w.
Proof.
  intros On Fresh FreshE. destruct (dbOnline_calls env On) as (Up0 & Up1 & Up2 & Up3).
  split; [|split; [|apply testDb_world; exact On]].
  - unfold testDb. exec. unfold Prisma.queryRaw, Prisma.create, Prisma.connected.
    rewrite Up0, Up1, Fresh, FreshE. cbn [table disk].
    unfold Prisma.count, Prisma.delete, Prisma.connected. rewrite Up2, Up3. cbn [Report.id].
    rewrite (find_snoc_fresh (cuid env) (table w) _ Fresh) by reflexivity. reflexivity.
  - unfold testDb. exec. unfold Prisma.queryRaw, Prisma.create, Prisma.connected.
    rewrite Up0, Up1, Fresh, FreshE. cbn [table disk].
    unfold Prisma.count, Prisma.delete, Prisma.connected. rewrite Up2, Up3. cbn [Report.id].
    rewrite (find_snoc_fresh (cuid env) (table w) _ Fresh) by reflexivity.
    cbn [fst bodyJson body json field JS.assoc].
    change (JS.assoc "count" _) with
      (JS.int (Z.of_nat (length (List.filter (Prisma.matches None)
                                             (table w ++ [Report.mk (cuid env)
                                                ("test-" ++ pretty (now env))
                                                (Some "Database Test Report")
                                                (JS.Arr [JS.Obj [("test", JS.Str "data")]])
                                                (JS.Obj [("test", JS.Str "success")])
                                                None None None "COMPLETED"
                                                (now env) (now env) (now env)])%list)) - 1)).
    f_equal. rewrite List.filter_app, length_app. cbn [List.filter Prisma.matches length].
    assert (F : forall l : list Report.t, List.filter (Prisma.matches None) l = l).
    { induction l as [|x l IH]; [reflexivity|]. cbn. f_equal. exact IH. }
    rewrite F. lia.
Qed.

Lemma testDb_counts_rows_witness :
  let row := Report.mk "ck0" "exec-1" None (JS.Arr []) (JS.Obj []) None None None
                       "FAILED" 17 17 17 in
  let env := mkEnv "/app" 1700000000000 "ck1" (fun _ => true) noFilter (fun _ => Ok []) Written in
  let w := mkWorld [row] ∅ in
  statusCode (fst (testDb env w)) = 200%Z /\
  field "count" (bodyJson (fst (testDb env w))) = JS.int (Z.of_nat (length (table w))) /\
  snd (testDb env w) = w.
Proof. intros row env w. apply (testDb_counts_rows env w); reflexivity. Defined.

(* ===================================================================== *)
(** ** POST /generate: the outcomes of a new execution *)
(* ===================================================================== *)

Lemma map_snoc_fresh (p : Report.t -> bool) (g : Report.t -> Report.t)
      (t : list Report.t) (row : Report.t) :
  existsb p t = false -> p row = true ->
  map (fun x => if p x then g x else x) (t ++ [row])%list = (t ++ [g row])%list.
Proof.
  intros Hfresh Hrow. rewrite map_app, (map_untouched p g t Hfresh).
  cbn [map]. rewrite Hrow. reflexivity.
Qed.

Lemma find_snoc_execution (e : string) (t : list Report.t) (row : Report.t) :
  existsb (Prisma.hasExecutionId e) t = false ->
  Report.executionId row = e ->
  List.find (Prisma.hasExecutionId e) (t ++ [row])%list = Some row.
Proof.
  intros Hfresh Hrow. induction t as [|x t IH]; cbn [app List.find].
  - unfold Prisma.hasExecutionId. rewrite Hrow, String.eqb_refl. reflexivity.
  - cbn [existsb] in Hfresh. apply orb_false_elim in Hfresh as [Hx Ht].
    rewrite Hx. apply IH, Ht.
Qed.

Lemma diskWritable_written (env : Env) : diskWritable env = true -> diskWrite env = Written.
Proof. unfold diskWritable. destruct (diskWrite env); [reflexivity | discriminate..]. Qed.

(** The name of a report file is an ordinary name when the execution id has
    no slash. *)
Lemma reportFileName_plain (e : string) (t : Z) :
  contains "/"%char e = false -> plainName (reportFileName e t).
Proof.
  intros He. unfold plainName, reportFileName.
  repeat split; try discriminate.
  rewrite !contains_app, He, pretty_Z_no_slash. reflexivity.
Qed.

Lemma reportPath_plain (env : Env) (e : string) :
  contains "/"%char e = false ->
  let path := pathJoin (reportsDir env) (reportFileName e (now env)) in
  path = reportsDir env ++ "/" ++ reportFileName e (now env) /\
  Fs.isDirectory env path = false /\ Fs.inDirectory env path = true.
Proof.
  intros He path. subst path.
  pose proof (reportFileName_plain e (now env) He) as P.
  rewrite (pathJoin_plain env _ P). split; [reflexivity|].
  apply reports_file. apply P.
Qed.

Section GenerateNew.

Variables (env : Env) (req : GenerateRequest) (w : World).
Variables (e : string) (elements : list JS.value).

Hypothesis body_executionId : JS.assoc "executionId" (reqBody req) = JS.Str e.
Hypothesis executionId_not_empty : e <> "".
Hypothesis body_findings : JS.assoc "findings" (reqBody req) = JS.Arr elements.
Hypothesis online : dbOnline env = true.
Hypothesis new_execution : existsb (Prisma.hasExecutionId e) (table w) = false.

(** Up to the existence check. *)
Lemma generate_new :
  generate env req w
  = handler (generateNew env req e (JS.Arr elements)) (generateFailed env req) w.
Proof.
  destruct (dbOnline_calls env online) as (Up0 & _).
  unfold generate, handler. exec.
  rewrite (destructure_member req "executionId")
    by (rewrite body_executionId; discriminate).
  rewrite body_executionId, body_findings.
  cbn [JS.truthy JS.isArray negb orb]. apply String.eqb_neq in executionId_not_empty.
  rewrite executionId_not_empty. cbn [negb Prisma.stringArg].
  unfold Prisma.findUniqueByExecutionId, Prisma.connected. rewrite Up0.
  apply find_none_existsb in new_execution. rewrite new_execution. reflexivity.
Qed.

(** The [catch] block on a table whose last row is the one just inserted. *)
Lemma generateFailed_marks (error : Error) (row : Report.t) (d : gmap string File) :
  Report.executionId row = e ->
  generateFailed env req error (mkWorld (table w ++ [row]) d)
  = (generateError env error, mkWorld (table w ++ [failed env error row]) d).
Proof.
  intros Hrow. destruct (dbOnline_calls env online) as (_ & _ & _ & Up3).
  unfold generateFailed, generateError.
  rewrite (destructure_member req "executionId")
    by (rewrite body_executionId; discriminate).
  rewrite body_executionId.
  cbn [JS.truthy]. apply String.eqb_neq in executionId_not_empty.
  rewrite executionId_not_empty. cbn [negb].
  unfold Prisma.updateMany, Prisma.connected.
  cbn [Prisma.executionIdFilter bind table disk].
  rewrite Up3.
  change (fun x => if String.eqb (Report.executionId x) e then failed env error x else x)
    with (fun x => if Prisma.hasExecutionId e x then failed env error x else x).
  rewrite (map_snoc_fresh _ _ _ _ new_execution)
    by (unfold Prisma.hasExecutionId; rewrite Hrow; apply String.eqb_refl).
  reflexivity.
Qed.




Hypothesis new_id : existsb (Prisma.hasId (cuid env)) (table w) = false.

Variables (analysis : FindingsAnalysis) (normalized : list SecurityFinding).
Hypothesis analysed : analyzeFindings elements = Ok analysis.
Hypothesis normalised : mapIndexed (normalize env) 0 elements = Ok normalized.

(** Up to the call of the renderer and the write of the file. *)
Lemma generate_inserted :
  let path := pathJoin (reportsDir env) (reportFileName e (now env)) in
  let born := match disk w !! path with Some f => birthtime f | None => now env end in
  let fails := fun (error : Error) (d : gmap string File) =>
    (generateError env error,
     mkWorld (table w ++ [failedRow env e (JS.Arr elements) error]) d) in
  generate env req w
  = match renderPdf env (mkReportData e normalized (now env) analysis) with
    | Throw error => fails error (disk w)
    | Ok pdfBuffer =>
        if Fs.isDirectory env path then
          fails (FsError ("EISDIR: illegal operation on a directory, open "
                          ++ Fs.quoted path)) (disk w)
        else if negb (Fs.inDirectory env path) then
          fails (FsError ("ENOENT: no such file or directory, open "
                          ++ Fs.quoted path)) (disk w)
        else
          match diskWrite env with
          | OpenFails m => fails (FsError m) (disk w)
          | WriteFails written m =>
              fails (FsError m) (<[path := mkFile (firstn written pdfBuffer) born]> (disk w))
          | Written =>
          handler
            (updatedReport <~
               mutate (Prisma.update env 2 (cuid env)
                         (completed env
                            ((protocol req ++ "://" ++ string_of_host (host req))
                             ++ "/api/reports/download/" ++ reportFileName e (now env))
                            path
                            (formatKB (Z.of_nat (length pdfBuffer))))) ;;
             ret (json 200
               (JS.Obj [("success", JS.Bool true);
                        ("message", JS.Str "Report generated successfully");
                        ("data", JS.Obj [
                           ("reportId", JS.Str (Report.id updatedReport));
                           ("executionId", JS.Str (Report.executionId updatedReport));
                           ("metadata", JS.Obj (("generatedAt", dateJson (now env))
                                                :: analysisFields analysis));
                           ("pdf", JS.Obj [
                              ("fileName", JS.Str (reportFileName e (now env)));
                              ("fileSize", JS.Str (formatKB (Z.of_nat (length pdfBuffer))));
                              ("downloadUrl",
                               JS.Str ((protocol req ++ "://" ++ string_of_host (host req))
                                       ++ "/api/reports/download/"
                                       ++ reportFileName e (now env)));
                              ("viewUrl",
                               JS.Str ((protocol req ++ "://" ++ string_of_host (host req))
                                       ++ "/api/reports/view/"
                                       ++ reportFileName e (now env)));
                              ("localPath", JS.Str path)]);
                           ("summary", analysisJson analysis);
                           ("databaseRecord", JS.Obj [
                              ("id", JS.Str (Report.id updatedReport));
                              ("status", JS.Str (Report.status updatedReport));
                              ("createdAt", dateJson (Report.createdAt updatedReport));
                              ("updatedAt", dateJson (Report.updatedAt updatedReport))]);
                           ("timestamp", dateJson (now env))])])))
            (generateFailed env req)
            (mkWorld (table w ++ [processingRow env e (JS.Arr elements) analysis])
                     (<[path := mkFile pdfBuffer born]> (disk w)))
          end
    end.
Proof.
  cbv zeta. destruct (dbOnline_calls env online) as (_ & Up1 & _).
  rewrite generate_new. unfold handler at 1, generateNew. exec. cbn [items].
  rewrite analysed. unfold Prisma.create, Prisma.connected.
  rewrite Up1, new_id, new_execution. cbn [table disk].
  unfold renderAndSave. exec. cbn [items]. rewrite normalised.
  destruct (renderPdf env _) as [pdfBuffer|error].
  - unfold Fs.writeFileSync. cbn [table disk].
    change ("report-" ++ e ++ "-" ++ pretty (now env) ++ ".pdf")
      with (reportFileName e (now env)).
    destruct (Fs.isDirectory env _).
    { rewrite generateFailed_marks by reflexivity. reflexivity. }
    destruct (Fs.inDirectory env _); cbn [negb].
    2:{ rewrite generateFailed_marks by reflexivity. reflexivity. }
    destruct (diskWrite env) as [|m|written m].
    + reflexivity.
    + rewrite generateFailed_marks by reflexivity. reflexivity.
    + rewrite generateFailed_marks by reflexivity. reflexivity.
  - rewrite generateFailed_marks by reflexivity. reflexivity.
Qed.




Hypothesis no_slash : contains "/"%char e = false.

Variable pdfBuffer : Buffer.
Hypothesis rendered :
  renderPdf env (mkReportData e normalized (now env) analysis) = Ok pdfBuffer.
Hypothesis writable : diskWritable env = true.

Lemma generate_success_world :
  snd (generate env req w)
  = generatedWorld env req w e (JS.Arr elements) analysis pdfBuffer.
Proof.
  destruct (dbOnline_calls env online) as (_ & _ & Up2 & _).
  destruct (reportPath_plain env e no_slash) as (_ & D1 & D2).
  rewrite generate_inserted, rendered, D1, D2, (diskWritable_written env writable).
  cbn [negb]. unfold handler. exec. unfold Prisma.update, Prisma.connected. rewrite Up2.
  cbn [table disk].
  rewrite (find_snoc_fresh (cuid env) (table w) _ new_id) by reflexivity.
  rewrite (map_snoc_fresh _ _ _ _ new_id) by apply String.eqb_refl.
  reflexivity.
Qed.

(** A generate request for a new execution whose id has no slash and whose
    findings are classifiable, with the database answering, the renderer
    succeeding and the disk taking the bytes, is answered 200 with the
    generated id, the summary and the file name; it appends exactly one row,
    COMPLETED and carrying the download URL, the path and the size, and
    writes the rendered bytes to [report-<executionId>-<now>.pdf] in the
    reports directory. *)
Theorem generate_success :
  let resp := fst (generate env req w) in
  let path := pathJoin (reportsDir env) (reportFileName e (now env)) in
  statusCode resp = 200%Z /\
  field "success" (bodyJson resp) = JS.Bool true /\
  field "reportId" (field "data" (bodyJson resp)) = JS.Str (cuid env) /\
  field "summary" (field "data" (bodyJson resp)) = analysisJson analysis /\
  field "fileName" (field "pdf" (field "data" (bodyJson resp)))
  = JS.Str (reportFileName e (now env)) /\
  field "localPath" (field "pdf" (field "data" (bodyJson resp))) = JS.Str path /\
  field "status" (field "databaseRecord" (field "data" (bodyJson resp)))
  = JS.Str "COMPLETED" /\
  path = reportsDir env ++ "/" ++ reportFileName e (now env) /\
  snd (generate env req w)
  = generatedWorld env req w e (JS.Arr elements) analysis pdfBuffer /\
  Report.pdfPath (completedRow env req e (JS.Arr elements) analysis pdfBuffer) = Some path /\
  disk (snd (generate env req w)) !! path
  = Some (mkFile pdfBuffer
                 (match disk w !! path with Some f => birthtime f | None => now env end)).
Proof.
  cbv zeta.
  destruct (dbOnline_calls env online) as (_ & _ & Up2 & _).
  destruct (reportPath_plain env e no_slash) as (P & D1 & D2).
  rewrite generate_inserted, rendered, D1, D2, (diskWritable_written env writable).
  cbn [negb]. unfold handler. exec. unfold Prisma.update, Prisma.connected. rewrite Up2.
  cbn [table disk].
  rewrite (find_snoc_fresh (cuid env) (table w) _ new_id) by reflexivity.
  rewrite (map_snoc_fresh _ _ _ _ new_id) by apply String.eqb_refl.
  cbn [fst snd disk]. rewrite lookup_insert_eq. repeat split. exact P.
Qed.

End GenerateNew.

(* ===================================================================== *)
(** ** A generated report in the other routes *)
(* ===================================================================== *)

Lemma headerValue_app (a b : string) :
  headerValue (a ++ b) = headerValue a && headerValue b.
Proof.
  induction a as [|c a IH]; [reflexivity|].
  change (headerValue (String c (a ++ b)) = headerValue (String c a) && headerValue b).
  cbn [headerValue]. rewrite IH. apply andb_assoc.
Qed.

Lemma headerChar_digit (n : N) : headerChar (pretty_N_char n) = true.
Proof.
  unfold pretty_N_char.
  repeat (match goal with |- context [match ?x with _ => _ end] => destruct x end);
    reflexivity.
Qed.

Lemma headerValue_pretty_N (x : N) (s : string) :
  headerValue (pretty_N_go x s) = headerValue s.
Proof.
  revert s. induction (N.lt_wf_0 x) as [x _ IH]; intros s.
  destruct (N.eq_dec x 0%N) as [->|Hx].
  - rewrite pretty_N_go_0. reflexivity.
  - rewrite pretty_N_go_step by lia. rewrite IH by (apply N.div_lt; lia).
    cbn [headerValue]. rewrite headerChar_digit. reflexivity.
Qed.

Lemma headerValue_pretty (z : Z) : headerValue (pretty z) = true.
Proof.
  destruct z as [|p|p].
  - reflexivity.
  - change (pretty (Z.pos p)) with (pretty_N_go (N.pos p) "").
    apply headerValue_pretty_N.
  - change (pretty (Z.neg p)) with ("-" ++ pretty_N_go (N.pos p) "").
    rewrite headerValue_app, headerValue_pretty_N. reflexivity.
Qed.

(** The disposition header of a report file is accepted when the execution
    id holds no control character. *)
Lemma disposition_accepted (kind e : string) (t : Z) :
  headerValue kind = true -> headerValue e = true ->
  setHeader "Content-Disposition"
            (kind ++ "; filename=" ++ dquote ++ reportFileName e t ++ dquote)
  = Ok ("Content-Disposition",
        kind ++ "; filename=" ++ dquote ++ reportFileName e t ++ dquote).
Proof.
  intros Hk He. unfold setHeader, reportFileName.
  rewrite !headerValue_app, Hk, He, headerValue_pretty. reflexivity.
Qed.

Section GenerateThen.

Variables (env : Env) (req : GenerateRequest) (w : World).
Variables (e : string) (elements : list JS.value).
Variables (analysis : FindingsAnalysis) (normalized : list SecurityFinding).
Variable pdfBuffer : Buffer.

Hypothesis body_executionId : JS.assoc "executionId" (reqBody req) = JS.Str e.
Hypothesis executionId_not_empty : e <> "".
Hypothesis body_findings : JS.assoc "findings" (reqBody req) = JS.Arr elements.
Hypothesis online : dbOnline env = true.
Hypothesis new_execution : existsb (Prisma.hasExecutionId e) (table w) = false.
Hypothesis new_id : existsb (Prisma.hasId (cuid env)) (table w) = false.
Hypothesis analysed : analyzeFindings elements = Ok analysis.
Hypothesis normalised : mapIndexed (normalize env) 0 elements = Ok normalized.
Hypothesis no_slash : contains "/"%char e = false.
Hypothesis rendered :
  renderPdf env (mkReportData e normalized (now env) analysis) = Ok pdfBuffer.
Hypothesis writable : diskWritable env = true.

Lemma generated :
  snd (generate env req w)
  = generatedWorld env req w e (JS.Arr elements) analysis pdfBuffer.
Proof.
  exact (generate_success_world env req w e elements body_executionId
           executionId_not_empty body_findings online new_execution new_id
           analysis normalized analysed normalised no_slash pdfBuffer rendered writable).
Qed.

(** The file a successful generate wrote is served back byte for byte, when
    the execution id holds no slash and no control character: its download
    answers 200 with the rendered buffer, content type [application/pdf] and
    an attachment disposition naming the file, and its view answers the same
    with an inline disposition. *)
Theorem generate_then_download (env' : Env) :
  headerValue e = true ->
  cwd env' = cwd env ->
  let w' := snd (generate env req w) in
  let name := reportFileName e (now env) in
  download env' name w'
  = (mkResponse 200 [("Content-Type", "application/pdf");
                     ("Content-Disposition",
                      "attachment; filename=" ++ dquote ++ name ++ dquote)]
                (Stream pdfBuffer), w') /\
  view env' name w'
  = (mkResponse 200 [("Content-Type", "application/pdf");
                     ("Content-Disposition",
                      "inline; filename=" ++ dquote ++ name ++ dquote)]
                (Stream pdfBuffer), w').
Proof.
  intros Hheader Hcwd. cbv zeta. rewrite generated.
  assert (Hdir : reportsDir env' = reportsDir env)
    by (unfold reportsDir; rewrite Hcwd; reflexivity).
  unfold download, view, sendFile, generatedWorld. exec.
  unfold Fs.existsSync, Fs.readFile. rewrite Hdir.
  rewrite !disposition_accepted by (reflexivity || exact Hheader).
  repeat (cbn [disk negb]; rewrite lookup_insert_eq). cbn [content negb].
  split; reflexivity.
Qed.

(** The row a successful generate inserted is what both lookups return
    afterwards: by execution id and by the generated id. *)
Theorem generate_then_get (env' : Env) :
  dbOnline env' = true ->
  let w' := snd (generate env req w) in
  let row := completedRow env req e (JS.Arr elements) analysis pdfBuffer in
  getByExecution env' e w'
  = (json 200 (JS.Obj [("success", JS.Bool true); ("data", reportJson row)]), w') /\
  getById env' (cuid env) w'
  = (json 200 (JS.Obj [("success", JS.Bool true); ("data", reportJson row)]), w') /\
  Report.status row = "COMPLETED" /\
  Report.pdfPath row
  = Some (reportsDir env ++ "/" ++ reportFileName e (now env)) /\
  Report.inputFindings row = JS.assoc "findings" (reqBody req).
Proof.
  intros On'. destruct (dbOnline_calls env' On') as (Up0 & _). cbv zeta.
  rewrite generated.
  unfold getByExecution, getById, generatedWorld. exec.
  unfold Prisma.findUniqueByExecutionId, Prisma.findUniqueById, Prisma.connected.
  rewrite Up0. cbn [table].
  rewrite (find_snoc_fresh (cuid env) (table w) _ new_id) by reflexivity.
  rewrite (find_snoc_execution e (table w) _ new_execution) by reflexivity.
  rewrite body_findings. repeat split.
  cbn [completedRow Report.pdfPath]. f_equal.
  apply (reportPath_plain env e no_slash).
Qed.

(** After a successful generate whose execution id has no slash, the file
    listing of any later request in the same working directory names the
    new file, with the content that was written. *)
Lemma generated_listed (env' : Env) :
  cwd env' = cwd env ->
  let w' := snd (generate env req w) in
  In (reportFileName e (now env)) (listedNames env' w') /\
  exists files born,
    fst (listFiles env' w')
    = json 200 (JS.Obj [("success", JS.Bool true);
                        ("count", JS.int (Z.of_nat (length files)));
                        ("reports", JS.Arr (map fileJson files))]) /\
    In (reportFileName e (now env), mkFile pdfBuffer born) files.
Proof.
  intros Hcwd. cbv zeta. rewrite generated.
  assert (Hdir : reportsDir env' = reportsDir env)
    by (unfold reportsDir; rewrite Hcwd; reflexivity).
  pose proof (reportFileName_plain e (now env) no_slash) as (_ & _ & _ & Hs).
  assert (Hpdf : endsWith (reportFileName e (now env)) ".pdf" = true).
  { unfold reportFileName. rewrite <- !append_assoc. apply endsWith_app. }
  set (born := match disk w !! pathJoin (reportsDir env) (reportFileName e (now env)) with
               | Some f => birthtime f
               | None => now env
               end).
  assert (Hin : In (reportFileName e (now env), mkFile pdfBuffer born)
     (Query.sortBy (fun a b => (birthtime (snd b) <=? birthtime (snd a))%Z)
        (List.filter (fun entry => endsWith (fst entry) ".pdf")
           (omap (fun pf => match Fs.entryOf (reportsDir env') (fst pf) with
                            | Some name => Some (name, snd pf)
                            | None => None
                            end)
                 (map_to_list
                    (disk (generatedWorld env req w e (JS.Arr elements) analysis
                                          pdfBuffer))))))).
  { apply pdfFiles_entries. rewrite Hdir. unfold generatedWorld. cbn [disk].
    rewrite lookup_insert_eq. repeat split; assumption. }
  split.
  - unfold listedNames, pdfFiles, Fs.readdirSync. exec.
    apply in_map_iff. eexists. split; [|exact Hin]. reflexivity.
  - eexists. exists born. split; [|exact Hin].
    unfold listFiles, pdfFiles, Fs.readdirSync. exec. reflexivity.
Qed.

End GenerateThen.



Lemma generate_success_witness :
  let env := mkEnv "/app" 1700000000000 "ck1" (fun _ => true) noFilter
                   (fun _ => Ok [x25; x50; x44; x46]) Written in
  let findings := JS.Arr [JS.Obj [("severity", JS.Str "high")]; JS.Obj []] in
  let req := mkGenerate (Some [("executionId", JS.Str "exec-1"); ("findings", findings)])
                        "http" (Some "localhost:3000") in
  let w := mkWorld [] ∅ in
  let resp := fst (generate env req w) in
  let path := pathJoin (reportsDir env) (reportFileName "exec-1" 1700000000000) in
  statusCode resp = 200%Z /\
  field "success" (bodyJson resp) = JS.Bool true /\
  field "reportId" (field "data" (bodyJson resp)) = JS.Str "ck1" /\
  field "summary" (field "data" (bodyJson resp)) = analysisJson (mkAnalysis 2 0 1 1 0) /\
  field "fileName" (field "pdf" (field "data" (bodyJson resp)))
  = JS.Str (reportFileName "exec-1" 1700000000000) /\
  field "localPath" (field "pdf" (field "data" (bodyJson resp))) = JS.Str path /\
  field "status" (field "databaseRecord" (field "data" (bodyJson resp)))
  = JS.Str "COMPLETED" /\
  path = "/app/reports" ++ "/" ++ reportFileName "exec-1" 1700000000000 /\
  snd (generate env req w)
  = generatedWorld env req w "exec-1" findings (mkAnalysis 2 0 1 1 0)
                   [x25; x50; x44; x46] /\
  Report.pdfPath (completedRow env req "exec-1" findings (mkAnalysis 2 0 1 1 0)
                               [x25; x50; x44; x46]) = Some path /\
  disk (snd (generate env req w)) !! path
  = Some (mkFile [x25; x50; x44; x46] 1700000000000).
Proof.
  intros env findings req w.
  eapply (generate_success env req w "exec-1");
    [reflexivity | discriminate | reflexivity | reflexivity | reflexivity | reflexivity
    | reflexivity | reflexivity | reflexivity | reflexivity | reflexivity].
Defined.

Lemma generate_then_download_witness :
  let env := mkEnv "/app" 1700000000000 "ck1" (fun _ => true) noFilter
                   (fun _ => Ok [x25; x50; x44; x46]) Written in
  let later := mkEnv "/app" 1700000005000 "ck2" (fun _ => false) noFilter (fun _ => Ok [])
                     (OpenFails "EACCES: permission denied, open") in
  let req := mkGenerate (Some [("executionId", JS.Str "exec-1");
                               ("findings",
                                JS.Arr [JS.Obj [("severity", JS.Str "high")]])])
                        "http" (Some "localhost:3000") in
  let w := mkWorld [] ∅ in
  let w' := snd (generate env req w) in
  let name := reportFileName "exec-1" 1700000000000 in
  download later name w'
  = (mkResponse 200 [("Content-Type", "application/pdf");
                     ("Content-Disposition",
                      "attachment; filename=" ++ dquote ++ name ++ dquote)]
                (Stream [x25; x50; x44; x46]), w') /\
  view later name w'
  = (mkResponse 200 [("Content-Type", "application/pdf");
                     ("Content-Disposition",
                      "inline; filename=" ++ dquote ++ name ++ dquote)]
                (Stream [x25; x50; x44; x46]), w').
Proof.
  intros env later req w.
  eapply (generate_then_download env req w "exec-1");
    [reflexivity | discriminate | reflexivity | reflexivity | reflexivity | reflexivity
    | reflexivity | reflexivity | reflexivity | reflexivity | reflexivity | reflexivity
    | reflexivity].
Defined.

Lemma generate_then_get_witness :
  let env := mkEnv "/app" 1700000000000 "ck1" (fun _ => true) noFilter
                   (fun _ => Ok [x25; x50; x44; x46]) Written in
  let later := mkEnv "/app" 1700000005000 "ck2" (fun _ => true) noFilter (fun _ => Ok [])
                     Written in
  let findings := JS.Arr [JS.Obj [("severity", JS.Str "high")]] in
  let req := mkGenerate (Some [("executionId", JS.Str "exec-1"); ("findings", findings)])
                        "http" (Some "localhost:3000") in
  let w := mkWorld [] ∅ in
  let w' := snd (generate env req w) in
  let row := completedRow env req "exec-1" findings (mkAnalysis 1 0 1 0 0)
                          [x25; x50; x44; x46] in
  getByExecution later "exec-1" w'
  = (json 200 (JS.Obj [("success", JS.Bool true); ("data", reportJson row)]), w') /\
  getById later "ck1" w'
  = (json 200 (JS.Obj [("success", JS.Bool true); ("data", reportJson row)]), w') /\
  Report.status row = "COMPLETED" /\
  Report.pdfPath row
  = Some ("/app/reports" ++ "/" ++ reportFileName "exec-1" 1700000000000) /\
  Report.inputFindings row = JS.assoc "findings" (reqBody req).
Proof.
  intros env later findings req w.
  eapply (generate_then_get env req w "exec-1");
    [reflexivity | discriminate | reflexivity | reflexivity | reflexivity | reflexivity
    | reflexivity | reflexivity | reflexivity | reflexivity | reflexivity | reflexivity].
Defined.

(** After a successful generate request whose execution id has no slash,
    the file listing of any later request in the same working directory
    names the new file, with the size and content that were written. *)
Theorem generate_then_listed (env : Env) (req : GenerateRequest) (w : World)
        (e : string) (elements : list JS.value)
        (analysis : FindingsAnalysis) (normalized : list SecurityFinding)
        (pdfBuffer : Buffer) (env' : Env) :
  JS.assoc "executionId" (reqBody req) = JS.Str e ->
  e <> "" ->
  JS.assoc "findings" (reqBody req) = JS.Arr elements ->
  dbOnline env = true ->
  existsb (Prisma.hasExecutionId e) (table w) = false ->
  existsb (Prisma.hasId (cuid env)) (table w) = false ->
  analyzeFindings elements = Ok analysis ->
  mapIndexed (normalize env) 0 elements = Ok normalized ->
  renderPdf env (mkReportData e normalized (now env) analysis) = Ok pdfBuffer ->
  diskWritable env = true ->
  contains "/"%char e = false ->
  cwd env' = cwd env ->
  let w' := snd (generate env req w) in
  In (reportFileName e (now env)) (listedNames env' w') /\
  exists files born,
    fst (listFiles env' w')
    = json 200 (JS.Obj [("success", JS.Bool true);
                        ("count", JS.int (Z.of_nat (length files)));
                        ("reports", JS.Arr (map fileJson files))]) /\
    In (reportFileName e (now env), mkFile pdfBuffer born) files.
Proof.
  intros He Hne Hfi On Hnew Hid Ha Hn Hr Hd Hslash Hcwd.
  exact (generated_listed env req w e elements analysis normalized pdfBuffer
           He Hne Hfi On Hnew Hid Ha Hn Hslash Hr Hd env' Hcwd).
Qed.

Lemma generate_then_listed_witness :
  let env := mkEnv "/app" 1700000000000 "ck1" (fun _ => true) noFilter
                   (fun _ => Ok [x25; x50; x44; x46]) Written in
  let later := mkEnv "/app" 1700000005000 "ck2" (fun _ => false) noFilter (fun _ => Ok [])
                     (WriteFails 0 "ENOSPC: no space left on device, write") in
  let req := mkGenerate (Some [("executionId", JS.Str "exec-1");
                         ("findings", JS.Arr [JS.Obj [("severity", JS.Str "high")]])])
                        "http" (Some "localhost:3000") in
  let w := mkWorld [] ∅ in
  let w' := snd (generate env req w) in
  In (reportFileName "exec-1" 1700000000000) (listedNames later w') /\
  exists files born,
    fst (listFiles later w')
    = json 200 (JS.Obj [("success", JS.Bool true);
                        ("count", JS.int (Z.of_nat (length files)));
                        ("reports", JS.Arr (map fileJson files))]) /\
    In (reportFileName "exec-1" 1700000000000, mkFile [x25; x50; x44; x46] born) files.
Proof.
  intros env later req w.
  eapply (generate_then_listed env req w "exec-1");
    [reflexivity | discriminate | reflexivity | reflexivity | reflexivity | reflexivity
    | reflexivity | reflexivity | reflexivity | reflexivity | reflexivity | reflexivity].
Defined.

(* ===================================================================== *)
(** ** A deleted report in the file routes *)
(* ===================================================================== *)

(** Once a report is deleted, the download and view routes answer 404 for
    the file that the report recorded. *)
Theorem deleteReport_then_download (env : Env) (id_ : string) (w : World) (r : Report.t)
        (env' : Env) (name : string) :
  dbOnline env = true ->
  List.find (Prisma.hasId id_) (table w) = Some r ->
  Report.pdfPath r = Some (pathJoin (reportsDir env') name) ->
  let w' := snd (deleteReport env id_ w) in
  download env' name w' = (json 404 (failure "Report file not found"), w') /\
  view env' name w' = (json 404 (failure "Report file not found"), w').
Proof.
  intros On Hr Hp. cbv zeta. rewrite (deleteReport_found env id_ w On r Hr), Hp.
  cbn [snd].
  pose proof (pathJoin_not_empty (reportsDir env') name) as E.
  apply String.eqb_neq in E. rewrite E.
  unfold download, view, sendFile. exec. unfold Fs.existsSync. cbn [disk].
  rewrite lookup_delete_eq. split; reflexivity.
Qed.

Lemma deleteReport_then_download_witness :
  let row := Report.mk "ck1" "exec-1" (Some "Security Report - exec-1")
                       (JS.Arr []) (JS.Obj [])
                       (Some "http://localhost:3000/api/reports/download/report-exec-1-17.pdf")
                       (Some "/app/reports/report-exec-1-17.pdf") (Some "0.00 KB")
                       "COMPLETED" 17 17 17 in
  let env := mkEnv "/app" 20 "ck2" (fun _ => true) noFilter (fun _ => Ok []) Written in
  let w := mkWorld [row] {[ "/app/reports/report-exec-1-17.pdf" := mkFile [] 17 ]} in
  let w' := snd (deleteReport env "ck1" w) in
  download env "report-exec-1-17.pdf" w' = (json 404 (failure "Report file not found"), w') /\
  view env "report-exec-1-17.pdf" w' = (json 404 (failure "Report file not found"), w').
Proof.
  intros row env w.
  apply (deleteReport_then_download env "ck1" w row env "report-exec-1-17.pdf");
    reflexivity.
Defined.

(* ===================================================================== *)
(** ** POST /generate: an execution id that is no string *)
(* ===================================================================== *)

(** A generate request whose [executionId] is truthy but not a string (a
    number, [true], an array, an object) passes the validation and is
    refused by the lookup: it is answered 500, not 400.  Nothing is inserted
    and nothing is written.  The [catch] hands the same value to
    [updateMany]: when it is an object that the client takes for a filter
    and the database answers, every row that the filter selects is marked
    FAILED with the error of the lookup in its summary; when it is no
    object the world is left as it was. *)
Theorem generate_non_string_executionId
        (env : Env) (req : GenerateRequest) (w : World) :
  JS.isArray (JS.assoc "findings" (reqBody req)) = true ->
  JS.truthy (JS.assoc "executionId" (reqBody req)) = true ->
  isStr (JS.assoc "executionId" (reqBody req)) = false ->
  let w' := snd (generate env req w) in
  statusCode (fst (generate env req w)) = 500%Z /\
  field "error" (bodyJson (fst (generate env req w))) = JS.Str "Failed to generate report" /\
  disk w' = disk w /\
  length (table w') = length (table w) /\
  map Report.id (table w') = map Report.id (table w) /\
  (forall fields selects,
      JS.assoc "executionId" (reqBody req) = JS.Obj fields ->
      stringFilter env fields = Ok selects ->
      dbUp env 3 = true ->
      exists error,
        table w'
        = map (fun x => if selects (Report.executionId x) then failed env error x else x)
              (table w)) /\
  ((forall fields, JS.assoc "executionId" (reqBody req) <> JS.Obj fields) -> w' = w).
Proof.
  intros Harr Ht Hs. cbv zeta.
  assert (G : generate env req w
              = generateFailed env req
                  (PrismaError
                     "Argument `executionId`: Invalid value provided. Expected String.") w).
  { unfold generate, handler. exec.
    rewrite (destructure_truthy req "executionId" Ht), Ht.
    destruct (JS.assoc "findings" (reqBody req)); try discriminate Harr.
    cbn [JS.truthy JS.isArray negb orb].
    destruct (JS.assoc "executionId" (reqBody req)); try discriminate Hs; reflexivity. }
  rewrite G.
  destruct (generateFailed_effect env req
              (PrismaError
                 "Argument `executionId`: Invalid value provided. Expected String.") w)
    as [Hd Hr].
  split; [reflexivity|]. split; [reflexivity|]. split; [exact Hd|].
  split; [exact (rewrites_length _ _ Hr)|]. split; [exact (rewrites_ids _ _ Hr)|].
  unfold generateFailed. cbn [snd].
  rewrite (destructure_truthy req "executionId" Ht), Ht. split.
  - intros fields selects Ho Hf Up. rewrite Ho.
    unfold Prisma.updateMany, Prisma.connected. cbn [Prisma.executionIdFilter].
    rewrite Hf. cbn [bind]. rewrite Up. eexists. reflexivity.
  - intros Hno. unfold Prisma.updateMany.
    destruct (JS.assoc "executionId" (reqBody req)) as [| | | |s| |fields];
      try discriminate Ht; try discriminate Hs; try reflexivity.
    destruct (Hno fields eq_refl).
Qed.

Lemma generate_non_string_executionId_witness :
  let row := Report.mk "ck0" "exec-1" (Some "Security Report - exec-1")
                       (JS.Arr []) (JS.Obj [])
                       (Some "http://localhost:3000/api/reports/download/report-exec-1-17.pdf")
                       (Some "/app/reports/report-exec-1-17.pdf") (Some "0.00 KB")
                       "COMPLETED" 17 17 17 in
  let contains_exec := fun (_ : list (string * JS.value)) =>
    Ok (fun x : string => String.eqb (substring 0 4 x) "exec") in
  let env := mkEnv "/app" 1700000000000 "ck1" (fun _ => true) contains_exec
                   (fun _ => Ok []) Written in
  let req := mkGenerate (Some [("executionId", JS.Obj [("contains", JS.Str "exec")]);
                               ("findings", JS.Arr [])])
                        "http" (Some "localhost:3000") in
  let w := mkWorld [row] ∅ in
  statusCode (fst (generate env req w)) = 500%Z /\
  map Report.status (table (snd (generate env req w))) = ["FAILED"].
Proof.
  intros row contains_exec env req w.
  destruct (generate_non_string_executionId env req w eq_refl eq_refl eq_refl)
    as (S & _ & _ & _ & _ & F & _).
  split; [exact S|].
  destruct (F [("contains", JS.Str "exec")] _ eq_refl eq_refl eq_refl) as [error ->].
  reflexivity.
Defined.

(* ===================================================================== *)
(** ** What the routes do to the table *)
(* ===================================================================== *)

Lemma deleteReport_table (env : Env) (id_ : string) (w : World) :
  table (snd (deleteReport env id_ w)) = table w \/
  table (snd (deleteReport env id_ w))
  = List.filter (fun x => negb (Prisma.hasId id_ x)) (table w).
Proof.
  unfold deleteReport, handler. exec.
  unfold Prisma.findUniqueById, Prisma.connected.
  destruct (dbUp env 0); [|left; reflexivity].
  destruct (List.find (Prisma.hasId id_) (table w)) as [r|] eqn:F; [|left; reflexivity].
  assert (Hrm : forall w0, table (snd (removePdf r w0)) = table w0).
  { intros w0. unfold removePdf. destruct (Report.pdfPath r) as [p|]; [|reflexivity].
    destruct (String.eqb p ""); [reflexivity|]. exec. unfold Fs.existsSync, Fs.unlinkSync.
    destruct (disk w0 !! p) eqn:L; cbn [table disk]; rewrite ?L; reflexivity. }
  specialize (Hrm w). destruct (removePdf r w) as [[u|err] w1]; cbn [snd] in Hrm.
  - unfold Prisma.delete, Prisma.connected. rewrite Hrm.
    destruct (dbUp env 1); [|left; exact Hrm].
    rewrite F. right. reflexivity.
  - left. exact Hrm.
Qed.

(** The database test leaves the table as it was or, when the database
    stops answering after the insert, with its test row appended. *)
Lemma testDb_table (env : Env) (w : World) :
  table (snd (testDb env w)) = table w \/
  exists row,
    table (snd (testDb env w)) = (table w ++ [row])%list /\
    existsb (Prisma.hasId (Report.id row)) (table w) = false /\
    existsb (Prisma.hasExecutionId (Report.executionId row)) (table w) = false.
Proof.
  unfold testDb, handler. exec. unfold Prisma.queryRaw, Prisma.connected.
  destruct (dbUp env 0); [|left; reflexivity].
  unfold Prisma.create, Prisma.connected.
  destruct (dbUp env 1); [|left; reflexivity].
  destruct (existsb (Prisma.hasId (cuid env)) (table w)) eqn:Fresh; [left; reflexivity|].
  destruct (existsb (Prisma.hasExecutionId _) (table w)) eqn:FreshE; [left; reflexivity|].
  cbn [table disk]. unfold Prisma.count, Prisma.delete, Prisma.connected.
  destruct (dbUp env 2);
    [|right; eexists; split; [reflexivity | split; [exact Fresh | exact FreshE]]].
  destruct (dbUp env 3);
    [|right; eexists; split; [reflexivity | split; [exact Fresh | exact FreshE]]].
  cbn [Report.id]. rewrite (find_snoc_fresh (cuid env) (table w) _ Fresh) by reflexivity.
  rewrite (filter_snoc_fresh (cuid env) (table w) _ Fresh) by reflexivity.
  left. reflexivity.
Qed.

Lemma fresh_not_in (key : Report.t -> string) (k : string) (t : list Report.t) :
  existsb (fun r => String.eqb (key r) k) t = false -> ~ In k (map key t).
Proof.
  induction t as [|x t IH]; cbn; [tauto|].
  intros H. apply orb_false_elim in H as [Hx Ht].
  apply String.eqb_neq in Hx. intros [E|I]; [congruence | exact (IH Ht I)].
Qed.

Lemma NoDup_snoc_key (key : Report.t -> string) (t : list Report.t) (row : Report.t) :
  NoDup (map key t) ->
  existsb (fun r => String.eqb (key r) (key row)) t = false ->
  NoDup (map key (t ++ [row])%list).
Proof.
  intros Hn Hf. rewrite map_app. cbn [map].
  apply NoDup_app. split; [exact Hn|]. split.
  - intros k Hk Hin. apply list_elem_of_In in Hin. cbn in Hin.
    destruct Hin as [<-|[]]. apply list_elem_of_In in Hk.
    exact (fresh_not_in key (key row) t Hf Hk).
  - apply NoDup_singleton.
Qed.

Lemma NoDup_filter_key (key : Report.t -> string) (p : Report.t -> bool)
      (t : list Report.t) :
  NoDup (map key t) -> NoDup (map key (List.filter p t)).
Proof.
  induction t as [|x t IH]; cbn [map List.filter]; [auto|].
  intros H. apply NoDup_cons in H as [Hx Ht].
  destruct (p x); [|apply IH, Ht].
  cbn [map]. apply NoDup_cons. split; [|apply IH, Ht].
  intros Hin. apply Hx. apply list_elem_of_In in Hin. apply list_elem_of_In.
  apply in_map_iff in Hin as [y [Ey Hy]]. apply filter_In in Hy as [Hy _].
  apply in_map_iff. eauto.
Qed.

(** No request ever makes two rows share an [id] or an [executionId]: a
    table whose keys are unique still has unique keys after any route has
    run, whatever the request and whatever the environment does. *)
Theorem route_keeps_keys_unique (env : Env) (request : Request) (w : World) :
  uniqueKeys w -> uniqueKeys (snd (route env request w)).
Proof.
  intros [Hid Hex]. destruct (mutating request) eqn:Hm.
  2:{ rewrite (route_world_kept env request w Hm). split; assumption. }
  destruct request; try discriminate Hm; cbn [route]; unfold uniqueKeys.
  - destruct (generate_effect env req w)
      as [[Ht _]|(e & row & _ & _ & Fex & Fid & Hrow & _ & Ht & _)].
    + rewrite (rewrites_ids _ _ Ht), (rewrites_executionIds _ _ Ht). split; assumption.
    + rewrite (rewrites_ids _ _ Ht), (rewrites_executionIds _ _ Ht). split.
      * exact (NoDup_snoc_key Report.id _ _ Hid Fid).
      * apply (NoDup_snoc_key Report.executionId _ _ Hex). rewrite Hrow. exact Fex.
  - destruct (deleteReport_table env id_ w) as [->| ->]; [split; assumption|].
    split; apply NoDup_filter_key; assumption.
  - destruct (testDb_table env w) as [->|(row & -> & Fid & Fex)]; [split; assumption|].
    split.
    + exact (NoDup_snoc_key Report.id _ _ Hid Fid).
    + exact (NoDup_snoc_key Report.executionId _ _ Hex Fex).
Qed.

Lemma route_keeps_keys_unique_witness :
  let row := Report.mk "ck1" "exec-1" None (JS.Arr []) (JS.Obj []) None None None
                       "FAILED" 17 17 17 in
  let env := mkEnv "/app" 1700000000000 "ck1" (fun _ => true) noFilter (fun _ => Ok [])
                   Written in
  let request := PostGenerate (mkGenerate (Some [("executionId", JS.Str "exec-2");
                                                 ("findings", JS.Arr [])])
                                          "http" (Some "localhost:3000")) in
  let w := mkWorld [row] ∅ in
  uniqueKeys (snd (route env request w)).
Proof.
  intros row env request w. apply (route_keeps_keys_unique env request w).
  subst w row. split; cbn [table map Report.id Report.executionId];
    apply NoDup_singleton.
Defined.

(** Every row stays where the life cycle puts it: if every row of the table
    is PROCESSING without PDF fields, COMPLETED with all of them, or FAILED,
    the same holds after any route has run, whether or not the database
    answers and whatever the renderer and the disk do.  The database test,
    which inserts a COMPLETED row that has no file, is the exception: it
    keeps the property when the database answers throughout, and it then
    removes its row. *)
Theorem route_keeps_lifecycle (env : Env) (request : Request) (w : World) :
  (request = GetTestDb -> dbOnline env = true) ->
  Forall lifecycle (table w) -> Forall lifecycle (table (snd (route env request w))).
Proof.
  intros Htest Hall. destruct (mutating request) eqn:Hm.
  2:{ rewrite (route_world_kept env request w Hm). exact Hall. }
  destruct request; try discriminate Hm; cbn [route].
  - destruct (generate_effect env req w)
      as [[Ht _]|(e & row & _ & _ & _ & _ & _ & Hrow & Ht & _)].
    + exact (rewrites_lifecycle _ _ Ht Hall).
    + apply (rewrites_lifecycle _ _ Ht). apply Forall_app. split; [exact Hall|].
      constructor; [exact Hrow | constructor].
  - destruct (deleteReport_table env id_ w) as [->| ->]; [exact Hall|].
    apply List.Forall_forall. intros x Hx. apply filter_In in Hx as [Hx _].
    exact (proj1 (List.Forall_forall _ _) Hall x Hx).
  - rewrite (testDb_world env w (Htest eq_refl)). exact Hall.
Qed.

Lemma route_keeps_lifecycle_witness :
  let row := Report.mk "ck1" "exec-1" None (JS.Arr []) (JS.Obj []) None None None
                       "PROCESSING" 17 17 17 in
  let env := mkEnv "/app" 1700000000000 "ck2" (fun k => Nat.eqb k 0) noFilter
                   (fun _ => Ok []) Written in
  let request := PostGenerate (mkGenerate (Some [("executionId", JS.Str "exec-1");
                                                 ("findings", JS.Arr [])])
                                          "http" (Some "localhost:3000")) in
  let w := mkWorld [row] ∅ in
  Forall lifecycle (table (snd (route env request w))).
Proof.
  intros row env request w. apply (route_keeps_lifecycle env request w).
  - discriminate.
  - subst w row. constructor; [|constructor]. left. cbn. repeat split.
Defined.

(* ===================================================================== *)
(** ** The paths of the report files *)
(* ===================================================================== *)

(** An execution id with a slash in it makes [path.join] fold the file name:
    the ids [/../report-b] and [b] are written to the same file. *)
Lemma reportPath_shared :
  let env := mkEnv "/app" 17 "ck1" (fun _ => true) noFilter (fun _ => Ok []) Written in
  pathJoin (reportsDir env) (reportFileName "/../report-b" 17)
  = pathJoin (reportsDir env) (reportFileName "b" 17).
Proof. vm_compute. reflexivity. Qed.

(** The path [<reportsDir>/report-<executionId>-<time>.pdf] that a generate
    request writes to determines both the execution id and the time, for
    execution ids without a slash and times that are not negative (as
    [Date.now()] is): two such requests write to the same file only when
    they carry the same execution id in the same millisecond. *)
Theorem reportPath_injective (env : Env) (e1 e2 : string) (t1 t2 : Z) :
  contains "/"%char e1 = false -> contains "/"%char e2 = false ->
  (0 <= t1)%Z -> (0 <= t2)%Z ->
  pathJoin (reportsDir env) (reportFileName e1 t1)
  = pathJoin (reportsDir env) (reportFileName e2 t2) ->
  e1 = e2 /\ t1 = t2.
Proof.
  intros S1 S2 H1 H2 H.
  rewrite (pathJoin_plain env _ (reportFileName_plain e1 t1 S1)),
          (pathJoin_plain env _ (reportFileName_plain e2 t2 S2)) in H.
  apply app_inv_head_string, app_inv_head_string in H.
  unfold reportFileName in H.
  apply (app_inv_head_string "report-") in H.
  rewrite <- !append_assoc in H.
  apply app_inv_tail_string in H.
  rewrite !append_assoc in H. cbn [append] in H.
  apply split_at_last in H; try (apply pretty_Z_no_dash; assumption).
  destruct H as [-> H]. split; [reflexivity|].
  apply (inj pretty) in H. exact H.
Qed.

Lemma reportPath_injective_witness :
  "run-7" = "run-7" /\ 1700000000000%Z = 1700000000000%Z.
Proof.
  apply (reportPath_injective
           (mkEnv "/app" 17 "ck1" (fun _ => true) noFilter (fun _ => Ok []) Written)
           "run-7" "run-7" 1700000000000 1700000000000);
    [reflexivity | reflexivity | lia | lia | reflexivity].
Defined.

(* ===================================================================== *)
(** ** GET /: paging through the list *)
(* ===================================================================== *)

Lemma pages_concat {A B : Type} (f : A -> B) (m : nat) (rows : list A) (n : nat) :
  concat (map (fun k => map f (firstn m (skipn (k * m) rows))) (seq 0 n))
  = map f (firstn (n * m) rows).
Proof.
  induction n as [|n IH]; [reflexivity|].
  rewrite seq_S, map_app, concat_app, IH. cbn [map concat Nat.add].
  rewrite app_nil_r, <- map_app. f_equal.
  rewrite take_take_drop. f_equal. lia.
Qed.

Lemma ascii_compare_N (a b : ascii) :
  Ascii.compare a b = N.compare (N_of_ascii a) (N_of_ascii b).
Proof. reflexivity. Qed.

Lemma string_leb_trans (a b c : string) :
  String.leb a b = true -> String.leb b c = true -> String.leb a c = true.
Proof.
  unfold String.leb. revert b c.
  induction a as [|x a IH]; intros [|y b] [|z c]; cbn [String.compare];
    try discriminate; try reflexivity.
  rewrite !ascii_compare_N.
  destruct (N.compare_spec (N_of_ascii x) (N_of_ascii y)) as [Exy|Lxy|Gxy];
    try discriminate;
    destruct (N.compare_spec (N_of_ascii y) (N_of_ascii z)) as [Eyz|Lyz|Gyz];
    try discriminate; intros Hab Hbc.
  - rewrite (proj2 (N.compare_eq_iff _ _)) by congruence. exact (IH _ _ Hab Hbc).
  - rewrite (proj2 (N.compare_lt_iff _ _)) by lia. reflexivity.
  - rewrite (proj2 (N.compare_lt_iff _ _)) by lia. reflexivity.
  - rewrite (proj2 (N.compare_lt_iff _ _)) by lia. reflexivity.
Qed.

Lemma keyLe_total (a b : Query.SortKey) :
  Query.keyLe a b = true \/ Query.keyLe b a = true.
Proof.
  destruct a as [[x|]|x], b as [[y|]|y]; cbn [Query.keyLe]; auto.
  - apply String.leb_total.
  - lia.
Qed.

Lemma keyLe_trans (a b c : Query.SortKey) :
  Query.keyLe a b = true -> Query.keyLe b c = true -> Query.keyLe a c = true.
Proof.
  destruct a as [[x|]|x], b as [[y|]|y], c as [[z|]|z]; cbn [Query.keyLe];
    try discriminate; try reflexivity.
  - apply string_leb_trans.
  - lia.
Qed.

Lemma keyLe_antisym (a b : Query.SortKey) :
  Query.keyLe a b = true -> Query.keyLe b a = true -> a = b.
Proof.
  destruct a as [[x|]|x], b as [[y|]|y]; cbn [Query.keyLe];
    try discriminate; try reflexivity.
  - intros H1 H2. rewrite (String.leb_antisym _ _ H1 H2). reflexivity.
  - intros H1 H2. f_equal. lia.
Qed.

(** A list without two equal sort keys has one sorted order. *)
Lemma sorted_unique {A K : Type} (key : A -> K) (le : A -> A -> bool) (l1 l2 : list A) :
  (forall a b, le a b = true -> le b a = true -> key a = key b) ->
  Permutation l1 l2 -> List.NoDup (map key l1) ->
  StronglySorted (fun a b => le a b = true) l1 ->
  StronglySorted (fun a b => le a b = true) l2 -> l1 = l2.
Proof.
  intros Hanti. revert l2.
  induction l1 as [|a l1 IH]; intros l2 Hp Hn H1 H2.
  - apply Permutation_nil in Hp. subst. reflexivity.
  - destruct l2 as [|b l2]; [apply Permutation_sym, Permutation_nil in Hp; discriminate|].
    inversion Hn as [|? ? Hna Hn1]; subst.
    inversion H1 as [|? ? Hs1 Hf1]; subst.
    inversion H2 as [|? ? Hs2 Hf2]; subst.
    assert (Hab : a = b).
    { assert (Ia : In a (b :: l2)) by (apply (Permutation_in _ Hp); left; reflexivity).
      assert (Ib : In b (a :: l1))
        by (apply (Permutation_in _ (Permutation_sym Hp)); left; reflexivity).
      destruct Ia as [E|Ia]; [symmetry; exact E|].
      destruct Ib as [E|Ib]; [exact E|].
      exfalso. apply Hna.
      rewrite (Hanti a b (proj1 (List.Forall_forall _ _) Hf1 b Ib)
                     (proj1 (List.Forall_forall _ _) Hf2 a Ia)).
      apply in_map. exact Ib. }
    subst b. f_equal. apply IH; try assumption.
    exact (Permutation_cons_inv Hp).
Qed.

(** Paging through the list with a positive limit returns every selected
    row exactly once and in the order of the sort, when no two selected rows
    have the same value in the sort column (the query names no second
    column that would order such rows) and the offsets stay below [2^31]:
    the selected rows have one order [rows] by the sort column; the pages 1
    to [n], one after the other, are [rows], as soon as [n] pages can hold
    them; and none of these pages has more rows than the limit. *)
Theorem listReports_pages_cover (env : Env) (q : ListQuery) (w : World)
        (key : Report.t -> Query.SortKey) (asc : bool) (n : nat) :
  dbOnline env = true ->
  Query.column (default "createdAt" (sortBy q)) = Some key ->
  Query.direction (default "desc" (sortOrder q)) = Some asc ->
  (0 < default 20 (limit q))%Z ->
  (Z.of_nat n * default 20 (limit q) < 2 ^ 31)%Z ->
  (Z.of_nat (length (selected q w)) <= Z.of_nat n * default 20 (limit q))%Z ->
  List.NoDup (map key (selected q w)) ->
  let ordered := fun a b => (if asc then Query.keyLe (key a) (key b)
                             else Query.keyLe (key b) (key a)) = true in
  let pageRows := fun k : nat =>
    items (field "data" (bodyJson (fst (listReports env (pageOf q (Z.of_nat k + 1)) w)))) in
  exists rows,
    Permutation rows (selected q w) /\
    StronglySorted ordered rows /\
    (forall rows', Permutation rows' (selected q w) -> StronglySorted ordered rows' ->
                   rows' = rows) /\
    concat (map pageRows (seq 0 n)) = map selectJson rows /\
    forall k, (k < n)%nat -> (Z.of_nat (length (pageRows k)) <= default 20 (limit q))%Z.
Proof.
  intros On Hc Hd Hl Hbound Hn Hkeys ordered pageRows.
  set (L := default 20%Z (limit q)) in *.
  set (le := fun a b => if asc then Query.keyLe (key a) (key b)
                        else Query.keyLe (key b) (key a)).
  set (rows := Query.sortBy le (selected q w)).
  assert (Hpage : forall k,
             pageRows k
             = map selectJson (firstn (Z.to_nat L) (skipn (k * Z.to_nat L) rows))).
  { intros k. unfold pageRows.
    pose proof (listReports_ok env (pageOf q (Z.of_nat k + 1)) w On key asc Hc Hd) as Hok.
    change (default 1 (page (pageOf q (Z.of_nat k + 1)))) with (Z.of_nat k + 1) in Hok.
    change (default 20 (limit (pageOf q (Z.of_nat k + 1)))) with L in Hok.
    change (selected (pageOf q (Z.of_nat k + 1)) w) with (selected q w) in Hok.
    rewrite Hok by nia.
    change (map selectJson (Query.window ((Z.of_nat k + 1 - 1) * L) L rows)
            = map selectJson (firstn (Z.to_nat L) (skipn (k * Z.to_nat L) rows))).
    unfold Query.window.
    destruct (Z.leb_spec 0 L) as [_|?]; [|lia].
    replace (Z.to_nat ((Z.of_nat k + 1 - 1) * L)) with (k * Z.to_nat L)%nat by nia.
    reflexivity. }
  assert (Hsorted : StronglySorted ordered rows).
  { apply (sortBy_sorted le).
    - intros a b. unfold le. destruct asc; apply keyLe_total.
    - intros a b c. unfold le. destruct asc; [apply keyLe_trans|].
      intros H1 H2. exact (keyLe_trans _ _ _ H2 H1). }
  exists rows. split; [apply sortBy_perm|]. split; [exact Hsorted|]. split; [|split].
  - intros rows' Hp Hs.
    apply (sorted_unique key le); try assumption.
    + intros a b. unfold le. destruct asc; intros H1 H2;
        [exact (keyLe_antisym _ _ H1 H2) | exact (keyLe_antisym _ _ H2 H1)].
    + rewrite Hp. symmetry. apply sortBy_perm.
    + apply (Permutation_NoDup (l := map key (selected q w))); [|exact Hkeys].
      apply Permutation_map, Permutation_sym, Hp.
  - rewrite (map_ext _ _ Hpage), pages_concat. f_equal.
    apply firstn_all2.
    assert (length rows = length (selected q w))
      by (apply Permutation_length, sortBy_perm).
    nia.
  - intros k _. rewrite Hpage, length_map, length_firstn. lia.
Qed.

Lemma listReports_pages_cover_witness :
  let row := fun i t => Report.mk i i None (JS.Arr []) (JS.Obj []) None None None
                                  "COMPLETED" t t t in
  let env := mkEnv "/app" 100 "ck9" (fun _ => true) noFilter (fun _ => Ok []) Written in
  let q := mkListQuery None (Some 2) None None None in
  let w := mkWorld [row "a" 1; row "b" 3; row "c" 2] ∅ in
  let pageRows := fun k : nat =>
    items (field "data" (bodyJson (fst (listReports env (pageOf q (Z.of_nat k + 1)) w)))) in
  concat (map pageRows (seq 0 2))
  = map selectJson [row "b" 3; row "c" 2; row "a" 1].
Proof.
  intros row env q w pageRows.
  destruct (listReports_pages_cover env q w
              (fun r => Query.Date (Report.createdAt r)) false 2)
    as (rows & _ & _ & Hunique & Hpages & _);
    [reflexivity | reflexivity | reflexivity | reflexivity | reflexivity
    | vm_compute; discriminate
    | repeat constructor; cbn; intuition discriminate |].
  fold pageRows in Hpages. rewrite Hpages. f_equal. symmetry. apply Hunique.
  - exact (Permutation_sym (Permutation_cons_append [row "b" 3; row "c" 2] (row "a" 1))).
  - repeat constructor.
Defined.

(* ===================================================================== *)
(** ** The storage integration: configuration *)
(* ===================================================================== *)

Lemma isConfigured_inv (p : Cloudinary.ProcessEnv) :
  Cloudinary.isConfigured p = true ->
  exists cloudName apiKey apiSecret,
    Cloudinary.CLOUDINARY_CLOUD_NAME p = Some cloudName /\
    Cloudinary.CLOUDINARY_API_KEY p = Some apiKey /\
    Cloudinary.CLOUDINARY_API_SECRET p = Some apiSecret /\
    cloudName <> "" /\ apiKey <> "" /\ apiSecret <> "" /\
    cloudName <> "your_cloud_name_here" /\ apiKey <> "your_api_key_here" /\
    apiSecret <> "your_api_secret_here" /\
    Cloudinary.trim cloudName <> "" /\ Cloudinary.trim apiKey <> "" /\
    Cloudinary.trim apiSecret <> "".
Proof.
  unfold Cloudinary.isConfigured.
  destruct (Cloudinary.CLOUDINARY_CLOUD_NAME p) as [cloudName|]; [|discriminate].
  destruct (Cloudinary.CLOUDINARY_API_KEY p) as [apiKey|]; [|discriminate].
  destruct (Cloudinary.CLOUDINARY_API_SECRET p) as [apiSecret|]; [|discriminate].
  intros H. repeat (apply andb_prop in H as [H ?]).
  exists cloudName, apiKey, apiSecret.
  repeat match goal with
         | H : negb _ = true |- _ => apply negb_true_iff, String.eqb_neq in H
         end.
  repeat split; assumption.
Qed.

(** Credentials that [isConfigured] accepts are credentials that
    [configureCloudinary] hands to the SDK, and the status report then shows
    the cloud name of the environment and both secrets as present. *)
Theorem isConfigured_implies_configureCloudinary (p : Cloudinary.ProcessEnv) :
  Cloudinary.isConfigured p = true ->
  Cloudinary.configureCloudinary p = true /\
  Cloudinary.getConfigStatus p
  = Cloudinary.mkConfigStatus true (default "" (Cloudinary.CLOUDINARY_CLOUD_NAME p))
                              true true /\
  Cloudinary.CLOUDINARY_CLOUD_NAME p
  = Some (Cloudinary.cloudName (Cloudinary.getConfigStatus p)).
Proof.
  intros H. unfold Cloudinary.getConfigStatus, Cloudinary.configureCloudinary. rewrite H.
  destruct (isConfigured_inv p H)
    as (cloudName & apiKey & apiSecret & -> & -> & -> & Hn & Hk & Hs & _).
  apply String.eqb_neq in Hn, Hk, Hs. cbn [Cloudinary.isSet Cloudinary.cloudName default].
  rewrite Hn, Hk, Hs. repeat split.
Qed.

Lemma isConfigured_implies_configureCloudinary_witness :
  let p := Cloudinary.mkProcessEnv (Some "acme") (Some "12345") (Some "s3cret") in
  Cloudinary.configureCloudinary p = true /\
  Cloudinary.getConfigStatus p
  = Cloudinary.mkConfigStatus true (default "" (Cloudinary.CLOUDINARY_CLOUD_NAME p))
                              true true /\
  Cloudinary.CLOUDINARY_CLOUD_NAME p
  = Some (Cloudinary.cloudName (Cloudinary.getConfigStatus p)).
Proof.
  intros p. apply (isConfigured_implies_configureCloudinary p). reflexivity.
Defined.

(** The converse fails: three credentials that are set, one of which is
    blank or still the placeholder of the sample environment file, are
    handed to the SDK by [configureCloudinary], which reports success, while
    [isConfigured] is false and every [uploadBuffer] is rejected before the
    SDK is called. *)
Theorem placeholder_credentials_rejected (cloudName apiKey apiSecret : string) :
  cloudName <> "" -> apiKey <> "" -> apiSecret <> "" ->
  Cloudinary.trim cloudName = "" \/ Cloudinary.trim apiKey = "" \/
  Cloudinary.trim apiSecret = "" \/ cloudName = "your_cloud_name_here" \/
  apiKey = "your_api_key_here" \/ apiSecret = "your_api_secret_here" ->
  let p := Cloudinary.mkProcessEnv (Some cloudName) (Some apiKey) (Some apiSecret) in
  Cloudinary.configureCloudinary p = true /\
  Cloudinary.isConfigured p = false /\
  forall (A : Type) (sdk : string -> Buffer -> Cloudinary.UploadOutcome A)
         (timestamp : Z) (fileBuffer : Buffer) (fileName folder : string),
    Cloudinary.uploadBuffer sdk p timestamp fileBuffer fileName folder
    = inl "Cloudinary is not configured. Check your environment variables.".
Proof.
  intros Hn Hk Hs H p.
  assert (C : Cloudinary.isConfigured p = false).
  { destruct (Cloudinary.isConfigured p) eqn:E; [|reflexivity].
    destruct (isConfigured_inv p E)
      as (n & k & s & [= <-] & [= <-] & [= <-] & _ & _ & _ & ? & ? & ? & ? & ? & ?).
    intuition congruence. }
  split; [|split; [exact C|]].
  - unfold Cloudinary.configureCloudinary. cbn [Cloudinary.isSet p
      Cloudinary.CLOUDINARY_CLOUD_NAME Cloudinary.CLOUDINARY_API_KEY
      Cloudinary.CLOUDINARY_API_SECRET].
    apply String.eqb_neq in Hn, Hk, Hs. subst p. cbn. rewrite Hn, Hk, Hs. reflexivity.
  - intros. unfold Cloudinary.uploadBuffer. rewrite C. reflexivity.
Qed.

Lemma placeholder_credentials_rejected_witness :
  let p := Cloudinary.mkProcessEnv (Some "acme") (Some "   ") (Some "s3cret") in
  Cloudinary.configureCloudinary p = true /\
  Cloudinary.isConfigured p = false /\
  forall (A : Type) (sdk : string -> Buffer -> Cloudinary.UploadOutcome A)
         (timestamp : Z) (fileBuffer : Buffer) (fileName folder : string),
    Cloudinary.uploadBuffer sdk p timestamp fileBuffer fileName folder
    = inl "Cloudinary is not configured. Check your environment variables.".
Proof.
  apply (placeholder_credentials_rejected "acme" "   " "s3cret");
    [discriminate | discriminate | discriminate | right; left; reflexivity].
Defined.

(* ===================================================================== *)
(** ** The storage integration: public ids *)
(* ===================================================================== *)

Lemma extensionTail_no_dot (s : string) :
  Cloudinary.extensionTail s = true -> contains "."%char s = false.
Proof.
  induction s as [|c s IH]; [discriminate|]. cbn [Cloudinary.extensionTail contains].
  intros H. apply andb_prop in H as [H Ht]. apply andb_prop in H as [_ Hd].
  apply negb_true_iff in Hd. rewrite Hd. cbn [orb].
  destruct s; [reflexivity | exact (IH Ht)].
Qed.

Lemma extensionTail_app_dot (a b : string) :
  Cloudinary.extensionTail (a ++ String "." b) = false.
Proof.
  destruct (Cloudinary.extensionTail (a ++ String "." b)) eqn:E; [|reflexivity].
  apply extensionTail_no_dot in E. rewrite contains_app in E. cbn [contains] in E.
  rewrite Ascii.eqb_refl, orb_true_r in E. discriminate E.
Qed.

Lemma cleanFileName_cut (base ext : string) :
  Cloudinary.extensionTail ext = true ->
  Cloudinary.cleanFileName (base ++ String "." ext) = base.
Proof.
  intros Hext. induction base as [|c base IH].
  - change (Cloudinary.cleanFileName (String "." ext) = "").
    cbn [Cloudinary.cleanFileName]. rewrite Ascii.eqb_refl, Hext. reflexivity.
  - change (Cloudinary.cleanFileName (String c (base ++ String "." ext)) = String c base).
    cbn [Cloudinary.cleanFileName]. rewrite extensionTail_app_dot, andb_false_r, IH.
    reflexivity.
Qed.

Lemma cleanFileName_keep (fileName : string) :
  (forall base ext, fileName = base ++ String "." ext ->
                    Cloudinary.extensionTail ext = false) ->
  Cloudinary.cleanFileName fileName = fileName.
Proof.
  induction fileName as [|c rest IH]; intros H; [reflexivity|].
  cbn [Cloudinary.cleanFileName].
  destruct (Ascii.eqb_spec c "."%char) as [->|Hc].
  - rewrite (H "" rest eq_refl). cbn [andb]. f_equal. apply IH.
    intros base ext ->. apply (H (String "." base) ext). reflexivity.
  - cbn [andb]. f_equal. apply IH.
    intros base ext ->. apply (H (String c base) ext). reflexivity.
Qed.

(** [uploadBuffer] cuts the name at its extension: a final dot followed by
    one or more characters that are neither a dot nor a slash.  A name with
    such an ending loses exactly that ending, whatever dots come before it;
    a name with no such ending (no dot, a trailing dot, a slash after the
    last dot) is kept whole. *)
Theorem cleanFileName_strips_extension :
  (forall base ext,
      Cloudinary.extensionTail ext = true ->
      Cloudinary.cleanFileName (base ++ "." ++ ext) = base) /\
  (forall fileName,
      (forall base ext, fileName = base ++ "." ++ ext ->
                        Cloudinary.extensionTail ext = false) ->
      Cloudinary.cleanFileName fileName = fileName) /\
  (forall fileName,
      contains "."%char fileName = false ->
      Cloudinary.cleanFileName fileName = fileName).
Proof.
  split; [|split].
  - intros base ext. apply cleanFileName_cut.
  - intros fileName. apply cleanFileName_keep.
  - intros fileName H. apply cleanFileName_keep. intros base ext ->.
    rewrite contains_app in H. cbn [contains] in H.
    rewrite Ascii.eqb_refl, orb_true_r in H. discriminate H.
Qed.

Lemma cleanFileName_strips_extension_witness :
  Cloudinary.cleanFileName ("archive.tar" ++ "." ++ "gz") = "archive.tar" /\
  Cloudinary.cleanFileName "README" = "README".
Proof.
  split.
  - apply (proj1 cleanFileName_strips_extension). reflexivity.
  - apply (proj2 (proj2 cleanFileName_strips_extension)). reflexivity.
Defined.

Lemma split_not_nil (sep : ascii) (s : string) : Cloudinary.split sep s <> [].
Proof.
  destruct s as [|c s]; cbn [Cloudinary.split]; [discriminate|].
  destruct (Ascii.eqb c sep); [discriminate|].
  destruct (Cloudinary.split sep s); discriminate.
Qed.

Lemma split_app (sep : ascii) (a b : string) :
  Cloudinary.split sep (a ++ String sep b)
  = (Cloudinary.split sep a ++ Cloudinary.split sep b)%list.
Proof.
  induction a as [|c a IH].
  - change (Cloudinary.split sep (String sep b) = ([""] ++ Cloudinary.split sep b)%list).
    cbn [Cloudinary.split]. rewrite Ascii.eqb_refl. reflexivity.
  - change (Cloudinary.split sep (String c (a ++ String sep b))
            = (Cloudinary.split sep (String c a) ++ Cloudinary.split sep b)%list).
    cbn [Cloudinary.split]. rewrite IH. destruct (Ascii.eqb c sep); [reflexivity|].
    pose proof (split_not_nil sep a) as Hn.
    destruct (Cloudinary.split sep a) as [|piece pieces]; [congruence|]. reflexivity.
Qed.

Lemma split_whole (sep : ascii) (s : string) :
  contains sep s = false -> Cloudinary.split sep s = [s].
Proof.
  induction s as [|c s IH]; [reflexivity|]. cbn [contains Cloudinary.split].
  intros H. apply orb_false_elim in H as [Hc Hs]. rewrite Hc, (IH Hs). reflexivity.
Qed.

(** Joining the pieces of a split gives the text back. *)
Lemma join_split (sep : ascii) (s : string) :
  Cloudinary.join (String sep "") (Cloudinary.split sep s) = s.
Proof.
  induction s as [|c s IH]; [reflexivity|]. cbn [Cloudinary.split].
  pose proof (split_not_nil sep s) as Hn.
  destruct (Ascii.eqb_spec c sep) as [->|_].
  - destruct (Cloudinary.split sep s) as [|piece pieces]; [congruence|].
    cbn [Cloudinary.join] in *. rewrite IH. reflexivity.
  - destruct (Cloudinary.split sep s) as [|piece pieces]; [congruence|].
    destruct pieces as [|q qs].
    + cbn [Cloudinary.join] in *. rewrite IH. reflexivity.
    + change (String c (Cloudinary.join (String sep "") (piece :: q :: qs)) = String c s).
      rewrite IH. reflexivity.
Qed.

Lemma storageFileName_cut (base ext : string) :
  contains "."%char ext = false ->
  Cloudinary.storageFileName (base ++ String "." ext) = base.
Proof.
  intros H. unfold Cloudinary.storageFileName.
  rewrite split_app, (split_whole _ _ H), removelast_last. apply join_split.
Qed.

(** The multer storage cuts the name at its last dot, so it agrees with
    [uploadBuffer] on a name that ends in an extension; on a name without
    any dot it keeps nothing, where [uploadBuffer] keeps the whole name: such
    an upload gets the public id [report__<timestamp>]. *)
Theorem storageFileName_last_dot :
  (forall base ext,
      contains "."%char ext = false ->
      Cloudinary.storageFileName (base ++ "." ++ ext) = base) /\
  (forall base ext,
      Cloudinary.extensionTail ext = true ->
      Cloudinary.storageFileName (base ++ "." ++ ext)
      = Cloudinary.cleanFileName (base ++ "." ++ ext)) /\
  (forall originalname timestamp,
      contains "."%char originalname = false ->
      Cloudinary.storageFileName originalname = "" /\
      Cloudinary.cleanFileName originalname = originalname /\
      Cloudinary.storagePublicId originalname timestamp
      = "report__" ++ pretty timestamp).
Proof.
  split; [|split].
  - intros base ext. apply storageFileName_cut.
  - intros base ext H. cbn [append]. rewrite (cleanFileName_cut _ _ H).
    apply storageFileName_cut, extensionTail_no_dot, H.
  - intros originalname timestamp H.
    assert (E : Cloudinary.storageFileName originalname = "").
    { unfold Cloudinary.storageFileName. rewrite (split_whole _ _ H). reflexivity. }
    split; [exact E|]. split.
    + apply cleanFileName_keep. intros base ext ->.
      rewrite contains_app in H. cbn [contains] in H.
      rewrite Ascii.eqb_refl, orb_true_r in H. discriminate H.
    + unfold Cloudinary.storagePublicId. rewrite E. reflexivity.
Qed.

Lemma storageFileName_last_dot_witness :
  Cloudinary.storageFileName ("archive.tar" ++ "." ++ "gz") = "archive.tar" /\
  Cloudinary.storageFileName ("archive.tar" ++ "." ++ "gz")
  = Cloudinary.cleanFileName ("archive.tar" ++ "." ++ "gz") /\
  Cloudinary.storageFileName "README" = "" /\
  Cloudinary.cleanFileName "README" = "README" /\
  Cloudinary.storagePublicId "README" 17 = "report__" ++ pretty 17%Z.
Proof.
  split; [|split].
  - apply (proj1 storageFileName_last_dot). reflexivity.
  - apply (proj1 (proj2 storageFileName_last_dot)). reflexivity.
  - apply (proj2 (proj2 storageFileName_last_dot)). reflexivity.
Defined.

(** Public ids are told apart by their timestamps: in one folder, two
    uploads get the same public id only when their cleaned names and their
    timestamps (not negative, as [Date.now()] is) are the same; likewise for
    the multer storage. *)
Theorem publicId_injective (folder f1 f2 : string) (t1 t2 : Z) :
  (0 <= t1)%Z -> (0 <= t2)%Z ->
  (Cloudinary.publicId folder f1 t1 = Cloudinary.publicId folder f2 t2 ->
   Cloudinary.cleanFileName f1 = Cloudinary.cleanFileName f2 /\ t1 = t2) /\
  (Cloudinary.storagePublicId f1 t1 = Cloudinary.storagePublicId f2 t2 ->
   Cloudinary.storageFileName f1 = Cloudinary.storageFileName f2 /\ t1 = t2).
Proof.
  intros H1 H2.
  assert (D : forall t, (0 <= t)%Z -> contains "_"%char (pretty t) = false).
  { intros t. apply pretty_Z_contains, not_a_digit. vm_compute. lia. }
  split; intros H.
  - unfold Cloudinary.publicId in H.
    apply app_inv_head_string in H. apply (app_inv_head_string "/") in H.
    cbn [append] in H.
    apply split_at_last in H; auto. destruct H as [-> H].
    split; [reflexivity|]. exact (inj pretty _ _ H).
  - unfold Cloudinary.storagePublicId in H.
    apply (app_inv_head_string "report_") in H. cbn [append] in H.
    apply split_at_last in H; auto. destruct H as [-> H].
    split; [reflexivity|]. exact (inj pretty _ _ H).
Qed.

Lemma publicId_injective_witness :
  (Cloudinary.cleanFileName "scan.pdf" = Cloudinary.cleanFileName "scan.txt" /\
   1700000000000%Z = 1700000000000%Z) /\
  (Cloudinary.storageFileName "scan.pdf" = Cloudinary.storageFileName "scan.txt" /\
   1700000000000%Z = 1700000000000%Z).
Proof.
  split.
  - apply (proj1 (publicId_injective "security_reports" "scan.pdf" "scan.txt"
                    1700000000000 1700000000000 ltac:(lia) ltac:(lia))).
    reflexivity.
  - apply (proj2 (publicId_injective "security_reports" "scan.pdf" "scan.txt"
                    1700000000000 1700000000000 ltac:(lia) ltac:(lia))).
    reflexivity.
Defined.

(* ===================================================================== *)
(** ** The severity chart *)
(* ===================================================================== *)

Lemma barWidth_bounds (count total : Q) :
  (0 <= count)%Q -> (count <= total)%Q ->
  (50 <= barWidth count total)%Q /\ (barWidth count total <= 300)%Q.
Proof.
  intros H0 Hle. unfold barWidth. split; [apply Q.le_max_l|].
  apply Q.max_lub; [discriminate|].
  assert (Hpos : (0 < Qmax 1 total)%Q).
  { apply Qlt_le_trans with 1%Q; [reflexivity | apply Q.le_max_l]. }
  assert (Hq : (count / Qmax 1 total <= 1)%Q).
  { apply Qle_shift_div_r; [exact Hpos|]. rewrite Qmult_1_l.
    apply Qle_trans with total; [exact Hle | apply Q.le_max_r]. }
  apply Qle_trans with (300 * 1)%Q; [|discriminate].
  apply Qmult_le_l; [reflexivity | exact Hq].
Qed.

(** For the counts that [analyzeFindings] returns, each of the four bars of
    the severity chart is between 50 and 300 points wide: drawn from x = 100
    it ends at or before x = 400, left of its label at x = 420.  (Division
    and multiplication round monotonically, so the bound holds for the
    floating-point value as well.) *)
Theorem barWidth_within_chart (findings : list JS.value) (analysis : FindingsAnalysis)
        (count : Z) :
  analyzeFindings findings = Ok analysis ->
  In count [criticalCount analysis; highCount analysis;
            mediumCount analysis; lowCount analysis] ->
  (50 <= barWidth (inject_Z count) (inject_Z (totalFindings analysis)))%Q /\
  (barWidth (inject_Z count) (inject_Z (totalFindings analysis)) <= 300)%Q.
Proof.
  intros Ha Hin.
  destruct (forallb classifiable findings) eqn:Hc.
  2:{ destruct (analyzeFindings_throws findings Hc) as [m Hm]. congruence. }
  rewrite (analyzeFindings_classifiable findings Hc) in Ha. injection Ha as <-.
  cbn [criticalCount highCount mediumCount lowCount totalFindings] in *.
  pose proof (tally_partition findings) as Hp.
  pose proof (tally_nonneg "CRITICAL" findings).
  pose proof (tally_nonneg "HIGH" findings).
  pose proof (tally_nonneg "MEDIUM" findings).
  pose proof (tally_nonneg "LOW" findings).
  assert (0 <= unrecognizedCount findings)%Z by (unfold unrecognizedCount; lia).
  apply barWidth_bounds.
  - change 0%Q with (inject_Z 0). rewrite <- Zle_Qle.
    cbn [In] in Hin. intuition lia.
  - rewrite <- Zle_Qle. cbn [In] in Hin. intuition lia.
Qed.

Lemma barWidth_within_chart_witness :
  let findings := [JS.Obj [("severity", JS.Str "high")]; JS.Obj [];
                   JS.Obj [("severity", JS.Str "info")]] in
  (50 <= barWidth (inject_Z 1) (inject_Z 3))%Q /\
  (barWidth (inject_Z 1) (inject_Z 3) <= 300)%Q.
Proof.
  intros findings.
  apply (barWidth_within_chart findings (mkAnalysis 3 0 1 1 0) 1);
    [reflexivity | right; left; reflexivity].
Defined.
